(** * Verification of the FPGA line-array hardware session ([hw.py])

    A shallow embedding of the [HW] class of
    [design/application/application/hw.py]: the register window, the
    double-buffer swap handshake, the gain and capture-mode setters, the
    LED animations and the session teardown, followed by the theorems
    that settle the properties stated about them.

    Python integers are unbounded, so every integer of the source is a
    [Z]; the bit operators [&], [|], [~], [<<] and [>>] are [Z.land],
    [Z.lor], [Z.lnot], [Z.shiftl] and [Z.shiftr], which agree with
    Python on negative numbers too (two's complement, infinite sign
    extension). A Python [PrimFloat.float] is an IEEE 754 binary64 number, which
    is what [PrimFloat.float] is; [0.1] below is the double nearest to
    one tenth, as it is in the source. *)

From Stdlib Require Import PrimFloat.
From Stdlib Require Import String ZArith List Bool Lia.
Import ListNotations.

Set Warnings "-inexact-float".

Local Open Scope Z_scope.

(** ** Exceptions *)

(** The [OSError] subclasses that [os.open] and [mmap.mmap] raise. *)
Inductive oserror : Type :=
| PermissionError
| FileNotFoundError
| OtherOSError.

(** The Python exceptions a method of [HW] can leave with. [ValueError]
    carries its message: the source raises it with two different
    messages and once with none, and [time.sleep] has its own. *)
Inductive exn : Type :=
| OSError (e : oserror)
| ValueError (msg : string)
| TypeError
| IndexError
| ZeroDivisionError
| AttributeError        (* an attribute that was never assigned, or None.close() *)
| BufferError           (* mmap.close() while the mapping is exported            *)
| OverflowError.        (* time.sleep of more than 2^63 nanoseconds              *)

(** How a call ends: it returns a value, it raises, or its busy-wait is
    still spinning when the fuel given to it is used up. *)
Inductive outcome (A : Type) : Type :=
| Ret (a : A)
| Exc (e : exn)
| Spin.

Arguments Ret {A} a.
Arguments Exc {A} e.
Arguments Spin {A}.

(** ** The bus *)

(** What crosses the boundary between the session and the outside
    world, in program order. The log is ghost state: no method reads
    it. *)
Inductive event : Type :=
| Rd (i v : Z)          (* r[i] was read and gave v     *)
| Wr (i v : Z)          (* v was stored to r[i]         *)
| Sleep (secs : float).   (* time.sleep(secs)   *)

(** Modelled from the spec: [VolatileU32Array] (module [volatile]) and
    the device behind the two mappings are not part of the sources
    under study. The spec gives the register array as [read(index)] and
    [write(index, value)] where every call is an actual transaction with
    the device; a read may therefore change the device and need not
    return what was last written. The sample memory is the 16 MiB
    window seen as two halves of signed 16-bit words. *)
Record Bus : Type := {
  dev : Type;
  bus_read : Z -> dev -> Z * dev;
  bus_write : Z -> Z -> dev -> dev;
  bus_sample : dev -> Z -> Z -> Z   (* half, index within the half *)
}.

(** Samples in one half: [np.frombuffer] of 0x100_0000 bytes as [int16],
    reshaped to two rows. *)
Definition half_len : Z := 0x100_0000 / 2 / 2.

(** ** The session object *)

Section Session.

Context {B : Bus}.

(** The attributes of an [HW] object. [d] and [r] say whether the
    attribute still holds its array ([true]) or [None] ([false]); the
    descriptors and mappings likewise. [_closed] is [None] as long as
    the attribute has not been assigned: the constructor assigns it only
    after the four acquisitions, or in its [except PermissionError]
    clause, and [close] and [__del__] read it first. [hw] is the device
    itself, which outlives the session. *)
Record HW : Type := {
  hw : dev B;
  log : list event;
  _buf_fd : bool;
  _reg_fd : bool;
  _buf_mmap : bool;
  _reg_mmap : bool;
  d : bool;
  r : bool;
  _closed : option bool;
  num_mics : Z;
  num_chans : Z;
  num_taps : Z;
  mic_freq_hz : Z;
  _store_raw_data : bool;
  idle_num : Z;
  previous_idle_num : Z;
  rec_blink_value : Z;
  rec_blink_state : bool
}.

(** Attribute assignment, [self.x = v], one function per attribute. *)

Definition with_hw (x : dev B) (s : HW) : HW :=
  {| hw := x; log := log s; _buf_fd := _buf_fd s; _reg_fd := _reg_fd s;
     _buf_mmap := _buf_mmap s; _reg_mmap := _reg_mmap s; d := d s;
     r := r s; _closed := _closed s; num_mics := num_mics s;
     num_chans := num_chans s; num_taps := num_taps s;
     mic_freq_hz := mic_freq_hz s; _store_raw_data := _store_raw_data s;
     idle_num := idle_num s; previous_idle_num := previous_idle_num s;
     rec_blink_value := rec_blink_value s;
     rec_blink_state := rec_blink_state s |}.

Definition with_log (x : list event) (s : HW) : HW :=
  {| hw := hw s; log := x; _buf_fd := _buf_fd s; _reg_fd := _reg_fd s;
     _buf_mmap := _buf_mmap s; _reg_mmap := _reg_mmap s; d := d s;
     r := r s; _closed := _closed s; num_mics := num_mics s;
     num_chans := num_chans s; num_taps := num_taps s;
     mic_freq_hz := mic_freq_hz s; _store_raw_data := _store_raw_data s;
     idle_num := idle_num s; previous_idle_num := previous_idle_num s;
     rec_blink_value := rec_blink_value s;
     rec_blink_state := rec_blink_state s |}.

Definition with_buf_fd (x : bool) (s : HW) : HW :=
  {| hw := hw s; log := log s; _buf_fd := x; _reg_fd := _reg_fd s;
     _buf_mmap := _buf_mmap s; _reg_mmap := _reg_mmap s; d := d s;
     r := r s; _closed := _closed s; num_mics := num_mics s;
     num_chans := num_chans s; num_taps := num_taps s;
     mic_freq_hz := mic_freq_hz s; _store_raw_data := _store_raw_data s;
     idle_num := idle_num s; previous_idle_num := previous_idle_num s;
     rec_blink_value := rec_blink_value s;
     rec_blink_state := rec_blink_state s |}.

Definition with_reg_fd (x : bool) (s : HW) : HW :=
  {| hw := hw s; log := log s; _buf_fd := _buf_fd s; _reg_fd := x;
     _buf_mmap := _buf_mmap s; _reg_mmap := _reg_mmap s; d := d s;
     r := r s; _closed := _closed s; num_mics := num_mics s;
     num_chans := num_chans s; num_taps := num_taps s;
     mic_freq_hz := mic_freq_hz s; _store_raw_data := _store_raw_data s;
     idle_num := idle_num s; previous_idle_num := previous_idle_num s;
     rec_blink_value := rec_blink_value s;
     rec_blink_state := rec_blink_state s |}.

Definition with_buf_mmap (x : bool) (s : HW) : HW :=
  {| hw := hw s; log := log s; _buf_fd := _buf_fd s; _reg_fd := _reg_fd s;
     _buf_mmap := x; _reg_mmap := _reg_mmap s; d := d s; r := r s;
     _closed := _closed s; num_mics := num_mics s;
     num_chans := num_chans s; num_taps := num_taps s;
     mic_freq_hz := mic_freq_hz s; _store_raw_data := _store_raw_data s;
     idle_num := idle_num s; previous_idle_num := previous_idle_num s;
     rec_blink_value := rec_blink_value s;
     rec_blink_state := rec_blink_state s |}.

Definition with_reg_mmap (x : bool) (s : HW) : HW :=
  {| hw := hw s; log := log s; _buf_fd := _buf_fd s; _reg_fd := _reg_fd s;
     _buf_mmap := _buf_mmap s; _reg_mmap := x; d := d s; r := r s;
     _closed := _closed s; num_mics := num_mics s;
     num_chans := num_chans s; num_taps := num_taps s;
     mic_freq_hz := mic_freq_hz s; _store_raw_data := _store_raw_data s;
     idle_num := idle_num s; previous_idle_num := previous_idle_num s;
     rec_blink_value := rec_blink_value s;
     rec_blink_state := rec_blink_state s |}.

Definition with_d (x : bool) (s : HW) : HW :=
  {| hw := hw s; log := log s; _buf_fd := _buf_fd s; _reg_fd := _reg_fd s;
     _buf_mmap := _buf_mmap s; _reg_mmap := _reg_mmap s; d := x; r := r s;
     _closed := _closed s; num_mics := num_mics s;
     num_chans := num_chans s; num_taps := num_taps s;
     mic_freq_hz := mic_freq_hz s; _store_raw_data := _store_raw_data s;
     idle_num := idle_num s; previous_idle_num := previous_idle_num s;
     rec_blink_value := rec_blink_value s;
     rec_blink_state := rec_blink_state s |}.

Definition with_r (x : bool) (s : HW) : HW :=
  {| hw := hw s; log := log s; _buf_fd := _buf_fd s; _reg_fd := _reg_fd s;
     _buf_mmap := _buf_mmap s; _reg_mmap := _reg_mmap s; d := d s; r := x;
     _closed := _closed s; num_mics := num_mics s;
     num_chans := num_chans s; num_taps := num_taps s;
     mic_freq_hz := mic_freq_hz s; _store_raw_data := _store_raw_data s;
     idle_num := idle_num s; previous_idle_num := previous_idle_num s;
     rec_blink_value := rec_blink_value s;
     rec_blink_state := rec_blink_state s |}.

Definition with_closed (x : option bool) (s : HW) : HW :=
  {| hw := hw s; log := log s; _buf_fd := _buf_fd s; _reg_fd := _reg_fd s;
     _buf_mmap := _buf_mmap s; _reg_mmap := _reg_mmap s; d := d s;
     r := r s; _closed := x; num_mics := num_mics s;
     num_chans := num_chans s; num_taps := num_taps s;
     mic_freq_hz := mic_freq_hz s; _store_raw_data := _store_raw_data s;
     idle_num := idle_num s; previous_idle_num := previous_idle_num s;
     rec_blink_value := rec_blink_value s;
     rec_blink_state := rec_blink_state s |}.

Definition with_num_mics (x : Z) (s : HW) : HW :=
  {| hw := hw s; log := log s; _buf_fd := _buf_fd s; _reg_fd := _reg_fd s;
     _buf_mmap := _buf_mmap s; _reg_mmap := _reg_mmap s; d := d s;
     r := r s; _closed := _closed s; num_mics := x;
     num_chans := num_chans s; num_taps := num_taps s;
     mic_freq_hz := mic_freq_hz s; _store_raw_data := _store_raw_data s;
     idle_num := idle_num s; previous_idle_num := previous_idle_num s;
     rec_blink_value := rec_blink_value s;
     rec_blink_state := rec_blink_state s |}.

Definition with_num_chans (x : Z) (s : HW) : HW :=
  {| hw := hw s; log := log s; _buf_fd := _buf_fd s; _reg_fd := _reg_fd s;
     _buf_mmap := _buf_mmap s; _reg_mmap := _reg_mmap s; d := d s;
     r := r s; _closed := _closed s; num_mics := num_mics s;
     num_chans := x; num_taps := num_taps s; mic_freq_hz := mic_freq_hz s;
     _store_raw_data := _store_raw_data s; idle_num := idle_num s;
     previous_idle_num := previous_idle_num s;
     rec_blink_value := rec_blink_value s;
     rec_blink_state := rec_blink_state s |}.

Definition with_num_taps (x : Z) (s : HW) : HW :=
  {| hw := hw s; log := log s; _buf_fd := _buf_fd s; _reg_fd := _reg_fd s;
     _buf_mmap := _buf_mmap s; _reg_mmap := _reg_mmap s; d := d s;
     r := r s; _closed := _closed s; num_mics := num_mics s;
     num_chans := num_chans s; num_taps := x; mic_freq_hz := mic_freq_hz s;
     _store_raw_data := _store_raw_data s; idle_num := idle_num s;
     previous_idle_num := previous_idle_num s;
     rec_blink_value := rec_blink_value s;
     rec_blink_state := rec_blink_state s |}.

Definition with_mic_freq_hz (x : Z) (s : HW) : HW :=
  {| hw := hw s; log := log s; _buf_fd := _buf_fd s; _reg_fd := _reg_fd s;
     _buf_mmap := _buf_mmap s; _reg_mmap := _reg_mmap s; d := d s;
     r := r s; _closed := _closed s; num_mics := num_mics s;
     num_chans := num_chans s; num_taps := num_taps s; mic_freq_hz := x;
     _store_raw_data := _store_raw_data s; idle_num := idle_num s;
     previous_idle_num := previous_idle_num s;
     rec_blink_value := rec_blink_value s;
     rec_blink_state := rec_blink_state s |}.

Definition with_store_raw_data (x : bool) (s : HW) : HW :=
  {| hw := hw s; log := log s; _buf_fd := _buf_fd s; _reg_fd := _reg_fd s;
     _buf_mmap := _buf_mmap s; _reg_mmap := _reg_mmap s; d := d s;
     r := r s; _closed := _closed s; num_mics := num_mics s;
     num_chans := num_chans s; num_taps := num_taps s;
     mic_freq_hz := mic_freq_hz s; _store_raw_data := x;
     idle_num := idle_num s; previous_idle_num := previous_idle_num s;
     rec_blink_value := rec_blink_value s;
     rec_blink_state := rec_blink_state s |}.

Definition with_idle_num (x : Z) (s : HW) : HW :=
  {| hw := hw s; log := log s; _buf_fd := _buf_fd s; _reg_fd := _reg_fd s;
     _buf_mmap := _buf_mmap s; _reg_mmap := _reg_mmap s; d := d s;
     r := r s; _closed := _closed s; num_mics := num_mics s;
     num_chans := num_chans s; num_taps := num_taps s;
     mic_freq_hz := mic_freq_hz s; _store_raw_data := _store_raw_data s;
     idle_num := x; previous_idle_num := previous_idle_num s;
     rec_blink_value := rec_blink_value s;
     rec_blink_state := rec_blink_state s |}.

Definition with_previous_idle_num (x : Z) (s : HW) : HW :=
  {| hw := hw s; log := log s; _buf_fd := _buf_fd s; _reg_fd := _reg_fd s;
     _buf_mmap := _buf_mmap s; _reg_mmap := _reg_mmap s; d := d s;
     r := r s; _closed := _closed s; num_mics := num_mics s;
     num_chans := num_chans s; num_taps := num_taps s;
     mic_freq_hz := mic_freq_hz s; _store_raw_data := _store_raw_data s;
     idle_num := idle_num s; previous_idle_num := x;
     rec_blink_value := rec_blink_value s;
     rec_blink_state := rec_blink_state s |}.

Definition with_rec_blink_value (x : Z) (s : HW) : HW :=
  {| hw := hw s; log := log s; _buf_fd := _buf_fd s; _reg_fd := _reg_fd s;
     _buf_mmap := _buf_mmap s; _reg_mmap := _reg_mmap s; d := d s;
     r := r s; _closed := _closed s; num_mics := num_mics s;
     num_chans := num_chans s; num_taps := num_taps s;
     mic_freq_hz := mic_freq_hz s; _store_raw_data := _store_raw_data s;
     idle_num := idle_num s; previous_idle_num := previous_idle_num s;
     rec_blink_value := x; rec_blink_state := rec_blink_state s |}.

Definition with_rec_blink_state (x : bool) (s : HW) : HW :=
  {| hw := hw s; log := log s; _buf_fd := _buf_fd s; _reg_fd := _reg_fd s;
     _buf_mmap := _buf_mmap s; _reg_mmap := _reg_mmap s; d := d s;
     r := r s; _closed := _closed s; num_mics := num_mics s;
     num_chans := num_chans s; num_taps := num_taps s;
     mic_freq_hz := mic_freq_hz s; _store_raw_data := _store_raw_data s;
     idle_num := idle_num s; previous_idle_num := previous_idle_num s;
     rec_blink_value := rec_blink_value s; rec_blink_state := x |}.

(** State and exception monad over the session: a raised exception
    keeps the mutations made before it, as in Python. *)
Definition M (A : Type) : Type := HW -> outcome A * HW.

Definition ret {A} (a : A) : M A := fun s => (Ret a, s).
Definition raise {A} (e : exn) : M A := fun s => (Exc e, s).
Definition spin {A} : M A := fun s => (Spin, s).

Definition bind {A C} (m : M A) (k : A -> M C) : M C :=
  fun s =>
    match m s with
    | (Ret a, s') => k a s'
    | (Exc e, s') => (Exc e, s')
    | (Spin, s') => (Spin, s')
    end.

Definition get : M HW := fun s => (Ret s, s).
Definition modify (f : HW -> HW) : M unit := fun s => (Ret tt, f s).

End Session.

Arguments HW B : clear implicits.
Arguments M B A : clear implicits.

Declare Scope hw_scope.
Delimit Scope hw_scope with hw.
Notation "x <- c1 ;; c2" := (bind c1 (fun x => c2))
  (at level 61, c1 at next level, right associativity) : hw_scope.
Notation "' pat <- c1 ;; c2" :=
  (bind c1 (fun x => match x with pat => c2 end))
  (at level 61, pat pattern, c1 at next level, right associativity) : hw_scope.
Notation "c1 ;; c2" := (bind c1 (fun _ => c2))
  (at level 61, right associativity) : hw_scope.
Local Open Scope hw_scope.

(** ** Python helpers *)

(** Truth value of an integer: [bool(z)], and [z] as a condition. *)
Definition truthy (z : Z) : bool := negb (z =? 0).

(** [l[n]] on a list: indices from [-len] to [len - 1] are valid, a
    negative one counts from the end; anything else is [IndexError]. *)
Definition py_getitem (l : list Z) (n : Z) : option Z :=
  let len := Z.of_nat (List.length l) in
  if (0 <=? n) && (n <? len) then nth_error l (Z.to_nat n)
  else if (- len <=? n) && (n <? 0) then nth_error l (Z.to_nat (n + len))
  else None.

(** Length of the slice [a[:stop]] of a sequence of length [len]. *)
Definition py_slice_len (stop len : Z) : Z :=
  if stop <? 0 then Z.max 0 (len + stop) else Z.min stop len.

(** Shape given by [reshape(-1, dim)] to [n] elements; [None] is
    numpy's [ValueError] (no row count fits). *)
Definition reshape_rows (n dim : Z) : option (Z * Z) :=
  if dim <=? 0 then None
  else if n mod dim =? 0 then Some (n / dim, dim)
  else None.

(** A view into the sample memory, as [get_data] returns it: no sample
    is copied, the view names a half, a length and a shape. *)
Record ndview : Type := {
  view_half : Z;
  view_len : Z;
  view_shape : Z * Z
}.

(** [float(z)] for an integer that a double holds exactly: doubling and
    adding one are exact below 2^53, which covers every value the
    constructor decodes (8 and 16 bits). *)
Fixpoint float_of_pos (p : positive) : float :=
  match p with
  | xH => 1%float
  | xO p' => (2 * float_of_pos p')%float
  | xI p' => (2 * float_of_pos p' + 1)%float
  end.

Definition float_of_Z (z : Z) : float :=
  match z with
  | Z0 => 0%float
  | Zpos p => float_of_pos p
  | Zneg p => (- float_of_pos p)%float
  end.

(** The argument of [time.sleep] in [set_store_raw_data],
    [(1/self.mic_freq_hz) * (self.num_taps + 10)], for a rate that is
    not zero: [/] on two integers is the correctly rounded quotient,
    which for integers a double holds is the division of the two
    doubles, and the product with an integer converts it first. Both
    operations round to the nearest double, as in the source. *)
Definition settle_seconds (freq taps : Z) : float :=
  (1 / float_of_Z freq * float_of_Z (taps + 10))%float.

(** What [time.sleep] does with its argument before it sleeps: a
    negative duration and a NaN are [ValueError]s (a NaN is not below
    zero, so the order of the two tests does not matter), and a duration
    beyond 2^63 nanoseconds is an [OverflowError] (what happens at 2^63
    itself depends on the platform; no duration here comes near).
    [None]: the call sleeps. *)
Definition sleep_refusal (secs : float) : option exn :=
  if (secs <? 0)%float then
    Some (ValueError "sleep length must be non-negative"%string)
  else if is_nan secs then
    Some (ValueError "Invalid value NaN (not a number)"%string)
  else if (secs * 1e9 <? 0x1p63)%float then None
  else Some OverflowError.

(** What the rest of the process holds when [close] runs. An array over
    the sample memory that is still referenced, such as a view returned
    by [get_data], keeps the mapping exported, and so does a buffer over
    the register mapping; a descriptor may have been closed behind the
    session's back. *)
Record Outside : Type := {
  views : list ndview;
  register_buffers : bool;
  buf_fd_valid : bool;
  reg_fd_valid : bool
}.

(** Nothing is held outside the session and nothing was taken from it. *)
Definition nothing_held : Outside :=
  {| views := []; register_buffers := false;
     buf_fd_valid := true; reg_fd_valid := true |}.

(** The caller still holds these views. *)
Definition holding (vs : list ndview) : Outside :=
  {| views := vs; register_buffers := false;
     buf_fd_valid := true; reg_fd_valid := true |}.

(** The sample mapping is exported. *)
Definition sample_buffers (out : Outside) : bool :=
  match views out with
  | [] => false
  | _ :: _ => true
  end.

(** ** Methods of [HW] *)

Section Methods.

Context {B : Bus}.

(** [self.r[i]]: one read transaction. After [close], [self.r] is
    [None] and subscripting it is a [TypeError]. *)
Definition reg_read (i : Z) : M B Z :=
  fun s =>
    if r s then
      let (v, h) := bus_read B i (hw s) in
      (Ret v, with_log (log s ++ [Rd i v]) (with_hw h s))
    else (Exc TypeError, s).

(** [self.r[i] = v]: one write transaction. *)
Definition reg_write (i v : Z) : M B unit :=
  fun s =>
    if r s then
      (Ret tt, with_log (log s ++ [Wr i v]) (with_hw (bus_write B i v (hw s)) s))
    else (Exc TypeError, s).

(** [self.r[i] &= rhs] and [self.r[i] |= rhs]: Python reads the target
    first, then evaluates the right-hand side, then stores. *)
Definition iand_reg (i : Z) (rhs : M B Z) : M B unit :=
  v <- reg_read i ;; m <- rhs ;; reg_write i (Z.land v m).

Definition ior_reg (i : Z) (rhs : M B Z) : M B unit :=
  v <- reg_read i ;; m <- rhs ;; reg_write i (Z.lor v m).

(** [time.sleep(secs)] *)
Definition sleep (secs : float) : M B unit :=
  match sleep_refusal secs with
  | Some e => raise e
  | None => modify (fun s => with_log (log s ++ [Sleep secs]) s)
  end.

(** [values_list[n]] *)
Definition getitem (l : list Z) (n : Z) : M B Z :=
  match py_getitem l n with
  | Some v => ret v
  | None => raise IndexError
  end.

(** [while (status := self.r[2]) & 1: pass], at most [fuel] reads. *)
Fixpoint poll_status (fuel : nat) : M B Z :=
  match fuel with
  | O => spin
  | S fuel' =>
      status <- reg_read 2 ;;
      if truthy (Z.land status 1) then poll_status fuel' else ret status
  end.

Definition swap_buffers (fuel : nat) : M B (Z * Z) :=
  reg_write 2 1 ;;
  status <- poll_status fuel ;;
  let which := Z.land (Z.shiftr status 1) 1 in
  where_ <- reg_read 3 ;;
  ret (which, where_).

Definition get_data (fuel : nat) : M B ndview :=
  '(which_buf, buf_pos) <- swap_buffers fuel ;;
  let buf_pos := Z.shiftr buf_pos 1 in
  s <- get ;;
  let dim := if _store_raw_data s then num_mics s else num_chans s in
  if d s then
    let n := py_slice_len buf_pos half_len in
    match reshape_rows n dim with
    | Some shape =>
        ret {| view_half := which_buf; view_len := n; view_shape := shape |}
    | None => raise (ValueError "cannot reshape array"%string)
    end
  else raise TypeError.

Definition set_gain (gain : Z) : M B unit :=
  if (gain <? 1) || (gain >? 256) then
    raise (ValueError "must be 1 <= gain <= 256"%string)
  else reg_write 4 (gain - 1).

Definition set_use_fake_mics (use_fake_mics : bool) : M B unit :=
  reg_write 5 (if use_fake_mics then 1 else 0).

Definition set_store_raw_data (store_raw_data wait : bool) (fuel : nat)
  : M B unit :=
  modify (with_store_raw_data store_raw_data) ;;
  s <- get ;;
  reg_write 10 (Z.b2z (_store_raw_data s)) ;;
  if wait then
    s <- get ;;
    (if mic_freq_hz s =? 0 then raise ZeroDivisionError else ret tt) ;;
    sleep (settle_seconds (mic_freq_hz s) (num_taps s)) ;;
    _ <- swap_buffers fuel ;;
    ret tt
  else ret tt.

Definition get_button_state : M B bool :=
  p1 <- reg_read 11 ;;
  let button_value := Z.land p1 0x1 in
  if button_value =? 1 then ret true else ret false.

Definition get_off_button_state : M B bool :=
  p1 <- reg_read 11 ;;
  ret (truthy (Z.land p1 (Z.shiftl 1 13))).

Definition get_gain : M B Z :=
  p1 <- reg_read 11 ;;
  let switch_value := Z.land (Z.shiftr p1 1) 0xF in
  let multiplier := 3 in
  ret (switch_value * multiplier + 1).

Definition LED_off : M B unit :=
  iand_reg 11 (ret (Z.lnot (Z.shiftl 0xFF 5))).

Definition LED_on : M B unit :=
  ior_reg 11 (ret (Z.shiftl 0xFF 5)).

Definition idle_values : list Z :=
  [0x80; 0x80; 0x40; 0x40; 0x20; 0x20; 0x10; 0x10;
   0x08; 0x08; 0x04; 0x04; 0x02; 0x02; 0x01; 0x01].

Definition LED_idle : M B unit :=
  LED_off ;;
  ior_reg 11 (s <- get ;;
              v <- getitem idle_values (idle_num s) ;;
              ret (Z.shiftl v 5)) ;;
  s <- get ;;
  if idle_num s >? previous_idle_num s then
    modify (with_previous_idle_num (idle_num s)) ;;
    modify (with_idle_num (idle_num s + 1)) ;;
    s <- get ;;
    if idle_num s =? 16 then modify (with_idle_num 14) else ret tt
  else
    modify (with_previous_idle_num (idle_num s)) ;;
    modify (with_idle_num (idle_num s - 1)) ;;
    s <- get ;;
    if idle_num s =? -1 then modify (with_idle_num 1) else ret tt.

Definition press_values : list Z :=
  [0x00; 0x80; 0xC0; 0xE0; 0xF0; 0xF8; 0xFC; 0xFE; 0xFF].

Definition press_values_r : list Z :=
  [0xFF; 0xFE; 0xFC; 0xF8; 0xF0; 0xE0; 0xC0; 0x80; 0x00].

Definition button_press_indicate (number : Z) : M B unit :=
  LED_off ;;
  ior_reg 11 (v <- getitem press_values number ;; ret (Z.shiftl v 5)).

Definition button_press_indicate_r (number : Z) : M B unit :=
  LED_off ;;
  ior_reg 11 (v <- getitem press_values_r number ;; ret (Z.shiftl v 5)).

Definition LED_recording : M B unit :=
  pressed <- get_button_state ;;
  if pressed then ret tt
  else
    s <- get ;;
    (if rec_blink_value s mod 5 =? 0 then
       if rec_blink_state s then
         LED_on ;; modify (with_rec_blink_state false)
       else
         LED_off ;; modify (with_rec_blink_state true)
     else ret tt) ;;
    modify (fun s => with_rec_blink_value (rec_blink_value s + 1) s) ;;
    s <- get ;;
    if rec_blink_value s =? 100 then modify (with_rec_blink_value 0)
    else ret tt.

(** [for i in range(n): body] *)
Fixpoint repeat_n (n : nat) (body : M B unit) : M B unit :=
  match n with
  | O => ret tt
  | S n' => body ;; repeat_n n' body
  end.

Definition LED_quick_blink : M B unit :=
  let num_blinks := 5%nat in
  let delaytime := 0.1%float in
  LED_off ;;
  repeat_n num_blinks
    (LED_on ;; sleep delaytime ;; LED_off ;; sleep delaytime).

(** [self.x] where the attribute may never have been assigned. *)
Definition getattr {A} (x : option A) : M B A :=
  match x with
  | Some a => ret a
  | None => raise AttributeError
  end.

(** [m.close()] on the attribute that holds a mapping: [BufferError]
    while the mapping is exported, [AttributeError] on [None]. *)
Definition mmap_close (mapping exported : bool) : M B unit :=
  if mapping then
    if exported then raise BufferError else ret tt
  else raise AttributeError.

(** [os.close(fd)] on the attribute that holds a descriptor: [OSError]
    (bad file descriptor) if it is no longer open, [TypeError] on
    [None]. *)
Definition os_close (fd valid : bool) : M B unit :=
  if fd then
    if valid then ret tt else raise (OSError OtherOSError)
  else raise TypeError.

(** [close], with what the rest of the process holds at that moment.
    [self.d = None] drops the session's own array, so the sample mapping
    is still exported exactly when somebody else holds an array over
    it. *)
Definition close (out : Outside) : M B unit :=
  s <- get ;;
  closed <- getattr (_closed s) ;;
  if (closed : bool) then raise (ValueError EmptyString)
  else
    modify (with_d false) ;;
    modify (with_r false) ;;
    s <- get ;;
    mmap_close (_buf_mmap s) (sample_buffers out) ;;
    modify (with_buf_mmap false) ;;
    s <- get ;;
    mmap_close (_reg_mmap s) (register_buffers out) ;;
    modify (with_reg_mmap false) ;;
    s <- get ;;
    os_close (_buf_fd s) (buf_fd_valid out) ;;
    modify (with_buf_fd false) ;;
    s <- get ;;
    os_close (_reg_fd s) (reg_fd_valid out) ;;
    modify (with_reg_fd false) ;;
    modify (with_closed (Some true)).

Definition __del__ (out : Outside) : M B unit :=
  s <- get ;;
  closed <- getattr (_closed s) ;;
  if negb closed then close out else ret tt.

(** *** Construction *)

(** What the operating system answers to the two [os.open] calls and
    the two [mmap.mmap] calls of the constructor ([None]: success), and
    the device found behind the mappings. *)
Record Env : Type := {
  os_open_buf : option oserror;
  os_open_reg : option oserror;
  mmap_buf : option oserror;
  mmap_reg : option oserror;
  device : dev B
}.

Definition os_call (res : option oserror) : M B unit :=
  match res with
  | None => ret tt
  | Some e => raise (OSError e)
  end.

(** [while self.r[2] & 1: pass], at most [fuel] reads. *)
Fixpoint drain (fuel : nat) : M B unit :=
  match fuel with
  | O => spin
  | S fuel' =>
      status <- reg_read 2 ;;
      if truthy (Z.land status 1) then drain fuel' else ret tt
  end.

Definition __init__ (env : Env) (fuel : nat) : M B unit :=
  (* try: os.open(...)  except PermissionError: self._closed = True; raise *)
  match os_open_buf env with
  | Some PermissionError =>
      modify (with_closed (Some true)) ;; raise (OSError PermissionError)
  | Some e => raise (OSError e)
  | None => modify (with_buf_fd true)
  end ;;
  os_call (os_open_reg env) ;; modify (with_reg_fd true) ;;
  os_call (mmap_buf env) ;; modify (with_buf_mmap true) ;;
  os_call (mmap_reg env) ;; modify (with_reg_mmap true) ;;
  modify (with_d true) ;;
  modify (with_r true) ;;
  modify (with_closed (Some false)) ;;
  val <- reg_read 0 ;;
  let val := Z.land ((val + 0x1234) * 3) 0xFFFF_FFFF in
  reg_write 0 val ;;
  back <- reg_read 0 ;;
  if negb (back =? val) then
    raise (ValueError "test register not responding"%string)
  else
    p1 <- reg_read 8 ;;
    p2 <- reg_read 9 ;;
    modify (with_num_mics (Z.land p1 0xFF)) ;;
    modify (with_num_chans (Z.land (Z.shiftr p1 8) 0xFF)) ;;
    modify (with_num_taps (Z.land (Z.shiftr p1 16) 0xFF)) ;;
    modify (with_mic_freq_hz (Z.land p2 0xFFFF)) ;;
    mode <- reg_read 10 ;;
    modify (with_store_raw_data (truthy mode)) ;;
    drain fuel ;;
    modify (with_idle_num 0) ;;
    modify (with_previous_idle_num (-1)) ;;
    modify (with_rec_blink_value 0) ;;
    modify (with_rec_blink_state true).

(** The object before [__init__] has run: no attribute is set yet.
    [_closed], the one attribute that is read on an object whose
    constructor raised (by [__del__]), is [None], unassigned; the other
    placeholders are never read before [__init__] assigns them. *)
Definition blank (env : Env) : HW B :=
  {| hw := device env; log := [];
     _buf_fd := false; _reg_fd := false;
     _buf_mmap := false; _reg_mmap := false;
     d := false; r := false; _closed := None;
     num_mics := 0; num_chans := 0; num_taps := 0; mic_freq_hz := 0;
     _store_raw_data := false;
     idle_num := 0; previous_idle_num := 0;
     rec_blink_value := 0; rec_blink_state := false |}.

(** [HW()] *)
Definition construct (env : Env) (fuel : nat) : outcome unit * HW B :=
  __init__ env fuel (blank env).

(** The samples a view shows on a given device state, row by row. *)
Definition view_row (h : dev B) (v : ndview) (i : nat) : list Z :=
  map (fun j => bus_sample B h (view_half v)
                  (Z.of_nat i * snd (view_shape v) + Z.of_nat j))
      (seq 0 (Z.to_nat (snd (view_shape v)))).

Definition view_data (h : dev B) (v : ndview) : list (list Z) :=
  map (view_row h v) (seq 0 (Z.to_nat (fst (view_shape v)))).

End Methods.

Arguments Env B : clear implicits.

(** ** Devices *)

(** A register [i] of a bus is plain storage when a value [peek i] of
    the device state is what a read of [i] returns, a write to [i]
    replaces it, and no other transaction changes it. *)
Record Storage (B : Bus) (i : Z) : Type := {
  peek : dev B -> Z;
  read_peek : forall h, fst (bus_read B i h) = peek h;
  peek_read : forall j h, peek (snd (bus_read B j h)) = peek h;
  peek_write : forall v h, peek (bus_write B i v h) = v;
  peek_write_other : forall j v h, j <> i -> peek (bus_write B j v h) = peek h
}.

Arguments peek {B i} _ _.

(** Function update, for register files. *)
Definition upd (f : Z -> Z) (i v : Z) : Z -> Z :=
  fun j => if j =? i then v else f j.

(** *** The board *)

(** Modelled from the spec: the gateware behind the register window is
    not part of the sources under study. Register 2 is the swap status
    (bit 0 busy, bit 1 which half, writing 1 requests a swap); a
    requested swap completes after the status has been read busy
    [latency k] times, where [k] counts the swaps completed so far, and
    a completed swap flips bit 1. Every other register is plain
    storage. *)
Record board_state : Type := {
  regs : Z -> Z;
  pending : nat;          (* busy reads left before the swap completes *)
  ready_half : bool;      (* bit 1 of the status register              *)
  swaps : nat;            (* swaps completed so far                    *)
  latency : nat -> nat;
  samples : Z -> Z -> Z
}.

Definition complete_swap (b : board_state) : board_state :=
  {| regs := regs b; pending := 0; ready_half := negb (ready_half b);
     swaps := S (swaps b); latency := latency b; samples := samples b |}.

Definition board_status (b : board_state) : Z :=
  Z.lor (match pending b with O => 0 | S _ => 1 end)
        (Z.shiftl (Z.b2z (ready_half b)) 1).

(** One busy read brings the swap in flight one step closer. *)
Definition tick (b : board_state) : board_state :=
  match pending b with
  | O => b
  | S O => complete_swap b
  | S n =>
      {| regs := regs b; pending := n; ready_half := ready_half b;
         swaps := swaps b; latency := latency b; samples := samples b |}
  end.

Definition board_read (i : Z) (b : board_state) : Z * board_state :=
  if i =? 2 then (board_status b, tick b) else (regs b i, b).

Definition board_write (i v : Z) (b : board_state) : board_state :=
  if i =? 2 then
    if Z.testbit v 0 then
      match pending b with
      | O =>
          match latency b (swaps b) with
          | O => complete_swap b
          | S n =>
              {| regs := regs b; pending := S n;
                 ready_half := ready_half b; swaps := swaps b;
                 latency := latency b; samples := samples b |}
          end
      | S _ => b
      end
    else b
  else
    {| regs := upd (regs b) i v; pending := pending b;
       ready_half := ready_half b; swaps := swaps b;
       latency := latency b; samples := samples b |}.

Definition board : Bus :=
  {| dev := board_state;
     bus_read := board_read;
     bus_write := board_write;
     bus_sample := samples |}.

(** *** A bus that does not respond *)

(** Reads give what the register file held at the start, writes are
    lost. *)
Definition dead_bus : Bus :=
  {| dev := Z -> Z;
     bus_read := fun i h => (h i, h);
     bus_write := fun _ _ h => h;
     bus_sample := fun _ _ _ => 0 |}.

(** *** Concrete devices and sessions used in the examples *)

(** A board with 4 microphones, 2 channels, 63 taps, 48 kHz, raw mode,
    [offset] in register 3 and swaps that take [lat k] busy reads. *)
Definition bench_regs (offset : Z) : Z -> Z :=
  fun i =>
    if i =? 3 then offset
    else if i =? 8 then 0x3F0204
    else if i =? 9 then 48000
    else if i =? 10 then 1
    else 0.

Definition bench (offset : Z) (lat : nat -> nat) : board_state :=
  {| regs := bench_regs offset; pending := 0; ready_half := false;
     swaps := 0; latency := lat;
     samples := fun half i => 1000 * half + i mod 1000 |}.

Definition env_ok (B : Bus) (h : dev B) : Env B :=
  @Build_Env B None None None None h.

Definition bench_session (offset : Z) (lat : nat -> nat) : HW board :=
  snd (construct (env_ok board (bench offset lat)) 1).

(** * Vocabulary of the statements *)

(** ** Calls *)

(** The public methods of a session other than [close], as calls. *)
Inductive method : Type :=
| Call_swap_buffers (fuel : nat)
| Call_get_data (fuel : nat)
| Call_set_gain (gain : Z)
| Call_set_use_fake_mics (use_fake_mics : bool)
| Call_set_store_raw_data (store_raw_data wait : bool) (fuel : nat)
| Call_get_button_state
| Call_get_off_button_state
| Call_get_gain
| Call_LED_off
| Call_LED_on
| Call_LED_idle
| Call_button_press_indicate (number : Z)
| Call_button_press_indicate_r (number : Z)
| Call_LED_recording
| Call_LED_quick_blink.

(** Make the call and drop what it returns. *)
Definition call {B : Bus} (m : method) : M B unit :=
  match m with
  | Call_swap_buffers fuel => _ <- swap_buffers fuel ;; ret tt
  | Call_get_data fuel => _ <- get_data fuel ;; ret tt
  | Call_set_gain gain => set_gain gain
  | Call_set_use_fake_mics b => set_use_fake_mics b
  | Call_set_store_raw_data b wait fuel => set_store_raw_data b wait fuel
  | Call_get_button_state => _ <- get_button_state ;; ret tt
  | Call_get_off_button_state => _ <- get_off_button_state ;; ret tt
  | Call_get_gain => _ <- get_gain ;; ret tt
  | Call_LED_off => LED_off
  | Call_LED_on => LED_on
  | Call_LED_idle => LED_idle
  | Call_button_press_indicate n => button_press_indicate n
  | Call_button_press_indicate_r n => button_press_indicate_r n
  | Call_LED_recording => LED_recording
  | Call_LED_quick_blink => LED_quick_blink
  end.

(** The argument of the call passes the method's own checks. *)
Definition in_range (m : method) : Prop :=
  match m with
  | Call_set_gain gain => 1 <= gain <= 256
  | _ => True
  end.

(** The methods that drive the LEDs from the caller's loop. *)
Definition is_LED_method (m : method) : Prop :=
  match m with
  | Call_LED_off | Call_LED_on | Call_LED_idle
  | Call_button_press_indicate _ | Call_button_press_indicate_r _
  | Call_LED_recording => True
  | _ => False
  end.

(** ** Logs and sessions *)

(** A status value with the busy bit set. *)
Definition busy (v : Z) : Prop := Z.land v 1 <> 0.

(** The event is a register read. *)
Definition is_read (e : event) : Prop :=
  match e with
  | Rd _ _ => True
  | _ => False
  end.

(** [s'] is [s] up to the device state and the log: no attribute of the
    object was assigned. *)
Definition io_only {B : Bus} (s s' : HW B) : Prop :=
  s' = with_log (log s') (with_hw (hw s') s).


(** The session holds its two descriptors and its two mappings, as it
    does from the fourth acquisition of the constructor to [close]. *)
Definition acquired {B : Bus} (s : HW B) : Prop :=
  _buf_fd s = true /\ _reg_fd s = true
  /\ _buf_mmap s = true /\ _reg_mmap s = true.

(** ** The board *)

(** Busy reads the board will answer before the next clear one, once a
    swap has been requested. *)
Definition busy_reads (b : board_state) : nat :=
  match pending b with
  | O => latency b (swaps b)
  | S n => S n
  end.

(** The board once its swap in flight, if any, has completed. *)
Definition settle (b : board_state) : board_state :=
  match pending b with
  | O => b
  | S _ => complete_swap b
  end.

(** An operating system that refuses the first [os.open]. *)
Definition env_denied : Env board :=
  @Build_Env board (Some PermissionError) None None None
    (bench 800 (fun _ => 3%nat)).


(** ** The idle animation *)

(** Position of the idle animation before call number [k] (from 0): up
    from 0 to 15, down from 14 to 1, with period 30. *)
Definition bounce (k : Z) : Z :=
  let m := k mod 30 in
  if m <=? 15 then m else 30 - m.

(** The session has made [k] idle calls since construction. *)
Definition idle_at {B : Bus} (k : Z) (s : HW B) : Prop :=
  r s = true
  /\ idle_num s = bounce k
  /\ previous_idle_num s = if k =? 0 then -1 else bounce (k - 1).

(** The counter as each of [n] successive idle calls finds it. *)
Fixpoint idle_counters {B : Bus} (n : nat) (s : HW B) : list Z :=
  match n with
  | O => []
  | S n' => idle_num s :: idle_counters n' (snd (LED_idle s))
  end.

(** ** The LED field of register 11 *)

(** Bits 5..12 of register 11, as the shifts by 5 of an 8-bit pattern in
    every LED method place them. *)
Definition led_field (v : Z) : Z := Z.land (Z.shiftr v 5) 0xFF.

(** [w] differs from [v] at most in bits 5..12. *)
Definition outside_leds_equal (v w : Z) : Prop :=
  forall i, 0 <= i -> ~ (5 <= i <= 12) -> Z.testbit w i = Z.testbit v i.

(** An 8-bit pattern read from the other end. *)
Definition bitrev8 (p : Z) : Z :=
  fold_left
    (fun acc i =>
       if Z.testbit p (Z.of_nat i)
       then Z.lor acc (Z.shiftl 1 (7 - Z.of_nat i))
       else acc)
    (seq 0 8) 0.

(** Register traffic that can only change the LED field: reads of
    register 11, and stores to register 11 that directly follow a read
    of it and keep all it read outside bits 5..12. *)
Inductive led_trace : list event -> Prop :=
| led_trace_nil : led_trace []
| led_trace_read (v : Z) (t : list event) :
    led_trace t -> led_trace (Rd 11 v :: t)
| led_trace_update (v w : Z) (t : list event) :
    outside_leds_equal v w -> led_trace t ->
    led_trace (Rd 11 v :: Wr 11 w :: t).

(** From [s] to [s'] the registers were touched by LED traffic only. *)
Record led_only {B : Bus} (s s' : HW B) : Prop := {
  led_log : exists t, log s' = log s ++ t /\ led_trace t;
  led_reg : forall St : Storage B 11,
      outside_leds_equal (peek St (hw s)) (peek St (hw s'));
  led_others : forall j (St : Storage B j),
      j <> 11 -> peek St (hw s') = peek St (hw s)
}.

(** Every entry of a table is an 8-bit pattern. *)
Definition patterns (l : list Z) : Prop :=
  Forall (fun p => 0 <= p < 256) l.

(** The common body of [button_press_indicate] and
    [button_press_indicate_r], over its table. *)
Definition press_with {B : Bus} (values_list : list Z) (number : Z)
  : M B unit :=
  LED_off ;;
  ior_reg 11 (v <- getitem values_list number ;; ret (Z.shiftl v 5)).

(** ** What a call may change *)

(** The attributes that say what the session holds and what board it
    drives. *)
Definition config {B : Bus} (s : HW B)
  : bool * bool * option bool * (bool * bool * bool * bool)
    * (Z * Z * Z * Z) :=
  (r s, d s, _closed s,
   (_buf_fd s, _reg_fd s, _buf_mmap s, _reg_mmap s),
   (num_mics s, num_chans s, num_taps s, mic_freq_hz s)).

(** The state of the two LED animations. *)
Definition animation {B : Bus} (s : HW B) : Z * Z * Z * bool :=
  (idle_num s, previous_idle_num s, rec_blink_value s, rec_blink_state s).

(** The methods that assign the capture-mode mirror. *)
Definition sets_mode (m : method) : Prop :=
  match m with
  | Call_set_store_raw_data _ _ _ => True
  | _ => False
  end.

(** The methods that assign an animation counter. *)
Definition animates (m : method) : Prop :=
  match m with
  | Call_LED_idle | Call_LED_recording => True
  | _ => False
  end.

(** The registers a call stores to. *)
Definition footprint (m : method) : list Z :=
  match m with
  | Call_swap_buffers _ | Call_get_data _ => [2]
  | Call_set_gain _ => [4]
  | Call_set_use_fake_mics _ => [5]
  | Call_set_store_raw_data _ wait _ => if wait then [10; 2] else [10]
  | Call_get_button_state | Call_get_off_button_state | Call_get_gain => []
  | _ => [11]
  end.

(** The event is not a store to a register outside [regs]. *)
Definition stores_within (regs : list Z) (e : event) : Prop :=
  match e with
  | Wr i _ => In i regs
  | _ => True
  end.

(** ** The liveness test *)

(** The value the constructor stores back to register 0: line
    [val = ((val + 0x1234) * 3) & 0xFFFF_FFFF]. *)
Definition permute (val : Z) : Z :=
  Z.land ((val + 0x1234) * 3) 0xFFFF_FFFF.

(** Its inverse on 32-bit values: 0xAAAAAAAB is 1/3 modulo 2^32. *)
Definition unpermute (val : Z) : Z :=
  (val * 0xAAAA_AAAB - 0x1234) mod 2 ^ 32.

(** ** The recording indicator and the quick blink *)

(** The session has made [k] recording calls since construction with
    the button up. *)
Definition blink_at {B : Bus} (St : Storage B 11) (k : Z) (s : HW B) : Prop :=
  r s = true
  /\ Z.testbit (peek St (hw s)) 0 = false
  /\ rec_blink_value s = k mod 100
  /\ rec_blink_state s = Z.even ((k + 4) / 5)
  /\ (0 < k ->
      led_field (peek St (hw s)) = if rec_blink_state s then 0x00 else 0xFF).

(** The durations slept in a log, in order. *)
Fixpoint sleeps (t : list event) : list float :=
  match t with
  | [] => []
  | Sleep secs :: t' => secs :: sleeps t'
  | _ :: t' => sleeps t'
  end.

(** What one round of the blink, or the blink as a whole, does to an
    open session: nothing but register traffic that keeps register 11
    outside the LED field, [n] sleeps of a tenth of a second, and the LED
    field dark at the end if it was dark at the start. *)
Definition blinked {B : Bus} (n : nat) (s s' : HW B) : Prop :=
  r s' = true
  /\ io_only s s'
  /\ (exists t, log s' = log s ++ t
                /\ sleeps t = repeat 0.1%float n
                /\ Forall (stores_within [11]) t)
  /\ forall St : Storage B 11,
       outside_leds_equal (peek St (hw s)) (peek St (hw s'))
       /\ (led_field (peek St (hw s)) = 0 -> led_field (peek St (hw s')) = 0).

(** * Proofs *)

(** ** Register transactions *)

Section Transactions.

Context {B : Bus}.

Lemma io_only_refl (s : HW B) : io_only s s.
Proof. destruct s; reflexivity. Qed.

Lemma io_only_trans (s1 s2 s3 : HW B) :
  io_only s1 s2 -> io_only s2 s3 -> io_only s1 s3.
Proof.
  unfold io_only; intros H12 H23.
  rewrite H23 at 1. rewrite H12 at 1. reflexivity.
Qed.

Lemma io_only_r (s s' : HW B) : io_only s s' -> r s' = r s.
Proof. intros H; rewrite H; reflexivity. Qed.

Lemma reg_read_open (i : Z) (s : HW B) :
  r s = true ->
  reg_read i s =
    (Ret (fst (bus_read B i (hw s))),
     with_log (log s ++ [Rd i (fst (bus_read B i (hw s)))])
       (with_hw (snd (bus_read B i (hw s))) s)).
Proof.
  intros Hr; unfold reg_read; rewrite Hr.
  destruct (bus_read B i (hw s)); reflexivity.
Qed.

Lemma reg_write_open (i v : Z) (s : HW B) :
  r s = true ->
  reg_write i v s =
    (Ret tt, with_log (log s ++ [Wr i v]) (with_hw (bus_write B i v (hw s)) s)).
Proof. intros Hr; unfold reg_write; rewrite Hr; reflexivity. Qed.

Lemma reg_read_None (i : Z) (s : HW B) :
  r s = false -> reg_read i s = (Exc TypeError, s).
Proof. intros Hr; unfold reg_read; rewrite Hr; reflexivity. Qed.

Lemma reg_write_None (i v : Z) (s : HW B) :
  r s = false -> reg_write i v s = (Exc TypeError, s).
Proof. intros Hr; unfold reg_write; rewrite Hr; reflexivity. Qed.

(** Whatever way a read ends, it appends at most its own event and
    assigns no attribute. *)
Lemma reg_read_inv (i : Z) (s s' : HW B) (o : outcome Z) :
  reg_read i s = (o, s') ->
  (exists v, o = Ret v /\ r s = true /\ log s' = log s ++ [Rd i v] /\
             io_only s s' /\
             (v, hw s') = bus_read B i (hw s))
  \/ (o = Exc TypeError /\ r s = false /\ s' = s).
Proof.
  unfold reg_read; destruct (r s) eqn:Hr.
  - destruct (bus_read B i (hw s)) as [v h] eqn:Hb; intros H.
    inversion H; subst; clear H. left; exists v.
    repeat split; reflexivity.
  - intros H; inversion H; subst. right; auto.
Qed.

Lemma reg_write_inv (i v : Z) (s s' : HW B) (o : outcome unit) :
  reg_write i v s = (o, s') ->
  (o = Ret tt /\ r s = true /\ log s' = log s ++ [Wr i v] /\
   io_only s s' /\ hw s' = bus_write B i v (hw s))
  \/ (o = Exc TypeError /\ r s = false /\ s' = s).
Proof.
  unfold reg_write; destruct (r s) eqn:Hr; intros H;
    inversion H; subst; clear H.
  - left; repeat split; reflexivity.
  - right; auto.
Qed.

(** Equations to run a method one statement at a time. *)
Lemma bind_ret {A C} (a : A) (k : A -> M B C) (s : HW B) :
  bind (ret a) k s = k a s.
Proof. reflexivity. Qed.

Lemma bind_raise {A C} (e : exn) (k : A -> M B C) (s : HW B) :
  bind (raise e) k s = (Exc e, s).
Proof. reflexivity. Qed.

Lemma bind_get {C} (k : HW B -> M B C) (s : HW B) :
  bind get k s = k s s.
Proof. reflexivity. Qed.

Lemma bind_modify {C} (f : HW B -> HW B) (k : unit -> M B C) (s : HW B) :
  bind (modify f) k s = k tt (f s).
Proof. reflexivity. Qed.

Lemma bind_assoc {A A' C} (m : M B A) (f : A -> M B A') (k : A' -> M B C)
      (s : HW B) :
  bind (bind m f) k s = bind m (fun a => bind (f a) k) s.
Proof. unfold bind. destruct (m s) as [[a| |] s']; reflexivity. Qed.

Lemma bind_read {C} (i : Z) (k : Z -> M B C) (s : HW B) :
  r s = true ->
  bind (reg_read i) k s =
    k (fst (bus_read B i (hw s)))
      (with_log (log s ++ [Rd i (fst (bus_read B i (hw s)))])
         (with_hw (snd (bus_read B i (hw s))) s)).
Proof. intros Hr. unfold bind. rewrite (reg_read_open i s Hr). reflexivity. Qed.

Lemma bind_write {C} (i v : Z) (k : unit -> M B C) (s : HW B) :
  r s = true ->
  bind (reg_write i v) k s =
    k tt (with_log (log s ++ [Wr i v]) (with_hw (bus_write B i v (hw s)) s)).
Proof. intros Hr. unfold bind. rewrite (reg_write_open i v s Hr). reflexivity. Qed.

Lemma bind_read_None {C} (i : Z) (k : Z -> M B C) (s : HW B) :
  r s = false -> bind (reg_read i) k s = (Exc TypeError, s).
Proof. intros Hr. unfold bind. rewrite (reg_read_None i s Hr). reflexivity. Qed.

Lemma bind_write_None {C} (i v : Z) (k : unit -> M B C) (s : HW B) :
  r s = false -> bind (reg_write i v) k s = (Exc TypeError, s).
Proof. intros Hr. unfold bind. rewrite (reg_write_None i v s Hr). reflexivity. Qed.

End Transactions.

(** Reduce the attribute reads of an updated object. *)
Ltac attrs :=
  cbn [hw log _buf_fd _reg_fd _buf_mmap _reg_mmap d r _closed
       num_mics num_chans num_taps mic_freq_hz _store_raw_data
       idle_num previous_idle_num rec_blink_value rec_blink_state
       with_hw with_log with_buf_fd with_reg_fd with_buf_mmap with_reg_mmap
       with_d with_r with_closed with_num_mics with_num_chans with_num_taps
       with_mic_freq_hz with_store_raw_data with_idle_num
       with_previous_idle_num with_rec_blink_value with_rec_blink_state
       fst snd] in *.

(** Run the statement at the head of a method on an open session. *)
Ltac step :=
  first
    [ rewrite bind_ret
    | rewrite bind_get
    | rewrite bind_modify
    | rewrite bind_assoc
    | rewrite bind_read by (attrs; first [reflexivity | assumption])
    | rewrite bind_write by (attrs; first [reflexivity | assumption])
    | rewrite reg_read_open by (attrs; first [reflexivity | assumption])
    | rewrite reg_write_open by (attrs; first [reflexivity | assumption]) ];
  cbv beta; attrs.

(** ** The swap handshake *)

Section Swap.

Context {B : Bus}.

(** A poll that returns has read the status busy some number of times
    and then once with the busy bit clear; the value it returns is that
    last read. *)
Lemma poll_status_returns (fuel : nat) :
  forall (s s' : HW B) (status : Z),
    poll_status fuel s = (Ret status, s') ->
    exists seen,
      log s' = log s ++ map (Rd 2) seen ++ [Rd 2 status]
      /\ Forall busy seen
      /\ Z.land status 1 = 0
      /\ io_only s s'
      /\ r s = true.
Proof.
  induction fuel as [|fuel IH]; intros s s' status H.
  - discriminate H.
  - simpl in H. unfold bind in H.
    destruct (reg_read 2 s) as [o s1] eqn:Hrd.
    apply reg_read_inv in Hrd.
    destruct Hrd as [(v & -> & Hr & Hlog & Hio & _) | (-> & _ & _)];
      [|discriminate H].
    unfold truthy in H.
    destruct (Z.land v 1 =? 0) eqn:Hbit; simpl in H.
    + inversion H; subst; clear H.
      exists []. simpl. apply Z.eqb_eq in Hbit. auto.
    + apply IH in H. destruct H as (seen & Hl & Hb & Hst & Hio' & _).
      exists (v :: seen). simpl.
      rewrite Hl, Hlog, <- app_assoc. simpl.
      repeat split; auto.
      * constructor; auto. apply Z.eqb_neq in Hbit. exact Hbit.
      * eapply io_only_trans; eauto.
Qed.

(** A poll never raises on an open session, and when it gives up every
    read it made was busy. *)
Lemma poll_status_spins (fuel : nat) :
  forall (s s' : HW B),
    poll_status fuel s = (Spin, s') ->
    exists seen,
      log s' = log s ++ map (Rd 2) seen
      /\ Forall busy seen
      /\ List.length seen = fuel.
Proof.
  induction fuel as [|fuel IH]; intros s s' H.
  - inversion H; subst. exists []. rewrite app_nil_r. auto.
  - simpl in H. unfold bind in H.
    destruct (reg_read 2 s) as [o s1] eqn:Hrd.
    apply reg_read_inv in Hrd.
    destruct Hrd as [(v & -> & Hr & Hlog & Hio & _) | (-> & _ & _)];
      [|discriminate H].
    unfold truthy in H.
    destruct (Z.land v 1 =? 0) eqn:Hbit; simpl in H; [discriminate H|].
    apply IH in H. destruct H as (seen & Hl & Hb & Hn).
    exists (v :: seen). simpl.
    rewrite Hl, Hlog, <- app_assoc. simpl.
    repeat split; auto.
    constructor; auto. apply Z.eqb_neq in Hbit. exact Hbit.
Qed.

(** The transactions of a [swap_buffers] that returns. *)
Lemma swap_buffers_returns (fuel : nat) (s s' : HW B) (which where_ : Z) :
  swap_buffers fuel s = (Ret (which, where_), s') ->
  exists seen status,
    log s' = log s ++ Wr 2 1 :: map (Rd 2) seen ++ [Rd 2 status; Rd 3 where_]
    /\ Forall busy seen
    /\ Z.land status 1 = 0
    /\ which = Z.land (Z.shiftr status 1) 1
    /\ io_only s s'
    /\ r s = true.
Proof.
  unfold swap_buffers, bind. intros H.
  destruct (reg_write 2 1 s) as [o1 s1] eqn:Hw.
  apply reg_write_inv in Hw.
  destruct Hw as [(-> & Hr & Hl1 & Hio1 & _) | (-> & _ & _)];
    [|discriminate H].
  destruct (poll_status fuel s1) as [[status| |] s2] eqn:Hp;
    try discriminate H.
  apply poll_status_returns in Hp.
  destruct Hp as (seen & Hl2 & Hb & Hst & Hio2 & _).
  destruct (reg_read 3 s2) as [o3 s3] eqn:Hrd.
  apply reg_read_inv in Hrd.
  destruct Hrd as [(v & -> & _ & Hl3 & Hio3 & _) | (-> & _ & _)];
    [|discriminate H].
  inversion H; subst; clear H.
  exists seen, status.
  rewrite Hl3, Hl2, Hl1. repeat rewrite <- app_assoc. simpl.
  repeat split; auto.
  eapply io_only_trans; [|exact Hio3]. eapply io_only_trans; eauto.
Qed.

(** A [swap_buffers] that is still spinning has only seen busy reads. *)
Lemma swap_buffers_spins (fuel : nat) (s s' : HW B) :
  swap_buffers fuel s = (Spin, s') ->
  exists seen,
    log s' = log s ++ Wr 2 1 :: map (Rd 2) seen
    /\ Forall busy seen
    /\ List.length seen = fuel.
Proof.
  unfold swap_buffers, bind. intros H.
  destruct (reg_write 2 1 s) as [o1 s1] eqn:Hw.
  apply reg_write_inv in Hw.
  destruct Hw as [(-> & Hr & Hl1 & _ & _) | (-> & _ & _)];
    [|discriminate H].
  destruct (poll_status fuel s1) as [[status| |] s2] eqn:Hp;
    try discriminate H.
  - destruct (reg_read 3 s2) as [[v| |] s3] eqn:Hrd; try discriminate H.
    apply reg_read_inv in Hrd.
    destruct Hrd as [(v & Hv & _) | (Hv & _)]; discriminate Hv.
  - inversion H; subst; clear H.
    apply poll_status_spins in Hp. destruct Hp as (seen & Hl & Hb & Hn).
    exists seen. rewrite Hl, Hl1, <- app_assoc. auto.
Qed.

End Swap.

(** ** The handshake on the board *)

Lemma board_status_clear (b : board_state) :
  pending b = O ->
  Z.land (board_status b) 1 = 0 /\
  Z.land (Z.shiftr (board_status b) 1) 1 = Z.b2z (ready_half b).
Proof.
  intros Hp; unfold board_status; rewrite Hp.
  destruct (ready_half b); split; reflexivity.
Qed.

Lemma board_status_busy (b : board_state) (n : nat) :
  pending b = S n -> Z.land (board_status b) 1 = 1.
Proof.
  intros Hp; unfold board_status; rewrite Hp.
  destruct (ready_half b); reflexivity.
Qed.

Lemma reg_read_status (s : HW board) :
  r s = true ->
  reg_read 2 s =
    (Ret (board_status (hw s)),
     with_log (log s ++ [Rd 2 (board_status (hw s))])
       (with_hw (B := board) (tick (hw s)) s)).
Proof. intros Hr. rewrite (reg_read_open 2 s Hr). reflexivity. Qed.

Lemma settle_tick (b : board_state) : settle (tick b) = settle b.
Proof.
  unfold settle, tick.
  destruct (pending b) as [|[|n]] eqn:Hp; simpl; try rewrite Hp; reflexivity.
Qed.

Lemma board_poll (n : nat) :
  forall (fuel : nat) (s : HW board),
    r s = true -> pending (hw s) = n -> (n < fuel)%nat ->
    exists s',
      poll_status fuel s = (Ret (board_status (settle (hw s))), s')
      /\ hw s' = settle (hw s)
      /\ io_only s s'.
Proof.
  induction n as [|n IH]; intros fuel s Hr Hp Hlt;
    (destruct fuel as [|fuel]; [lia|]); simpl; unfold bind;
    rewrite (reg_read_status s Hr); unfold truthy.
  - destruct (board_status_clear _ Hp) as [Hc _]. rewrite Hc. simpl.
    assert (Hs : settle (hw s) = hw s) by (unfold settle; rewrite Hp; reflexivity).
    assert (Ht : tick (hw s) = hw s) by (unfold tick; rewrite Hp; reflexivity).
    rewrite Hs, Ht. eexists; split; [reflexivity|]. split; [reflexivity|].
    unfold io_only; simpl. destruct s; reflexivity.
  - rewrite (board_status_busy _ _ Hp). simpl.
    match goal with |- context [poll_status fuel ?x] => set (s1' := x) end.
    destruct (IH fuel s1') as (s' & Hpoll & Hhw & Hio).
    + exact Hr.
    + unfold s1', tick; simpl. rewrite Hp. destruct n; reflexivity.
    + lia.
    + exists s'. rewrite Hpoll.
      assert (Hs : settle (hw s1') = settle (hw s)) by apply settle_tick.
      rewrite Hhw, Hs. repeat split.
      eapply io_only_trans; [|exact Hio].
      unfold s1', io_only; simpl. destruct s; reflexivity.
Qed.

(** On the board, a swap given more fuel than the board needs busy
    reads returns, names the half opposite to the one the status showed
    before, and leaves the board with that swap completed. *)
Lemma board_swap (fuel : nat) (s : HW board) :
  r s = true -> (busy_reads (hw s) < fuel)%nat ->
  exists s',
    swap_buffers fuel s =
      (Ret (Z.b2z (negb (ready_half (hw s))), regs (hw s) 3), s')
    /\ hw s' = complete_swap (hw s)
    /\ io_only s s'.
Proof.
  intros Hr Hfuel. unfold swap_buffers, bind.
  rewrite (reg_write_open 2 1 s Hr).
  match goal with |- context [poll_status fuel ?x] => set (s1 := x) end.
  assert (Hr1 : r s1 = true) by exact Hr.
  assert (Hsettle : settle (hw s1) = complete_swap (hw s)
                    /\ (pending (hw s1) < fuel)%nat).
  { unfold s1, settle, busy_reads in *; simpl.
    unfold board_write; simpl.
    destruct (pending (hw s)) as [|p] eqn:Hp.
    - destruct (latency (hw s) (swaps (hw s))) as [|l] eqn:Hl; simpl.
      + split; [reflexivity | lia].
      + split; [reflexivity | lia].
    - rewrite Hp. split; [reflexivity | lia]. }
  destruct Hsettle as [Hsettle Hlt].
  destruct (board_poll _ fuel s1 Hr1 eq_refl Hlt) as (s2 & Hpoll & Hhw & Hio).
  rewrite Hpoll, Hsettle.
  assert (Hr2 : r s2 = true) by (rewrite (io_only_r _ _ Hio); exact Hr1).
  rewrite (reg_read_open 3 s2 Hr2).
  rewrite Hhw, Hsettle. simpl bus_read. unfold board_read.
  change (3 =? 2) with false. cbv iota. simpl fst. simpl snd.
  destruct (board_status_clear (complete_swap (hw s)) eq_refl) as [_ Hw].
  rewrite Hw. simpl ready_half. simpl regs.
  eexists; split; [reflexivity|]. split.
  - simpl. reflexivity.
  - eapply io_only_trans; [|eapply io_only_trans; [exact Hio|]].
    + unfold s1, io_only; simpl. destruct s; reflexivity.
    + unfold io_only; simpl. reflexivity.
Qed.

(** C1. [swap_buffers] stores 1 to register 2 and then reads register 2
    until a read has its low bit clear: every earlier read was busy, the
    returned half is bit 1 of that last, clear, status and the returned
    offset is what the one read of register 3 that follows gave. As long
    as every read is busy the call does not return. On the board, where
    a completed swap flips bit 1, a call given enough fuel for the
    board's latency returns, and the call after it returns the other
    half. *)
Theorem swap_buffers_handshake :
  (forall (B : Bus) (fuel : nat) (s s' : HW B) (which where_ : Z),
      swap_buffers fuel s = (Ret (which, where_), s') ->
      exists seen status,
        log s' =
          log s ++ Wr 2 1 :: map (Rd 2) seen ++ [Rd 2 status; Rd 3 where_]
        /\ Forall busy seen
        /\ Z.land status 1 = 0
        /\ which = Z.land (Z.shiftr status 1) 1)
  /\
  (forall (B : Bus) (fuel : nat) (s s' : HW B),
      swap_buffers fuel s = (Spin, s') ->
      exists seen,
        log s' = log s ++ Wr 2 1 :: map (Rd 2) seen
        /\ Forall busy seen
        /\ List.length seen = fuel)
  /\
  (forall (f1 f2 : nat) (s : HW board),
      r s = true ->
      (busy_reads (hw s) < f1)%nat ->
      (latency (hw s) (S (swaps (hw s))) < f2)%nat ->
      exists w1 o1 s1 w2 o2 s2,
        swap_buffers f1 s = (Ret (w1, o1), s1)
        /\ swap_buffers f2 s1 = (Ret (w2, o2), s2)
        /\ (w1 = 0 \/ w1 = 1)
        /\ w2 = 1 - w1).
Proof.
  split; [|split].
  - intros B fuel s s' which where_ H.
    destruct (swap_buffers_returns fuel s s' which where_ H)
      as (seen & status & Hl & Hb & Hc & Hw & _).
    exists seen, status. auto.
  - intros B fuel s s' H. apply swap_buffers_spins. exact H.
  - intros f1 f2 s Hr H1 H2.
    destruct (board_swap f1 s Hr H1) as (s1 & E1 & Hhw1 & Hio1).
    assert (Hr1 : r s1 = true) by (rewrite (io_only_r _ _ Hio1); exact Hr).
    assert (H2' : (busy_reads (hw s1) < f2)%nat).
    { rewrite Hhw1. unfold busy_reads. simpl. exact H2. }
    destruct (board_swap f2 s1 Hr1 H2') as (s2 & E2 & _ & _).
    do 6 eexists. split; [exact E1|]. split; [exact E2|].
    rewrite Hhw1. simpl. destruct (ready_half (hw s)); simpl; auto.
Qed.

Lemma swap_buffers_handshake_witness :
  let s := bench_session 800 (fun _ => 3%nat) in
  (exists seen status,
      log (snd (swap_buffers 4 s)) =
        log s ++ Wr 2 1 :: map (Rd 2) seen ++ [Rd 2 status; Rd 3 800]
      /\ Forall busy seen
      /\ Z.land status 1 = 0
      /\ 1 = Z.land (Z.shiftr status 1) 1)
  /\
  (exists seen,
      log (snd (swap_buffers 3 s)) = log s ++ Wr 2 1 :: map (Rd 2) seen
      /\ Forall busy seen
      /\ List.length seen = 3%nat)
  /\
  (exists w1 o1 s1 w2 o2 s2,
      swap_buffers 4 s = (Ret (w1, o1), s1)
      /\ swap_buffers 4 s1 = (Ret (w2, o2), s2)
      /\ (w1 = 0 \/ w1 = 1)
      /\ w2 = 1 - w1).
Proof.
  intros s. split; [|split].
  - apply (proj1 swap_buffers_handshake board 4%nat s
             (snd (swap_buffers 4 s)) 1 800).
    vm_compute. reflexivity.
  - apply (proj1 (proj2 swap_buffers_handshake) board 3%nat s
             (snd (swap_buffers 3 s))).
    vm_compute. reflexivity.
  - apply (proj2 (proj2 swap_buffers_handshake) 4%nat 4%nat s).
    + vm_compute. reflexivity.
    + vm_compute. lia.
    + vm_compute. lia.
Defined.

(** ** Views of the sample memory *)

Lemma map_seq_shift {A} (f : nat -> A) (a len : nat) :
  map f (seq a len) = map (fun j => f (a + j)%nat) (seq 0 len).
Proof.
  revert a; induction len as [|len IH]; intros a; simpl.
  - reflexivity.
  - rewrite Nat.add_0_r. f_equal.
    rewrite (IH (S a)), <- seq_shift, map_map.
    apply map_ext; intros j. f_equal. lia.
Qed.

(** Reading [rows] rows of [cols] samples one after the other reads the
    first [rows * cols] samples in order. *)
Lemma concat_rows {A} (f : Z -> A) (cols : nat) (rows : nat) :
  forall a : nat,
    concat (map (fun i => map (fun j => f (Z.of_nat i * Z.of_nat cols
                                           + Z.of_nat j))
                              (seq 0 cols))
                (seq a rows))
    = map (fun k => f (Z.of_nat k)) (seq (a * cols) (rows * cols)).
Proof.
  induction rows as [|rows IH]; intros a; simpl.
  - reflexivity.
  - rewrite IH, seq_app, map_app. f_equal.
    + rewrite (map_seq_shift _ (a * cols)).
      apply map_ext; intros j. f_equal. lia.
    + f_equal. f_equal. lia.
Qed.

Lemma py_slice_len_range (stop len : Z) :
  0 <= len -> 0 <= py_slice_len stop len <= len.
Proof.
  intros Hlen. unfold py_slice_len.
  destruct (Z.ltb_spec stop 0); lia.
Qed.

Lemma reshape_rows_Some (n dim rows cols : Z) :
  0 <= n ->
  reshape_rows n dim = Some (rows, cols) ->
  cols = dim /\ 0 < cols /\ 0 <= rows /\ rows * cols = n.
Proof.
  intros Hn. unfold reshape_rows.
  destruct (Z.leb_spec dim 0) as [Hle | Hpos]; [discriminate|].
  destruct (Z.eqb_spec (n mod dim) 0) as [Hm|]; [|discriminate].
  intros E. inversion E; subst rows cols. clear E.
  split; [reflexivity|]. split; [exact Hpos|].
  split; [apply Z.div_pos; lia|].
  pose proof (Z.div_mod n dim ltac:(lia)). lia.
Qed.

Lemma reshape_rows_None (n dim : Z) :
  reshape_rows n dim = None <-> dim <= 0 \/ n mod dim <> 0.
Proof.
  unfold reshape_rows.
  destruct (Z.leb_spec dim 0) as [Hle | Hpos]; [split; auto|].
  destruct (Z.eqb_spec (n mod dim) 0) as [Hm | Hm].
  - split; [discriminate | intros [H' | H']; [lia | contradiction]].
  - split; auto.
Qed.

Section GetData.

Context {B : Bus}.

(** What a view shows: the first [view_len] samples of its half, in
    order, whenever its shape holds exactly that many. *)
Lemma view_data_flat (h : dev B) (v : ndview) :
  0 <= fst (view_shape v) -> 0 <= snd (view_shape v) ->
  fst (view_shape v) * snd (view_shape v) = view_len v ->
  concat (view_data h v) =
    map (fun k => bus_sample B h (view_half v) (Z.of_nat k))
        (seq 0 (Z.to_nat (view_len v))).
Proof.
  intros Hr Hc Hn. unfold view_data, view_row.
  destruct (view_shape v) as [rows cols]; simpl in *.
  rewrite <- Hn, Z2Nat.inj_mul by lia.
  pose proof (concat_rows (bus_sample B h (view_half v))
                (Z.to_nat cols) (Z.to_nat rows) 0) as Hflat.
  simpl in Hflat. rewrite <- Hflat.
  f_equal. apply map_ext; intros i. apply map_ext; intros j.
  rewrite Z2Nat.id by lia. reflexivity.
Qed.

Lemma get_data_after_swap (fuel : nat) (s s' : HW B) (which b : Z) :
  swap_buffers fuel s = (Ret (which, b), s') ->
  get_data fuel s =
    (if d s then
       match reshape_rows (py_slice_len (Z.shiftr b 1) half_len)
               (if _store_raw_data s then num_mics s else num_chans s) with
       | Some shape =>
           Ret {| view_half := which;
                  view_len := py_slice_len (Z.shiftr b 1) half_len;
                  view_shape := shape |}
       | None => Exc (ValueError "cannot reshape array"%string)
       end
     else Exc TypeError, s').
Proof.
  intros H. unfold get_data, bind. rewrite H. unfold get.
  destruct (swap_buffers_returns _ _ _ _ _ H) as (_ & _ & _ & _ & _ & _ & Hio & _).
  assert (Hd : d s' = d s) by (rewrite Hio; reflexivity).
  assert (Hm : _store_raw_data s' = _store_raw_data s)
    by (rewrite Hio; reflexivity).
  assert (Hn : num_mics s' = num_mics s) by (rewrite Hio; reflexivity).
  assert (Hc : num_chans s' = num_chans s) by (rewrite Hio; reflexivity).
  rewrite Hd, Hm, Hn, Hc.
  destruct (d s); [|reflexivity].
  destruct (reshape_rows _ _); reflexivity.
Qed.

End GetData.

(** C2, as the code has it. When the swap returned byte offset [b],
    [get_data] halves it and takes the first [n] samples of the half the
    swap named, where [n] is [b / 2] cut at the length of a half. When
    the width the capture mode selects (microphone count in raw mode,
    channel count otherwise) is positive and divides [n], it returns a
    view of exactly those [n] samples, [n / width] rows by [width]; so
    when the [b / 2] samples fit in a half and are a whole number of
    rows, the view is of exactly [b / 2] samples, and an offset of 800
    gives 100 by 4 at width 4 and 200 by 2 at width 2. When the width is
    not positive or does not divide [n], the reshape raises
    [ValueError] and no view is returned. *)
Theorem get_data_shape (B : Bus) (fuel : nat) (s s' : HW B) (which b : Z) :
  let width := if _store_raw_data s then num_mics s else num_chans s in
  let n := py_slice_len (Z.shiftr b 1) half_len in
  swap_buffers fuel s = (Ret (which, b), s') ->
  d s = true ->
  0 <= b ->
  (b / 2 <= half_len -> 0 < width -> (b / 2) mod width = 0 ->
   exists v,
     get_data fuel s = (Ret v, s')
     /\ view_half v = which
     /\ view_len v = b / 2
     /\ view_shape v = (b / 2 / width, width)
     /\ (forall h, concat (view_data h v) =
                   map (fun k => bus_sample B h which (Z.of_nat k))
                       (seq 0 (Z.to_nat (b / 2))))
     /\ (b = 800 -> width = 4 -> view_shape v = (100, 4))
     /\ (b = 800 -> width = 2 -> view_shape v = (200, 2)))
  /\ n = Z.min (b / 2) half_len
  /\ (0 < width -> n mod width = 0 ->
      exists v,
        get_data fuel s = (Ret v, s')
        /\ view_half v = which
        /\ view_len v = n
        /\ view_shape v = (n / width, width)
        /\ (forall h, concat (view_data h v) =
                      map (fun k => bus_sample B h which (Z.of_nat k))
                          (seq 0 (Z.to_nat n))))
  /\ (width <= 0 \/ n mod width <> 0 ->
      get_data fuel s =
        (Exc (ValueError "cannot reshape array"%string), s')).
Proof.
  intros width n Hswap Hd Hb.
  rewrite (get_data_after_swap _ _ _ _ _ Hswap), Hd.
  fold width. fold n.
  assert (Hhalf : Z.shiftr b 1 = b / 2).
  { rewrite Z.shiftr_div_pow2 by lia. reflexivity. }
  assert (Hpos : 0 <= b / 2) by (apply Z.div_pos; lia).
  assert (Hn : n = Z.min (b / 2) half_len).
  { unfold n, py_slice_len. rewrite Hhalf.
    destruct (b / 2 <? 0) eqn:E; [apply Z.ltb_lt in E; lia | reflexivity]. }
  assert (Hn0 : 0 <= n) by (rewrite Hn; apply Z.min_glb; [lia | discriminate]).
  assert (Hview : 0 < width -> n mod width = 0 ->
    exists v,
      (match reshape_rows n width with
       | Some shape =>
           Ret {| view_half := which; view_len := n; view_shape := shape |}
       | None => Exc (ValueError "cannot reshape array"%string)
       end, s') = (Ret v, s')
      /\ view_half v = which
      /\ view_len v = n
      /\ view_shape v = (n / width, width)
      /\ (forall h, concat (view_data h v) =
                    map (fun k => bus_sample B h which (Z.of_nat k))
                        (seq 0 (Z.to_nat n)))).
  { intros Hw Hmod. unfold reshape_rows.
    destruct (width <=? 0) eqn:E; [apply Z.leb_le in E; lia|].
    rewrite Hmod. cbn [Z.eqb].
    eexists; split; [reflexivity|].
    cbn [view_half view_len view_shape].
    do 3 (split; [reflexivity|]).
    intros h.
    rewrite (view_data_flat h); cbn [view_half view_len view_shape fst snd];
      try reflexivity.
    - apply Z.div_pos; lia.
    - lia.
    - pose proof (Z.div_mod n width). lia. }
  split; [|split; [exact Hn|split; [exact Hview|]]].
  - intros Hfit Hw Hmod.
    assert (Hlen : n = b / 2) by (rewrite Hn; apply Z.min_l; exact Hfit).
    rewrite <- Hlen in Hmod.
    destruct (Hview Hw Hmod) as (v & Hg & Hh & Hl & Hs & Hdata).
    rewrite Hlen in Hl, Hs, Hdata.
    exists v. do 5 (split; [assumption|]).
    split; intros -> Hw'; rewrite Hs, Hw'; reflexivity.
  - intros Hbad. apply reshape_rows_None in Hbad. rewrite Hbad. reflexivity.
Qed.

Lemma get_data_shape_witness :
  let raw := bench_session 800 (fun _ => 3%nat) in
  let processed := with_store_raw_data false raw in
  (exists v,
      get_data 4 raw = (Ret v, snd (swap_buffers 4 raw))
      /\ view_half v = 1 /\ view_len v = 400 /\ view_shape v = (100, 4))
  /\ (exists v,
        get_data 4 processed = (Ret v, snd (swap_buffers 4 processed))
        /\ view_half v = 1 /\ view_len v = 400 /\ view_shape v = (200, 2))
  /\ get_data 4 (bench_session 6 (fun _ => 3%nat)) =
       (Exc (ValueError "cannot reshape array"%string),
        snd (swap_buffers 4 (bench_session 6 (fun _ => 3%nat))))
  /\ (exists v,
        get_data 4 (bench_session 0x100_0000 (fun _ => 3%nat)) =
          (Ret v, snd (swap_buffers 4
                         (bench_session 0x100_0000 (fun _ => 3%nat))))
        /\ view_len v = half_len
        /\ view_shape v = (half_len / 4, 4)).
Proof.
  intros raw processed. split; [|split; [|split]].
  - destruct (get_data_shape board 4%nat raw (snd (swap_buffers 4 raw)) 1 800)
      as (Hfit & _).
    + vm_compute. reflexivity.
    + reflexivity.
    + lia.
    + destruct Hfit as (v & Hg & Hh & Hl & _ & _ & H4 & _).
      * vm_compute. discriminate.
      * reflexivity.
      * reflexivity.
      * exists v. split; [exact Hg|]. split; [exact Hh|]. split; [exact Hl|].
        apply H4; vm_compute; reflexivity.
  - destruct (get_data_shape board 4%nat processed
                (snd (swap_buffers 4 processed)) 1 800)
      as (Hfit & _).
    + vm_compute. reflexivity.
    + reflexivity.
    + lia.
    + destruct Hfit as (v & Hg & Hh & Hl & _ & _ & _ & H2).
      * vm_compute. discriminate.
      * reflexivity.
      * reflexivity.
      * exists v. split; [exact Hg|]. split; [exact Hh|]. split; [exact Hl|].
        apply H2; vm_compute; reflexivity.
  - refine (proj2 (proj2 (proj2
      (get_data_shape board 4%nat (bench_session 6 (fun _ => 3%nat))
         (snd (swap_buffers 4 (bench_session 6 (fun _ => 3%nat)))) 1 6
         _ _ _))) _).
    + vm_compute. reflexivity.
    + reflexivity.
    + lia.
    + right. vm_compute. discriminate.
  - destruct (get_data_shape board 4%nat
                (bench_session 0x100_0000 (fun _ => 3%nat))
                (snd (swap_buffers 4
                        (bench_session 0x100_0000 (fun _ => 3%nat))))
                1 0x100_0000)
      as (_ & _ & Hview & _).
    + vm_compute. reflexivity.
    + reflexivity.
    + lia.
    + destruct Hview as (v & Hg & _ & Hl & Hs & _).
      * reflexivity.
      * vm_compute. reflexivity.
      * exists v. split; [exact Hg|]. split; [exact Hl | exact Hs].
Defined.

(** C2 as stated fails: an offset of 6 bytes is 3 samples, which are not
    a whole number of rows of 4 microphones, and [get_data] raises
    instead of returning a view of 3 samples. *)
Lemma get_data_shape_counterexample :
  let s := bench_session 6 (fun _ => 3%nat) in
  fst (swap_buffers 4 s) = Ret (1, 6)
  /\ _store_raw_data s = true
  /\ num_mics s = 4
  /\ fst (get_data 4 s) = Exc (ValueError "cannot reshape array"%string)
  /\ ~ (exists v, fst (get_data 4 s) = Ret v /\ view_len v = 6 / 2).
Proof.
  intros s. repeat split; try (vm_compute; reflexivity).
  intros (v & H & _). vm_compute in H. discriminate H.
Qed.

(** ** Construction *)

Section Construction.

Context {B : Bus}.

(** The drain loop of the constructor returns or keeps spinning; it
    never raises once the register array is in place, and it only adds
    to the log. *)
Lemma drain_outcome (fuel : nat) :
  forall s : HW B,
    r s = true ->
    (fst (drain fuel s) = Ret tt \/ fst (drain fuel s) = Spin)
    /\ exists t, log (snd (drain fuel s)) = log s ++ t.
Proof.
  induction fuel as [|fuel IH]; intros s Hr; simpl.
  - split; [right; reflexivity | exists []; symmetry; apply app_nil_r].
  - step. destruct (truthy _).
    + match goal with |- context [drain fuel ?x] => set (s1 := x) end.
      destruct (IH s1 Hr) as [Ho [t Ht]].
      split; [exact Ho|].
      rewrite Ht. unfold s1; simpl. rewrite <- app_assoc. eexists; reflexivity.
    + split; [left; reflexivity|]. simpl. eexists; reflexivity.
Qed.

Lemma land_u32 (x : Z) : Z.land x 0xFFFF_FFFF = x mod 2 ^ 32.
Proof. change 0xFFFF_FFFF with (Z.ones 32). apply Z.land_ones. lia. Qed.

(** The constructor once the four acquisition calls have succeeded. *)
Lemma construct_acquired (env : Env B) (fuel : nat) :
  os_open_buf env = None -> os_open_reg env = None ->
  mmap_buf env = None -> mmap_reg env = None ->
  let v := fst (bus_read B 0 (device env)) in
  let val := ((v + 0x1234) * 3) mod 2 ^ 32 in
  let back :=
    fst (bus_read B 0 (bus_write B 0 val (snd (bus_read B 0 (device env))))) in
  (exists rest,
      log (snd (construct env fuel)) = [Rd 0 v; Wr 0 val; Rd 0 back] ++ rest)
  /\ (back <> val ->
      fst (construct env fuel) =
        Exc (ValueError "test register not responding"%string))
  /\ (back = val ->
      fst (construct env fuel) = Ret tt \/ fst (construct env fuel) = Spin).
Proof.
  intros H1 H2 H3 H4 v val back.
  unfold construct, __init__. rewrite H1, H2, H3, H4. unfold os_call.
  repeat step.
  change (hw (blank env)) with (device env).
  change (log (blank env)) with (@nil event).
  rewrite land_u32. fold v. fold val. fold back.
  destruct (back =? val) eqn:Eb; cbn [negb].
  - apply Z.eqb_eq in Eb. repeat step.
    match goal with |- context [bind (drain fuel) ?k ?x] =>
      set (s1 := x); set (k1 := k) end.
    destruct (drain_outcome fuel s1 eq_refl) as [Ho [t Ht]].
    unfold bind. destruct (drain fuel s1) as [o s2]. cbn [fst snd] in Ho, Ht.
    split; [|split].
    + destruct Ho as [-> | ->]; [unfold k1; repeat step; unfold modify|];
        cbn [fst snd]; attrs; rewrite Ht; unfold s1; attrs;
        cbn [app]; eexists; reflexivity.
    + intros Hne; contradiction.
    + intros _. destruct Ho as [-> | ->]; [left | right]; reflexivity.
  - apply Z.eqb_neq in Eb. unfold raise. cbn [fst snd]. attrs.
    split; [exists []; reflexivity|]. split.
    + reflexivity.
    + intros Heq; contradiction.
Qed.

(** The constructor when one of the four acquisition calls fails: the
    error of the first one that fails leaves the constructor, and no
    register is touched. *)
Lemma construct_unavailable (env : Env B) (fuel : nat) (e : oserror) :
  os_open_buf env = Some e
  \/ (os_open_buf env = None /\ os_open_reg env = Some e)
  \/ (os_open_buf env = None /\ os_open_reg env = None /\
      mmap_buf env = Some e)
  \/ (os_open_buf env = None /\ os_open_reg env = None /\
      mmap_buf env = None /\ mmap_reg env = Some e) ->
  fst (construct env fuel) = Exc (OSError e)
  /\ log (snd (construct env fuel)) = [].
Proof.
  unfold construct, __init__, bind.
  intros [H | [[H1 H] | [(H1 & H2 & H) | (H1 & H2 & H3 & H)]]].
  - rewrite H. destruct e; simpl; auto.
  - rewrite H1, H. simpl; auto.
  - rewrite H1, H2, H. simpl; auto.
  - rewrite H1, H2, H3, H. simpl; auto.
Qed.

End Construction.

(** C3. With the device opened and mapped, the constructor reads
    register 0, stores [((v + 0x1234) * 3) mod 2^32] to it and reads it
    again, and raises the test-register [ValueError] exactly when that
    second read differs from what was stored. When an [os.open] or
    [mmap.mmap] call fails, the constructor leaves with that [OSError]
    instead, before any register access; an [OSError] is never the
    [ValueError] of the liveness check. *)
Theorem liveness_check (B : Bus) (env : Env B) (fuel : nat) :
  let v := fst (bus_read B 0 (device env)) in
  let val := ((v + 0x1234) * 3) mod 2 ^ 32 in
  let back :=
    fst (bus_read B 0 (bus_write B 0 val (snd (bus_read B 0 (device env))))) in
  (os_open_buf env = None -> os_open_reg env = None ->
   mmap_buf env = None -> mmap_reg env = None ->
   (exists rest,
       log (snd (construct env fuel)) = [Rd 0 v; Wr 0 val; Rd 0 back] ++ rest)
   /\ (fst (construct env fuel) =
         Exc (ValueError "test register not responding"%string)
       <-> back <> val))
  /\ (forall e,
        os_open_buf env = Some e
        \/ (os_open_buf env = None /\ os_open_reg env = Some e)
        \/ (os_open_buf env = None /\ os_open_reg env = None /\
            mmap_buf env = Some e)
        \/ (os_open_buf env = None /\ os_open_reg env = None /\
            mmap_buf env = None /\ mmap_reg env = Some e) ->
        fst (construct env fuel) = Exc (OSError e)
        /\ log (snd (construct env fuel)) = []
        /\ forall msg, fst (construct env fuel) <> Exc (ValueError msg)).
Proof.
  intros v val back. split.
  - intros H1 H2 H3 H4.
    destruct (construct_acquired env fuel H1 H2 H3 H4) as (Hlog & Hne & Heq).
    split; [exact Hlog|]. split.
    + intros Hexc Hback.
      destruct (Heq Hback) as [Ho | Ho]; rewrite Ho in Hexc; discriminate.
    + exact Hne.
  - intros e He.
    destruct (construct_unavailable env fuel e He) as [Ho Hl].
    split; [exact Ho|]. split; [exact Hl|].
    intros msg. rewrite Ho. discriminate.
Qed.

Lemma liveness_check_witness :
  (fst (construct (env_ok dead_bus (fun _ => 0)) 1) =
     Exc (ValueError "test register not responding"%string)
   <-> 0 <> 13980)
  /\ fst (construct env_denied 1) = Exc (OSError PermissionError).
Proof.
  split.
  - exact (proj2 (proj1 (liveness_check dead_bus (env_ok dead_bus (fun _ => 0)) 1)
                    eq_refl eq_refl eq_refl eq_refl)).
  - exact (proj1 (proj2 (liveness_check board env_denied 1)
                    PermissionError (or_introl eq_refl))).
Defined.

(** A bus that loses every write still passes the check when register 0
    happens to hold a fixed point of the transform. *)
Example dead_bus_fixed_point :
  fst (construct (env_ok dead_bus (fun _ => 0x7FFFE4B2)) 1) = Ret tt.
Proof. vm_compute. reflexivity. Qed.

(** ** Plain-storage registers *)

Lemma board_read_other (i : Z) (b : board_state) :
  i <> 2 -> board_read i b = (regs b i, b).
Proof.
  intros Hi. unfold board_read.
  destruct (i =? 2) eqn:E; [apply Z.eqb_eq in E; contradiction | reflexivity].
Qed.

Lemma board_regs_read (i j : Z) (b : board_state) :
  regs (snd (board_read j b)) i = regs b i.
Proof.
  unfold board_read, tick. destruct (j =? 2); [|reflexivity].
  simpl. destruct (pending b) as [|[|n]]; reflexivity.
Qed.

Lemma board_regs_write_same (i v : Z) (b : board_state) :
  i <> 2 -> regs (board_write i v b) i = v.
Proof.
  intros Hi. unfold board_write.
  destruct (i =? 2) eqn:E; [apply Z.eqb_eq in E; contradiction|].
  simpl. unfold upd. rewrite Z.eqb_refl. reflexivity.
Qed.

Lemma board_regs_write_other (i j v : Z) (b : board_state) :
  j <> i -> regs (board_write j v b) i = regs b i.
Proof.
  intros Hj. unfold board_write. destruct (j =? 2).
  - destruct (Z.testbit v 0); [|reflexivity].
    destruct (pending b); [|reflexivity].
    destruct (latency b (swaps b)); reflexivity.
  - simpl. unfold upd.
    destruct (i =? j) eqn:E; [apply Z.eqb_eq in E; congruence | reflexivity].
Qed.

(** Every register of the board but the swap status is plain storage. *)
Definition board_storage (i : Z) (Hi : i <> 2) : Storage board i :=
  Build_Storage board i
    (fun b => regs b i)
    (fun b => f_equal fst (board_read_other i b Hi))
    (fun j b => board_regs_read i j b)
    (fun v b => board_regs_write_same i v b Hi)
    (fun j v b Hj => board_regs_write_other i j v b Hj).

Lemma four_not_status : 4 <> 2.
Proof. discriminate. Qed.

Lemma ten_not_status : 10 <> 2.
Proof. discriminate. Qed.

Lemma eleven_not_status : 11 <> 2.
Proof. discriminate. Qed.

(** ** Gain *)

Lemma set_gain_rejects {B : Bus} (s : HW B) (g : Z) :
  ~ (1 <= g <= 256) ->
  set_gain g s = (Exc (ValueError "must be 1 <= gain <= 256"%string), s).
Proof.
  intros Hg. unfold set_gain.
  destruct (g <? 1) eqn:E1; [reflexivity|].
  destruct (g >? 256) eqn:E2; [reflexivity|].
  apply Z.ltb_ge in E1. rewrite Z.gtb_ltb in E2. apply Z.ltb_ge in E2. lia.
Qed.

(** C4. For [1 <= g <= 256], [set_gain g] on an open session is the one
    store of [g - 1] to register 4, and reading register 4 back gives
    [g - 1] when that register is plain storage. For any other [g] the
    call raises the range [ValueError] and the session, its device and
    its log are exactly as before: nothing was stored. *)
Theorem set_gain_contract (B : Bus) (s : HW B) (g : Z) :
  (1 <= g <= 256 -> r s = true ->
   set_gain g s =
     (Ret tt,
      with_log (log s ++ [Wr 4 (g - 1)])
        (with_hw (bus_write B 4 (g - 1) (hw s)) s))
   /\ forall St : Storage B 4,
        peek St (hw (snd (set_gain g s))) = g - 1
        /\ fst (reg_read 4 (snd (set_gain g s))) = Ret (g - 1))
  /\ (~ (1 <= g <= 256) ->
      set_gain g s =
        (Exc (ValueError "must be 1 <= gain <= 256"%string), s)).
Proof.
  split.
  - intros Hg Hr. unfold set_gain.
    destruct (g <? 1) eqn:E1; [apply Z.ltb_lt in E1; lia|].
    destruct (g >? 256) eqn:E2; [apply Z.gtb_lt in E2; lia|].
    cbn [orb]. rewrite (reg_write_open 4 (g - 1) s Hr).
    split; [reflexivity|]. intros St. attrs.
    split; [apply peek_write|].
    rewrite reg_read_open by exact Hr. attrs.
    rewrite (read_peek B 4 St), (peek_write B 4 St). reflexivity.
  - apply set_gain_rejects.
Qed.

Lemma set_gain_contract_witness :
  let s := bench_session 800 (fun _ => 3%nat) in
  (set_gain 256 s =
     (Ret tt,
      with_log (log s ++ [Wr 4 (256 - 1)])
        (with_hw (B := board) (bus_write board 4 (256 - 1) (hw s)) s))
   /\ forall St : Storage board 4,
        peek St (hw (snd (set_gain 256 s))) = 256 - 1
        /\ fst (reg_read 4 (snd (set_gain 256 s))) = Ret (256 - 1))
  /\ set_gain 257 s =
       (Exc (ValueError "must be 1 <= gain <= 256"%string), s).
Proof.
  intros s. split.
  - apply (proj1 (set_gain_contract board s 256)).
    + lia.
    + reflexivity.
  - apply (proj2 (set_gain_contract board s 257)). lia.
Defined.

(** ** Teardown *)

Section Teardown.

Context {B : Bus}.

(** The session as [close] leaves it when every release went through. *)
Lemma close_open (s : HW B) :
  _closed s = Some false -> acquired s ->
  close nothing_held s =
    (Ret tt,
     with_closed (Some true)
       (with_reg_fd false
          (with_buf_fd false
             (with_reg_mmap false
                (with_buf_mmap false (with_r false (with_d false s))))))).
Proof.
  intros Hc (Hbf & Hrf & Hbm & Hrm). unfold close. step. rewrite Hc.
  cbn [getattr]. repeat step. rewrite Hbm. cbn [mmap_close sample_buffers
    nothing_held views register_buffers buf_fd_valid reg_fd_valid].
  repeat step. rewrite Hrm. cbn [mmap_close]. repeat step.
  rewrite Hbf. cbn [os_close]. repeat step.
  rewrite Hrf. cbn [os_close]. repeat step. reflexivity.
Qed.

Lemma close_closed (out : Outside) (s : HW B) :
  _closed s = Some true -> close out s = (Exc (ValueError EmptyString), s).
Proof. intros Hc. unfold close. step. rewrite Hc. reflexivity. Qed.

Lemma close_unassigned (out : Outside) (s : HW B) :
  _closed s = None -> close out s = (Exc AttributeError, s).
Proof. intros Hc. unfold close. step. rewrite Hc. reflexivity. Qed.

(** While somebody holds an array over the sample memory, [close] gets
    as far as the first [mmap.close()] and no further. *)
Lemma close_exported (out : Outside) (s : HW B) :
  _closed s = Some false -> _buf_mmap s = true -> views out <> [] ->
  close out s = (Exc BufferError, with_r false (with_d false s)).
Proof.
  intros Hc Hbm Hv. unfold close. step. rewrite Hc. cbn [getattr].
  repeat step. rewrite Hbm. unfold sample_buffers.
  destruct (views out) as [|v vs]; [contradiction|]. reflexivity.
Qed.

Lemma del_closed (out : Outside) (s : HW B) :
  _closed s = Some true -> __del__ out s = (Ret tt, s).
Proof. intros Hc. unfold __del__. step. rewrite Hc. reflexivity. Qed.

Lemma del_open (out : Outside) (s : HW B) :
  _closed s = Some false -> __del__ out s = close out s.
Proof.
  intros Hc. unfold __del__. step. rewrite Hc. cbn [getattr]. step.
  reflexivity.
Qed.

Lemma del_unassigned (out : Outside) (s : HW B) :
  _closed s = None -> __del__ out s = (Exc AttributeError, s).
Proof. intros Hc. unfold __del__. step. rewrite Hc. reflexivity. Qed.

(** A view that [get_data] returned comes with the session as it was,
    up to the device and the log. *)
Lemma get_data_keeps (fuel : nat) (s s' : HW B) (v : ndview) :
  get_data fuel s = (Ret v, s') -> io_only s s'.
Proof.
  intros H.
  destruct (swap_buffers fuel s) as [[[w b]| |] s1] eqn:Hs;
    try (unfold get_data, bind in H; rewrite Hs in H; discriminate H).
  rewrite (get_data_after_swap _ _ _ _ _ Hs) in H.
  destruct (swap_buffers_returns _ _ _ _ _ Hs)
    as (_ & _ & _ & _ & _ & _ & Hio & _).
  apply (f_equal snd) in H. cbn [snd] in H. subst s'. exact Hio.
Qed.

(** Once [self.r] is [None], every method that gets as far as the
    register array leaves with the [TypeError] of subscripting [None]. *)
Lemma call_without_registers (m : method) (s : HW B) :
  r s = false -> in_range m -> fst (call m s) = Exc TypeError.
Proof.
  intros Hr Hm.
  destruct m as [f|f|gain|b|b w f| | | | | | |n|n| | ];
    cbn [call in_range] in *;
    unfold swap_buffers, get_data, set_gain, set_use_fake_mics,
      set_store_raw_data, get_button_state, get_off_button_state, get_gain,
      LED_idle, button_press_indicate, button_press_indicate_r,
      LED_recording, LED_quick_blink, LED_off, LED_on, iand_reg, ior_reg,
      get_button_state;
    repeat rewrite bind_assoc;
    try (rewrite bind_write_None by exact Hr; reflexivity);
    try (rewrite bind_read_None by exact Hr; reflexivity).
  - unfold swap_buffers. repeat rewrite bind_assoc.
    rewrite bind_write_None by exact Hr. reflexivity.
  - destruct (gain <? 1) eqn:E1; [apply Z.ltb_lt in E1; lia|].
    destruct (gain >? 256) eqn:E2; [apply Z.gtb_lt in E2; lia|].
    cbn [orb]. rewrite reg_write_None by exact Hr. reflexivity.
  - rewrite reg_write_None by exact Hr. reflexivity.
  - rewrite bind_modify, bind_get.
    rewrite bind_write_None by exact Hr. reflexivity.
Qed.

End Teardown.

(** C5, as the code has it. On a session that is not closed and holds
    its two descriptors and two mappings, [close] with nothing held
    outside returns, sets [_closed] and replaces [d] and [r] by [None]
    without touching the device; any later [close] raises the bare
    [ValueError] and changes nothing, and [__del__] then does nothing.
    Every other method called after [close] fails as well, but with the
    [TypeError] of subscripting [None], not with the error of [close];
    [set_gain] with a gain out of range still raises its own range
    [ValueError]. While an array over the sample memory is still held
    outside, a view returned by [get_data] for one, [close] does not
    succeed: it raises [BufferError] after [d] and [r] have been set to
    [None] and before anything is released, leaving [_closed] false. The
    other methods then fail with [TypeError] all the same, a repeated
    [close] raises [BufferError] again for as long as the array is held,
    and succeeds once it is dropped. *)
Theorem close_once (B : Bus) (s : HW B) :
  _closed s = Some false -> acquired s ->
  (let s1 := snd (close nothing_held s) in
   fst (close nothing_held s) = Ret tt
   /\ _closed s1 = Some true /\ r s1 = false /\ d s1 = false
   /\ hw s1 = hw s /\ log s1 = log s
   /\ (forall out, close out s1 = (Exc (ValueError EmptyString), s1))
   /\ (forall out, __del__ out s1 = (Ret tt, s1))
   /\ (forall m, in_range m -> fst (call m s1) = Exc TypeError)
   /\ (forall g, ~ 1 <= g <= 256 ->
         call (Call_set_gain g) s1 =
           (Exc (ValueError "must be 1 <= gain <= 256"%string), s1)))
  /\ (forall out, views out <> [] ->
      let s2 := snd (close out s) in
      close out s = (Exc BufferError, with_r false (with_d false s))
      /\ _closed s2 = Some false /\ acquired s2
      /\ hw s2 = hw s /\ log s2 = log s
      /\ close out s2 = (Exc BufferError, s2)
      /\ __del__ out s2 = (Exc BufferError, s2)
      /\ fst (close nothing_held s2) = Ret tt
      /\ _closed (snd (close nothing_held s2)) = Some true
      /\ (forall m, in_range m -> fst (call m s2) = Exc TypeError))
  /\ (forall fuel v s', get_data fuel s = (Ret v, s') ->
      close (holding [v]) s' =
        (Exc BufferError, with_r false (with_d false s'))).
Proof.
  intros Hc Ha. split; [|split].
  - intros s1. unfold s1. rewrite (close_open s Hc Ha). cbn [fst snd].
    do 6 (split; [reflexivity|]).
    split; [intros out; apply close_closed; reflexivity|].
    split; [intros out; apply del_closed; reflexivity|].
    split.
    + intros m Hm. apply call_without_registers; [reflexivity | exact Hm].
    + intros g Hg. cbn [call]. apply set_gain_rejects. exact Hg.
  - intros out Hv s2. unfold s2.
    rewrite (close_exported out s Hc (proj1 (proj2 (proj2 Ha))) Hv).
    cbn [fst snd].
    set (s3 := with_r false (with_d false s)).
    assert (Hc3 : _closed s3 = Some false) by exact Hc.
    assert (Ha3 : acquired s3) by exact Ha.
    split; [reflexivity|]. split; [exact Hc3|]. split; [exact Ha3|].
    split; [reflexivity|]. split; [reflexivity|].
    split; [apply (close_exported out s3 Hc3 (proj1 (proj2 (proj2 Ha3))) Hv)|].
    split.
    { rewrite (del_open out s3 Hc3).
      apply (close_exported out s3 Hc3 (proj1 (proj2 (proj2 Ha3))) Hv). }
    rewrite (close_open s3 Hc3 Ha3). cbn [fst snd].
    split; [reflexivity|]. split; [reflexivity|].
    intros m Hm. apply call_without_registers; [reflexivity | exact Hm].
  - intros fuel v s' Hg.
    pose proof (get_data_keeps fuel s s' v Hg) as Hio.
    apply close_exported.
    + rewrite Hio. exact Hc.
    + rewrite Hio. exact (proj1 (proj2 (proj2 Ha))).
    + discriminate.
Qed.

Lemma close_once_witness :
  let s := bench_session 800 (fun _ => 3%nat) in
  (let s1 := snd (close nothing_held s) in
   fst (close nothing_held s) = Ret tt
   /\ _closed s1 = Some true /\ r s1 = false /\ d s1 = false
   /\ hw s1 = hw s /\ log s1 = log s
   /\ (forall out, close out s1 = (Exc (ValueError EmptyString), s1))
   /\ (forall out, __del__ out s1 = (Ret tt, s1))
   /\ (forall m, in_range m -> fst (call m s1) = Exc TypeError)
   /\ (forall g, ~ 1 <= g <= 256 ->
         call (Call_set_gain g) s1 =
           (Exc (ValueError "must be 1 <= gain <= 256"%string), s1)))
  /\ (forall out, views out <> [] ->
      let s2 := snd (close out s) in
      close out s = (Exc BufferError, with_r false (with_d false s))
      /\ _closed s2 = Some false /\ acquired s2
      /\ hw s2 = hw s /\ log s2 = log s
      /\ close out s2 = (Exc BufferError, s2)
      /\ __del__ out s2 = (Exc BufferError, s2)
      /\ fst (close nothing_held s2) = Ret tt
      /\ _closed (snd (close nothing_held s2)) = Some true
      /\ (forall m, in_range m -> fst (call m s2) = Exc TypeError))
  /\ (forall fuel v s', get_data fuel s = (Ret v, s') ->
      close (holding [v]) s' =
        (Exc BufferError, with_r false (with_d false s'))).
Proof.
  intros s. apply (close_once board s).
  - vm_compute. reflexivity.
  - vm_compute. repeat split.
Defined.

(** C5 as stated fails: after [close], [swap_buffers] does not fail the
    way a second [close] does. *)
Lemma close_once_counterexample :
  let s1 := snd (close nothing_held (bench_session 800 (fun _ => 3%nat))) in
  fst (close nothing_held s1) = Exc (ValueError EmptyString)
  /\ fst (call (Call_swap_buffers 4) s1) = Exc TypeError
  /\ fst (call (Call_swap_buffers 4) s1) <> fst (close nothing_held s1).
Proof.
  intros s1. split; [|split].
  - vm_compute. reflexivity.
  - vm_compute. reflexivity.
  - vm_compute. discriminate.
Qed.

(** The view of the 400 samples that [get_data] returned is still held:
    [close] raises [BufferError] and the session is not closed. *)
Example close_while_viewed :
  let s := bench_session 800 (fun _ => 3%nat) in
  exists v s',
    get_data 4 s = (Ret v, s')
    /\ view_shape v = (100, 4)
    /\ fst (close (holding [v]) s') = Exc BufferError
    /\ _closed (snd (close (holding [v]) s')) = Some false
    /\ fst (close nothing_held (snd (close (holding [v]) s'))) = Ret tt.
Proof.
  intros s. eexists. eexists.
  split; [vm_compute; reflexivity|].
  split; [reflexivity|].
  split; [vm_compute; reflexivity|].
  split; vm_compute; reflexivity.
Qed.

(** ** Capture mode *)

Section CaptureMode.

Context {B : Bus}.

(** Polling only reads: it assigns no attribute, appends only reads to
    the log and leaves every plain-storage register as it was. *)
Lemma poll_status_frame (fuel : nat) :
  forall s : HW B,
    r s = true ->
    io_only s (snd (poll_status fuel s))
    /\ (exists t, log (snd (poll_status fuel s)) = log s ++ t
                  /\ Forall is_read t)
    /\ forall i (St : Storage B i),
         peek St (hw (snd (poll_status fuel s))) = peek St (hw s).
Proof.
  induction fuel as [|fuel IH]; intros s Hr; simpl.
  - split; [apply io_only_refl|]. split; [|reflexivity].
    exists []. rewrite app_nil_r. split; [reflexivity | constructor].
  - step.
    match goal with |- context [with_log ?l (with_hw ?h s)] =>
      set (s1 := with_log l (with_hw h s)) end.
    assert (Hio1 : io_only s s1) by (unfold io_only, s1; attrs; reflexivity).
    destruct (truthy _).
    + destruct (IH s1 Hr) as (Hio & (t & Ht & Hrd) & Hpk).
      split; [eapply io_only_trans; eauto|]. split.
      * rewrite Ht. unfold s1 at 1. attrs. rewrite <- app_assoc.
        eexists; split; [reflexivity|]. constructor; [exact I | exact Hrd].
      * intros i St. rewrite Hpk. unfold s1. attrs. apply peek_read.
    + unfold ret. cbn [fst snd]. split; [exact Hio1|]. split.
      * unfold s1. attrs. eexists; split; [reflexivity|].
        constructor; [exact I | constructor].
      * intros i St. unfold s1. attrs. apply peek_read.
Qed.

(** However it ends, a swap stores once, to register 2, and otherwise
    only reads. *)
Lemma swap_buffers_frame (fuel : nat) (s : HW B) :
  r s = true ->
  io_only s (snd (swap_buffers fuel s))
  /\ (exists t, log (snd (swap_buffers fuel s)) = log s ++ Wr 2 1 :: t
                /\ Forall is_read t)
  /\ forall i (St : Storage B i),
       i <> 2 -> peek St (hw (snd (swap_buffers fuel s))) = peek St (hw s).
Proof.
  intros Hr. unfold swap_buffers. step.
  match goal with |- context [with_log ?l (with_hw ?h s)] =>
    set (s1 := with_log l (with_hw h s)) end.
  assert (Hio1 : io_only s s1) by (unfold io_only, s1; attrs; reflexivity).
  destruct (poll_status_frame fuel s1 Hr) as (Hio & (t & Ht & Hrd) & Hpk).
  assert (Hpk1 : forall i (St : Storage B i),
             i <> 2 -> peek St (hw s1) = peek St (hw s)).
  { intros i St Hi. unfold s1. attrs. apply peek_write_other. congruence. }
  assert (Hl1 : log s1 = log s ++ [Wr 2 1]) by reflexivity.
  unfold bind.
  destruct (poll_status fuel s1) as [[status| |] s2]; cbn [fst snd] in *.
  - assert (Hr2 : r s2 = true) by (rewrite (io_only_r _ _ Hio); exact Hr).
    rewrite (reg_read_open 3 s2 Hr2). unfold ret. cbn [fst snd]. attrs.
    split; [|split].
    + eapply io_only_trans; [exact Hio1|].
      eapply io_only_trans; [exact Hio|].
      unfold io_only; attrs; reflexivity.
    + rewrite Ht, Hl1. repeat rewrite <- app_assoc. cbn [app].
      eexists; split; [reflexivity|].
      apply Forall_app; split; [exact Hrd|]. constructor; [exact I|constructor].
    + intros i St Hi. rewrite peek_read, Hpk. apply Hpk1; exact Hi.
  - split; [eapply io_only_trans; eauto|]. split.
    + rewrite Ht, Hl1, <- app_assoc. eexists; split; [reflexivity | exact Hrd].
    + intros i St Hi. rewrite Hpk. apply Hpk1; exact Hi.
  - split; [eapply io_only_trans; eauto|]. split.
    + rewrite Ht, Hl1, <- app_assoc. eexists; split; [reflexivity | exact Hrd].
    + intros i St Hi. rewrite Hpk. apply Hpk1; exact Hi.
Qed.

End CaptureMode.




(** The order of the two assignments, seen on a closed session: the
    mirror has changed, register 10 has not been written. *)
Example mirror_before_store :
  let s := snd (close nothing_held (bench_session 800 (fun _ => 3%nat))) in
  _store_raw_data s = true
  /\ fst (set_store_raw_data false false 4 s) = Exc TypeError
  /\ _store_raw_data (snd (set_store_raw_data false false 4 s)) = false
  /\ log (snd (set_store_raw_data false false 4 s)) = log s.
Proof.
  intros s. split; [|split; [|split]]; vm_compute; reflexivity.
Qed.

(** The settling time of the bench board, 73 periods of 48 kHz, as the
    source computes it, and what [time.sleep] makes of it. *)
Example settle_seconds_bench :
  settle_seconds 48000 63 = 0x1.8ead65b7a3284p-10%float
  /\ sleep_refusal (settle_seconds 48000 63) = None
  /\ sleep_refusal (settle_seconds (-48000) 63)
     = Some (ValueError "sleep length must be non-negative").
Proof. repeat split; vm_compute; reflexivity. Qed.

(** ** The idle animation *)

Section Idle.

Context {B : Bus}.

Lemma idle_values_getitem (i : Z) :
  0 <= i < 16 -> exists v, py_getitem idle_values i = Some v.
Proof.
  intros Hi. unfold py_getitem.
  change (Z.of_nat (List.length idle_values)) with 16.
  destruct (0 <=? i) eqn:E1; [|apply Z.leb_gt in E1; lia].
  destruct (i <? 16) eqn:E2; [|apply Z.ltb_ge in E2; lia].
  cbn [andb].
  destruct (nth_error idle_values (Z.to_nat i)) as [v|] eqn:E.
  - exists v; reflexivity.
  - apply nth_error_None in E. simpl in E. lia.
Qed.

Lemma bounce_range (k : Z) : 0 <= bounce k < 16.
Proof.
  unfold bounce. pose proof (Z.mod_pos_bound k 30 ltac:(lia)).
  destruct (Z.leb_spec (k mod 30) 15); lia.
Qed.

Lemma mod30_succ (k : Z) :
  (k + 1) mod 30 = if k mod 30 =? 29 then 0 else k mod 30 + 1.
Proof.
  destruct (Z.eqb_spec (k mod 30) 29);
    Z.to_euclidean_division_equations; lia.
Qed.

Ltac split_tests :=
  repeat match goal with
         | |- context [?a <=? ?b] => destruct (Z.leb_spec a b)
         | |- context [?a <? ?b] => destruct (Z.ltb_spec a b)
         | |- context [?a =? ?b] => destruct (Z.eqb_spec a b)
         | H : context [?a <=? ?b] |- _ => destruct (Z.leb_spec a b)
         | H : context [?a =? ?b] |- _ => destruct (Z.eqb_spec a b)
         end.

(** The counter update of [LED_idle], on the positions. *)
Lemma bounce_next (k : Z) :
  0 <= k ->
  bounce (k + 1) =
    let i := bounce k in
    let p := if k =? 0 then -1 else bounce (k - 1) in
    if i >? p then (if i + 1 =? 16 then 14 else i + 1)
    else (if i - 1 =? -1 then 1 else i - 1).
Proof.
  intros Hk. cbv zeta. unfold bounce.
  rewrite (mod30_succ k).
  destruct (Z.eqb_spec k 0) as [->|Hk0].
  - reflexivity.
  - replace (k mod 30) with ((k - 1 + 1) mod 30) by (f_equal; lia).
    rewrite (mod30_succ (k - 1)).
    pose proof (Z.mod_pos_bound (k - 1) 30 ltac:(lia)) as Hm.
    set (m := (k - 1) mod 30) in *. clearbody m.
    rewrite Z.gtb_ltb. split_tests; lia.
Qed.

(** The first positions, and what follows the two ends. *)
Lemma bounce_shape (k : Z) :
  (0 <= k <= 15 -> bounce k = k)
  /\ (bounce k = 15 -> bounce (k + 1) = 14)
  /\ (bounce k = 0 -> bounce (k + 1) = 1).
Proof.
  unfold bounce. rewrite (mod30_succ k).
  split; [|split].
  - intros Hk. rewrite Z.mod_small by lia. split_tests; lia.
  - pose proof (Z.mod_pos_bound k 30 ltac:(lia)) as Hm.
    set (m := k mod 30) in *. clearbody m. intros H. split_tests; lia.
  - pose proof (Z.mod_pos_bound k 30 ltac:(lia)) as Hm.
    set (m := k mod 30) in *. clearbody m. intros H. split_tests; lia.
Qed.

Lemma LED_idle_step (k : Z) (s : HW B) :
  0 <= k -> idle_at k s ->
  fst (LED_idle s) = Ret tt /\ idle_at (k + 1) (snd (LED_idle s)).
Proof.
  intros Hk (Hr & Hi & Hp).
  destruct (idle_values_getitem (idle_num s)) as [v Hv];
    [rewrite Hi; apply bounce_range|].
  unfold LED_idle, LED_off, iand_reg, ior_reg, getitem.
  repeat step. rewrite Hv. repeat step.
  rewrite Hi, Hp.
  match goal with |- context [(if _ then _ else _) ?x] => set (s1 := x) end.
  pose proof (bounce_next k Hk) as Hn. cbv zeta in Hn.
  assert (Hk1 : (k + 1 =? 0) = false) by (apply Z.eqb_neq; lia).
  unfold idle_at. rewrite Hk1. replace (k + 1 - 1) with k by lia.
  destruct (bounce k >? (if k =? 0 then -1 else bounce (k - 1))).
  - repeat step.
    destruct (bounce k + 1 =? 16); unfold modify, ret; cbn [fst snd]; attrs;
      rewrite Hn; repeat split; exact Hr.
  - repeat step.
    destruct (bounce k - 1 =? -1); unfold modify, ret; cbn [fst snd]; attrs;
      rewrite Hn; repeat split; exact Hr.
Qed.

Lemma LED_idle_calls (n : nat) :
  forall (k : Z) (s : HW B),
    0 <= k -> idle_at k s ->
    fst (repeat_n n LED_idle s) = Ret tt
    /\ idle_at (k + Z.of_nat n) (snd (repeat_n n LED_idle s)).
Proof.
  induction n as [|n IH]; intros k s Hk Hs.
  - simpl. rewrite Z.add_0_r. split; [reflexivity | exact Hs].
  - destruct (LED_idle_step k s Hk Hs) as [Ho Hs1].
    cbn [repeat_n]. unfold bind.
    destruct (LED_idle s) as [o s1]. cbn [fst snd] in Ho, Hs1. subst o.
    replace (k + Z.of_nat (S n)) with (k + 1 + Z.of_nat n) by lia.
    apply IH; [lia | exact Hs1].
Qed.

End Idle.

(** C7. From the initial idle state (counter 0, previous -1) every idle
    call on an open session returns, and after [n] calls the counter is
    [bounce n]: it is [n] for the first sixteen counts 0..15, it always
    lies in [0, 16), the call made at 15 leaves 14 and the call made at 0
    leaves 1. *)
Theorem LED_idle_bounce (B : Bus) (s : HW B) (n : nat) :
  r s = true -> idle_num s = 0 -> previous_idle_num s = -1 ->
  let s' := snd (repeat_n n LED_idle s) in
  let s'' := snd (repeat_n (S n) LED_idle s) in
  fst (repeat_n n LED_idle s) = Ret tt
  /\ idle_num s' = bounce (Z.of_nat n)
  /\ 0 <= idle_num s' < 16
  /\ ((n <= 15)%nat -> idle_num s' = Z.of_nat n)
  /\ (idle_num s' = 15 -> idle_num s'' = 14)
  /\ (idle_num s' = 0 -> idle_num s'' = 1).
Proof.
  intros Hr Hi Hp s' s''.
  assert (H0 : idle_at 0 s) by (repeat split; assumption).
  destruct (LED_idle_calls n 0 s (Z.le_refl 0) H0) as [Ho (_ & Hn & _)].
  destruct (LED_idle_calls (S n) 0 s (Z.le_refl 0) H0) as [_ (_ & Hn1 & _)].
  fold s' in Hn. fold s'' in Hn1. rewrite Z.add_0_l in Hn, Hn1.
  split; [exact Ho|]. split; [exact Hn|].
  split; [rewrite Hn; apply bounce_range|].
  rewrite Hn, Hn1, Nat2Z.inj_succ. unfold Z.succ.
  destruct (bounce_shape (Z.of_nat n)) as (H1 & H2 & H3).
  split; [intros Hle; apply H1; lia|]. split; assumption.
Qed.

Lemma LED_idle_bounce_witness :
  let s := bench_session 800 (fun _ => 3%nat) in
  let s' := snd (repeat_n 15 LED_idle s) in
  let s'' := snd (repeat_n 16 LED_idle s) in
  fst (repeat_n 15 LED_idle s) = Ret tt
  /\ idle_num s' = bounce 15
  /\ 0 <= idle_num s' < 16
  /\ ((15 <= 15)%nat -> idle_num s' = 15)
  /\ (idle_num s' = 15 -> idle_num s'' = 14)
  /\ (idle_num s' = 0 -> idle_num s'' = 1).
Proof.
  intros s.
  apply (LED_idle_bounce board s 15); reflexivity.
Defined.

(** One full period and the start of the next, on the bench board. *)
Example idle_counters_bench :
  idle_counters 32 (bench_session 800 (fun _ => 3%nat)) =
    [0; 1; 2; 3; 4; 5; 6; 7; 8; 9; 10; 11; 12; 13; 14; 15;
     14; 13; 12; 11; 10; 9; 8; 7; 6; 5; 4; 3; 2; 1; 0; 1].
Proof. vm_compute. reflexivity. Qed.


(** ** The LED field of register 11 *)

Lemma led_trace_app (t1 t2 : list event) :
  led_trace t1 -> led_trace t2 -> led_trace (t1 ++ t2).
Proof.
  intros H1 H2. induction H1; simpl.
  - exact H2.
  - apply led_trace_read. exact IHled_trace.
  - apply led_trace_update; assumption.
Qed.

Lemma pattern_bits_outside (p i : Z) :
  0 <= p < 256 -> 0 <= i -> ~ (5 <= i <= 12) ->
  Z.testbit (Z.shiftl p 5) i = false.
Proof.
  intros Hp Hi Hout.
  destruct (Z.lt_ge_cases i 5) as [Hlt | Hge].
  - apply Z.shiftl_spec_low. exact Hlt.
  - rewrite Z.shiftl_spec by exact Hi.
    rewrite <- (Z.mod_small p (2 ^ 8)) by (change (2 ^ 8) with 256; lia).
    apply Z.mod_pow2_bits_high. lia.
Qed.

Lemma clear_keeps_outside (v : Z) :
  outside_leds_equal v (Z.land v (Z.lnot (Z.shiftl 0xFF 5))).
Proof.
  intros i Hi Hout.
  rewrite Z.land_spec, Z.lnot_spec by exact Hi.
  rewrite (pattern_bits_outside 0xFF i) by (try lia; assumption).
  apply andb_true_r.
Qed.

Lemma set_keeps_outside (v p : Z) :
  0 <= p < 256 -> outside_leds_equal v (Z.lor v (Z.shiftl p 5)).
Proof.
  intros Hp i Hi Hout.
  rewrite Z.lor_spec, (pattern_bits_outside p i) by assumption.
  apply orb_false_r.
Qed.

Lemma outside_leds_equal_refl (v : Z) : outside_leds_equal v v.
Proof. intros i _ _. reflexivity. Qed.

Lemma outside_leds_equal_trans (u v w : Z) :
  outside_leds_equal u v -> outside_leds_equal v w -> outside_leds_equal u w.
Proof.
  intros H1 H2 i Hi Hout. rewrite (H2 i Hi Hout). apply H1; assumption.
Qed.

(** Clearing the field and or-ing a pattern in leaves that pattern in
    the field. *)
Lemma led_field_set (v p : Z) :
  0 <= p < 256 ->
  led_field (Z.lor (Z.land v (Z.lnot (Z.shiftl 0xFF 5))) (Z.shiftl p 5)) = p.
Proof.
  intros Hp. unfold led_field.
  rewrite Z.shiftr_lor, Z.shiftr_land, Z.shiftr_shiftl_l by lia.
  change (5 - 5) with 0. rewrite Z.shiftl_0_r.
  change (Z.shiftr (Z.lnot (Z.shiftl 255 5)) 5) with (-256).
  rewrite Z.land_lor_distr_l, <- Z.land_assoc.
  change (Z.land (-256) 255) with 0. rewrite Z.land_0_r, Z.lor_0_l.
  change 255 with (Z.ones 8). rewrite Z.land_ones by lia.
  apply Z.mod_small. change (2 ^ 8) with 256. exact Hp.
Qed.

Section Leds.

Context {B : Bus}.

Lemma led_only_same (s s' : HW B) :
  hw s' = hw s -> log s' = log s -> led_only s s'.
Proof.
  intros Hh Hl. split.
  - exists []. rewrite Hl, app_nil_r. split; [reflexivity | constructor].
  - intros St. rewrite Hh. apply outside_leds_equal_refl.
  - intros j St _. rewrite Hh. reflexivity.
Qed.

Lemma led_only_trans (s1 s2 s3 : HW B) :
  led_only s1 s2 -> led_only s2 s3 -> led_only s1 s3.
Proof.
  intros [(t1 & Hl1 & Ht1) Hr1 Ho1] [(t2 & Hl2 & Ht2) Hr2 Ho2]. split.
  - exists (t1 ++ t2). rewrite Hl2, Hl1, app_assoc.
    split; [reflexivity | apply led_trace_app; assumption].
  - intros St. eapply outside_leds_equal_trans; [apply Hr1 | apply Hr2].
  - intros j St Hj. rewrite Ho2, Ho1 by exact Hj. reflexivity.
Qed.

(** A computation that touches the registers by LED traffic only,
    however it ends. *)
Definition framed {A} (m : M B A) : Prop :=
  forall s, led_only s (snd (m s)).

Lemma framed_ret {A} (a : A) : framed (ret a).
Proof. intros s. apply led_only_same; reflexivity. Qed.

Lemma framed_raise {A} (e : exn) : framed (@raise B A e).
Proof. intros s. apply led_only_same; reflexivity. Qed.

Lemma framed_get : framed (@get B).
Proof. intros s. apply led_only_same; reflexivity. Qed.

Lemma framed_modify (f : HW B -> HW B) :
  (forall s, hw (f s) = hw s) -> (forall s, log (f s) = log s) ->
  framed (modify f).
Proof. intros Hh Hl s. apply led_only_same; [apply Hh | apply Hl]. Qed.

Lemma framed_bind {A C} (m : M B A) (k : A -> M B C) :
  framed m -> (forall a, framed (k a)) -> framed (bind m k).
Proof.
  intros Hm Hk s. unfold bind. specialize (Hm s).
  destruct (m s) as [[a| |] s1]; cbn [snd] in *; try exact Hm.
  eapply led_only_trans; [exact Hm | apply Hk].
Qed.

Lemma led_only_read (s : HW B) :
  r s = true ->
  led_only s
    (with_log (log s ++ [Rd 11 (fst (bus_read B 11 (hw s)))])
       (with_hw (snd (bus_read B 11 (hw s))) s)).
Proof.
  intros Hr. split; attrs.
  - eexists; split; [reflexivity|]. repeat constructor.
  - intros St. rewrite peek_read. apply outside_leds_equal_refl.
  - intros j St _. apply peek_read.
Qed.

Lemma framed_read : framed (reg_read 11).
Proof.
  intros s. destruct (r s) eqn:Hr.
  - rewrite (reg_read_open 11 s Hr). apply led_only_read; exact Hr.
  - rewrite (reg_read_None 11 s Hr). apply led_only_same; reflexivity.
Qed.

(** A read-modify-write of register 11 whose new value keeps what was
    read outside the LED field. *)
Lemma led_only_update (s : HW B) (w : Z) :
  r s = true ->
  outside_leds_equal (fst (bus_read B 11 (hw s))) w ->
  led_only s
    (with_log ((log s ++ [Rd 11 (fst (bus_read B 11 (hw s)))]) ++ [Wr 11 w])
       (with_hw (bus_write B 11 w (snd (bus_read B 11 (hw s))))
          (with_log (log s ++ [Rd 11 (fst (bus_read B 11 (hw s)))])
             (with_hw (snd (bus_read B 11 (hw s))) s)))).
Proof.
  intros Hr Hw. split; attrs.
  - rewrite <- app_assoc. eexists; split; [reflexivity|].
    apply led_trace_update; [exact Hw | constructor].
  - intros St. rewrite peek_write, <- (read_peek B 11 St). exact Hw.
  - intros j St Hj. rewrite peek_write_other by congruence. apply peek_read.
Qed.

Lemma framed_LED_off : framed LED_off.
Proof.
  intros s. unfold LED_off, iand_reg. destruct (r s) eqn:Hr.
  - repeat step.
    apply led_only_update; [exact Hr | apply clear_keeps_outside].
  - rewrite bind_read_None by exact Hr. apply led_only_same; reflexivity.
Qed.

(** A right-hand side that is a pattern shifted into the LED field, or
    an exception, and touches nothing. *)
Definition pattern_rhs (rhs : M B Z) : Prop :=
  forall s,
    snd (rhs s) = s
    /\ forall x, fst (rhs s) = Ret x ->
                 exists p, 0 <= p < 256 /\ x = Z.shiftl p 5.

Lemma framed_ior (rhs : M B Z) : pattern_rhs rhs -> framed (ior_reg 11 rhs).
Proof.
  intros Hrhs s. unfold ior_reg. destruct (r s) eqn:Hr.
  - step.
    match goal with |- context [bind rhs _ ?x] => set (s1 := x) end.
    destruct (Hrhs s1) as [Hs Hx]. unfold bind.
    destruct (rhs s1) as [[x| |] s2]; cbn [fst snd] in *; subst s2;
      try (apply led_only_read; exact Hr).
    destruct (Hx x eq_refl) as (p & Hp & ->).
    rewrite reg_write_open by exact Hr. cbn [snd].
    apply led_only_update; [exact Hr | apply set_keeps_outside; exact Hp].
  - rewrite bind_read_None by exact Hr. apply led_only_same; reflexivity.
Qed.

Lemma py_getitem_In (l : list Z) (n v : Z) :
  py_getitem l n = Some v -> In v l.
Proof.
  unfold py_getitem.
  destruct ((0 <=? n) && (n <? Z.of_nat (List.length l))).
  - apply nth_error_In.
  - destruct ((- Z.of_nat (List.length l) <=? n) && (n <? 0));
      [apply nth_error_In | discriminate].
Qed.

Lemma pattern_rhs_lookup (l : list Z) (n : Z) :
  patterns l ->
  pattern_rhs (v <- getitem l n ;; ret (Z.shiftl v 5)).
Proof.
  intros Hl s. unfold getitem, bind.
  destruct (py_getitem l n) as [v|] eqn:E; cbn.
  - split; [reflexivity|]. intros x Hx. inversion Hx; subst.
    exists v. split; [|reflexivity].
    apply py_getitem_In in E. unfold patterns in Hl.
    rewrite Forall_forall in Hl. apply Hl; exact E.
  - split; [reflexivity | discriminate].
Qed.

Lemma patterns_press : patterns press_values.
Proof. repeat constructor; discriminate. Qed.

Lemma patterns_press_r : patterns press_values_r.
Proof. repeat constructor; discriminate. Qed.

Lemma patterns_idle : patterns idle_values.
Proof. repeat constructor; discriminate. Qed.

Lemma framed_LED_on : framed LED_on.
Proof.
  apply framed_ior. intros s. split; [reflexivity|].
  intros x Hx. inversion Hx. exists 0xFF. split; [lia | reflexivity].
Qed.

Lemma framed_button_press_indicate (n : Z) :
  framed (button_press_indicate n).
Proof.
  apply framed_bind; [apply framed_LED_off | intros _].
  apply framed_ior, pattern_rhs_lookup, patterns_press.
Qed.

Lemma framed_button_press_indicate_r (n : Z) :
  framed (button_press_indicate_r n).
Proof.
  apply framed_bind; [apply framed_LED_off | intros _].
  apply framed_ior, pattern_rhs_lookup, patterns_press_r.
Qed.

(** Close a goal on a method that, past its register traffic, only
    assigns LED counters. *)
Ltac counters :=
  repeat first
    [ apply framed_ret
    | apply framed_get
    | apply framed_LED_on
    | apply framed_LED_off
    | apply framed_modify; reflexivity
    | apply framed_bind; [|intros ?]
    | match goal with |- framed (if ?c then _ else _) => destruct c end ].

Lemma framed_LED_idle : framed LED_idle.
Proof.
  apply framed_bind; [apply framed_LED_off | intros _].
  apply framed_bind; [|intros _; counters].
  apply framed_ior. intros s. rewrite bind_get.
  apply pattern_rhs_lookup, patterns_idle.
Qed.

Lemma framed_LED_recording : framed LED_recording.
Proof.
  apply framed_bind.
  - apply framed_bind; [apply framed_read | intros p1]. cbv zeta. counters.
  - intros pressed. counters.
Qed.

End Leds.

(** C10. Whatever the session and however the call ends, [LED_off],
    [LED_on], [LED_idle], [button_press_indicate],
    [button_press_indicate_r] and [LED_recording] reach the device only
    through reads of register 11 and stores to register 11 that keep,
    outside bits 5..12, what the read just before gave. With register
    11 plain storage, every bit of it outside 5..12 (button, gain
    switch, off button) is the same after the call as before, and every
    other plain-storage register is unchanged. *)
Theorem LED_methods_frame (B : Bus) (m : method) (s : HW B) :
  is_LED_method m ->
  let s' := snd (call m s) in
  (exists t, log s' = log s ++ t /\ led_trace t)
  /\ (forall (St : Storage B 11) (i : Z),
        0 <= i -> ~ (5 <= i <= 12) ->
        Z.testbit (peek St (hw s')) i = Z.testbit (peek St (hw s)) i)
  /\ (forall (j : Z) (St : Storage B j),
        j <> 11 -> peek St (hw s') = peek St (hw s)).
Proof.
  intros Hm s'.
  assert (H : led_only s s').
  { unfold s'. destruct m; try contradiction; cbn [call].
    - apply framed_LED_off.
    - apply framed_LED_on.
    - apply framed_LED_idle.
    - apply framed_button_press_indicate.
    - apply framed_button_press_indicate_r.
    - apply framed_LED_recording. }
  destruct H as [Hl Hr Ho]. split; [exact Hl|]. split.
  - intros St i Hi Hout. apply Hr; assumption.
  - exact Ho.
Qed.

Lemma LED_methods_frame_witness :
  let s := bench_session 800 (fun _ => 3%nat) in
  let s' := snd (call (Call_button_press_indicate 3) s) in
  (exists t, log s' = log s ++ t /\ led_trace t)
  /\ (forall (St : Storage board 11) (i : Z),
        0 <= i -> ~ (5 <= i <= 12) ->
        Z.testbit (peek St (hw s')) i = Z.testbit (peek St (hw s)) i)
  /\ (forall (j : Z) (St : Storage board j),
        j <> 11 -> peek St (hw s') = peek St (hw s)).
Proof.
  intros s.
  apply (LED_methods_frame board (Call_button_press_indicate 3) s).
  exact I.
Defined.

(** ** The button-count bars *)

Lemma py_getitem_cases (l : list Z) (n : Z) :
  let len := Z.of_nat (List.length l) in
  (0 <= n < len -> py_getitem l n = Some (nth (Z.to_nat n) l 0))
  /\ (- len <= n < 0 -> py_getitem l n = Some (nth (Z.to_nat (n + len)) l 0))
  /\ (n < - len \/ len <= n -> py_getitem l n = None).
Proof.
  intros len. unfold py_getitem. fold len.
  destruct (Z.leb_spec 0 n), (Z.ltb_spec n len), (Z.leb_spec (- len) n),
    (Z.ltb_spec n 0); cbn [andb];
    (split; [|split]); intros Hn; try lia; try reflexivity;
    apply nth_error_nth'; unfold len in *; lia.
Qed.

Section Press.

Context {B : Bus}.

Lemma button_press_indicate_body (n : Z) :
  button_press_indicate (B := B) n = press_with press_values n.
Proof. reflexivity. Qed.

Lemma button_press_indicate_r_body (n : Z) :
  button_press_indicate_r (B := B) n = press_with press_values_r n.
Proof. reflexivity. Qed.

Lemma press_with_run (tbl : list Z) (n : Z) (s : HW B) :
  r s = true ->
  let v := fst (bus_read B 11 (hw s)) in
  let cleared := Z.land v (Z.lnot (Z.shiftl 0xFF 5)) in
  let h1 := bus_write B 11 cleared (snd (bus_read B 11 (hw s))) in
  let v' := fst (bus_read B 11 h1) in
  match py_getitem tbl n with
  | Some p =>
      fst (press_with tbl n s) = Ret tt
      /\ log (snd (press_with tbl n s)) =
           log s ++ [Rd 11 v; Wr 11 cleared; Rd 11 v';
                     Wr 11 (Z.lor v' (Z.shiftl p 5))]
      /\ hw (snd (press_with tbl n s)) =
           bus_write B 11 (Z.lor v' (Z.shiftl p 5)) (snd (bus_read B 11 h1))
  | None =>
      fst (press_with tbl n s) = Exc IndexError
      /\ log (snd (press_with tbl n s)) =
           log s ++ [Rd 11 v; Wr 11 cleared; Rd 11 v']
      /\ hw (snd (press_with tbl n s)) = snd (bus_read B 11 h1)
  end.
Proof.
  intros Hr v cleared h1 v'.
  unfold press_with, LED_off, iand_reg, ior_reg, getitem.
  repeat step. fold v. fold cleared. fold h1. fold v'.
  destruct (py_getitem tbl n) as [p|].
  - repeat step. unfold ret. cbn [fst snd]. attrs.
    repeat rewrite <- app_assoc. repeat split.
  - rewrite bind_raise. cbn [fst snd]. attrs.
    repeat rewrite <- app_assoc. repeat split.
Qed.

(** With register 11 plain storage, the LED field after a press call
    that returns is the table entry. *)
Lemma press_with_field (St : Storage B 11) (tbl : list Z) (n p : Z)
      (s : HW B) :
  r s = true -> patterns tbl -> py_getitem tbl n = Some p ->
  led_field (peek St (hw (snd (press_with tbl n s)))) = p.
Proof.
  intros Hr Htbl Hp.
  pose proof (press_with_run tbl n s Hr) as H. cbv zeta in H.
  rewrite Hp in H. destruct H as (_ & _ & ->).
  rewrite peek_write, (read_peek B 11 St), peek_write.
  apply led_field_set.
  apply py_getitem_In in Hp. unfold patterns in Htbl.
  rewrite Forall_forall in Htbl. apply Htbl; exact Hp.
Qed.

End Press.

(** C9, as the code has it. On an open session both methods first clear
    the LED field and read register 11 again. For [n] in 0..8 they then
    store the entry [n] of their table, shifted into the field; for [n]
    in -9..-1 Python's indexing from the end selects entry [n + 9], and
    that one is stored, without any error; for every other [n] the call
    raises [IndexError] with the field cleared and nothing more
    stored. *)
Theorem button_press_index (B : Bus) (s : HW B) (n : Z) (reversed : bool) :
  r s = true ->
  let tbl := if reversed then press_values_r else press_values in
  let res :=
    if reversed then button_press_indicate_r n s
    else button_press_indicate n s in
  let v := fst (bus_read B 11 (hw s)) in
  let cleared := Z.land v (Z.lnot (Z.shiftl 0xFF 5)) in
  let v' :=
    fst (bus_read B 11 (bus_write B 11 cleared (snd (bus_read B 11 (hw s))))) in
  (0 <= n <= 8 ->
   fst res = Ret tt
   /\ log (snd res) =
        log s ++ [Rd 11 v; Wr 11 cleared; Rd 11 v';
                  Wr 11 (Z.lor v' (Z.shiftl (nth (Z.to_nat n) tbl 0) 5))])
  /\ (-9 <= n <= -1 ->
      fst res = Ret tt
      /\ log (snd res) =
           log s ++ [Rd 11 v; Wr 11 cleared; Rd 11 v';
                     Wr 11 (Z.lor v'
                              (Z.shiftl (nth (Z.to_nat (n + 9)) tbl 0) 5))])
  /\ (n < -9 \/ 8 < n ->
      fst res = Exc IndexError
      /\ log (snd res) = log s ++ [Rd 11 v; Wr 11 cleared; Rd 11 v']).
Proof.
  intros Hr tbl res v cleared v'.
  assert (Hres : res = press_with tbl n s).
  { unfold res, tbl. destruct reversed; reflexivity. }
  assert (Hlen : Z.of_nat (List.length tbl) = 9).
  { unfold tbl. destruct reversed; reflexivity. }
  pose proof (press_with_run tbl n s Hr) as H. cbv zeta in H.
  fold v in H. fold cleared in H. fold v' in H.
  destruct (py_getitem_cases tbl n) as (H1 & H2 & H3). rewrite Hlen in *.
  rewrite Hres. split; [|split]; intros Hn.
  - rewrite H1 in H by lia. destruct H as (Ho & Hl & _). auto.
  - rewrite H2 in H by lia. destruct H as (Ho & Hl & _). auto.
  - rewrite H3 in H by lia. destruct H as (Ho & Hl & _). auto.
Qed.

Lemma button_press_index_witness :
  let s := bench_session 800 (fun _ => 3%nat) in
  (fst (button_press_indicate 3 s) = Ret tt
   /\ log (snd (button_press_indicate 3 s)) =
        log s ++ [Rd 11 0; Wr 11 0; Rd 11 0; Wr 11 (Z.shiftl 0xE0 5)])
  /\ (fst (button_press_indicate_r (-2) s) = Ret tt
      /\ log (snd (button_press_indicate_r (-2) s)) =
           log s ++ [Rd 11 0; Wr 11 0; Rd 11 0; Wr 11 (Z.shiftl 0x80 5)])
  /\ (fst (button_press_indicate 9 s) = Exc IndexError
      /\ log (snd (button_press_indicate 9 s)) =
           log s ++ [Rd 11 0; Wr 11 0; Rd 11 0]).
Proof.
  intros s. split; [|split].
  - apply (proj1 (button_press_index board s 3 false eq_refl)). lia.
  - apply (proj1 (proj2 (button_press_index board s (-2) true eq_refl))). lia.
  - apply (proj2 (proj2 (button_press_index board s 9 false eq_refl))). lia.
Defined.

(** C9 as stated fails: index -1 is outside 0..8, yet the call returns
    and stores the last entry of the table, all LEDs lit. *)
Lemma button_press_index_counterexample :
  let s := bench_session 800 (fun _ => 3%nat) in
  fst (button_press_indicate (-1) s) = Ret tt
  /\ log (snd (button_press_indicate (-1) s)) =
       log s ++ [Rd 11 0; Wr 11 0; Rd 11 0; Wr 11 (Z.shiftl 0xFF 5)]
  /\ ~ (exists e, fst (button_press_indicate (-1) s) = Exc e).
Proof.
  intros s. split; [|split].
  - vm_compute. reflexivity.
  - vm_compute. reflexivity.
  - intros [e He]. vm_compute in He. discriminate He.
Qed.

(** C8, as the code has it. With register 11 plain storage and [n] in
    0..8, the LED field left by [button_press_indicate n] is entry [n]
    of its table and is equal to the field left by
    [button_press_indicate_r (8 - n)]: the second table is the first one
    in reverse order. The field is the bit reversal of the other one
    only for the two patterns that read the same from both ends, all off
    ([n = 0]) and all on ([n = 8]). *)
Theorem press_tables_mirror
        (B : Bus) (St : Storage B 11) (s1 s2 : HW B) (n : Z) :
  r s1 = true -> r s2 = true -> 0 <= n <= 8 ->
  let p := led_field (peek St (hw (snd (button_press_indicate n s1)))) in
  let q :=
    led_field (peek St (hw (snd (button_press_indicate_r (8 - n) s2)))) in
  p = nth (Z.to_nat n) press_values 0
  /\ p = q
  /\ (p = bitrev8 q <-> n = 0 \/ n = 8)
  /\ press_values_r = rev press_values.
Proof.
  intros Hr1 Hr2 Hn p q.
  assert (Hp : p = nth (Z.to_nat n) press_values 0).
  { unfold p. rewrite button_press_indicate_body.
    apply press_with_field; [exact Hr1 | apply patterns_press|].
    apply (proj1 (py_getitem_cases press_values n)).
    change (Z.of_nat (List.length press_values)) with 9. lia. }
  assert (Hq : q = nth (Z.to_nat (8 - n)) press_values_r 0).
  { unfold q. rewrite button_press_indicate_r_body.
    apply press_with_field; [exact Hr2 | apply patterns_press_r|].
    apply (proj1 (py_getitem_cases press_values_r (8 - n))).
    change (Z.of_nat (List.length press_values_r)) with 9. lia. }
  rewrite Hp, Hq. clear Hp Hq p q.
  assert (Hcases : n = 0 \/ n = 1 \/ n = 2 \/ n = 3 \/ n = 4 \/ n = 5
                   \/ n = 6 \/ n = 7 \/ n = 8) by lia.
  repeat split; try reflexivity;
    repeat (destruct Hcases as [-> | Hcases]); try subst n;
      try reflexivity; try (vm_compute; discriminate);
      try (intros; lia); try (intros _; vm_compute; reflexivity);
      try (intros [H | H]; discriminate H).
Qed.

Lemma press_tables_mirror_witness :
  let s := bench_session 800 (fun _ => 3%nat) in
  let St := board_storage 11 eleven_not_status in
  let p := led_field (peek St (hw (snd (button_press_indicate 3 s)))) in
  let q := led_field (peek St (hw (snd (button_press_indicate_r (8 - 3) s)))) in
  p = nth (Z.to_nat 3) press_values 0
  /\ p = q
  /\ (p = bitrev8 q <-> 3 = 0 \/ 3 = 8)
  /\ press_values_r = rev press_values.
Proof.
  intros s St.
  apply (press_tables_mirror board St s s 3); [reflexivity | reflexivity | lia].
Defined.

(** C8 as stated fails: at [n = 1] the first method shows 0x80, and the
    bit reversal of what the second one shows at [8 - 1] is 0x01. *)
Lemma press_tables_mirror_counterexample :
  let s := bench_session 800 (fun _ => 3%nat) in
  let p := led_field (regs (hw (snd (button_press_indicate 1 s))) 11) in
  let q := led_field (regs (hw (snd (button_press_indicate_r (8 - 1) s))) 11) in
  p = 0x80 /\ q = 0x80 /\ bitrev8 q = 0x01 /\ p <> bitrev8 q.
Proof.
  intros s p q. repeat split; try (vm_compute; reflexivity).
  vm_compute. discriminate.
Qed.

(** * The rest of the class *)

(** ** What a call may change *)

(** Computations that keep a relation between the session before and
    the session after, however they end. *)
Section Keeps.

Context {B : Bus}.

Variable R : HW B -> HW B -> Prop.
Hypothesis R_refl : forall s, R s s.
Hypothesis R_trans : forall s1 s2 s3, R s1 s2 -> R s2 s3 -> R s1 s3.

Definition keeps {A} (m : M B A) : Prop := forall s, R s (snd (m s)).

Lemma keeps_ret {A} (a : A) : keeps (ret a).
Proof. intros s. apply R_refl. Qed.

Lemma keeps_raise {A} (e : exn) : keeps (@raise B A e).
Proof. intros s. apply R_refl. Qed.

Lemma keeps_spin {A} : keeps (@spin B A).
Proof. intros s. apply R_refl. Qed.

Lemma keeps_get : keeps (@get B).
Proof. intros s. apply R_refl. Qed.

Lemma keeps_bind {A C} (m : M B A) (k : A -> M B C) :
  keeps m -> (forall a, keeps (k a)) -> keeps (bind m k).
Proof.
  intros Hm Hk s. unfold bind. specialize (Hm s).
  destruct (m s) as [[a| |] s1]; cbn [snd] in *; try exact Hm.
  eapply R_trans; [exact Hm | apply Hk].
Qed.

Lemma keeps_repeat_n (n : nat) (body : M B unit) :
  keeps body -> keeps (repeat_n n body).
Proof.
  intros Hb. induction n as [|n IH]; cbn [repeat_n].
  - apply keeps_ret.
  - apply keeps_bind; [exact Hb | intros _; exact IH].
Qed.

Hypothesis R_read : forall i, keeps (reg_read i).
Hypothesis R_sleep : forall secs, keeps (sleep secs).

Lemma keeps_poll_status (fuel : nat) : keeps (poll_status fuel).
Proof.
  induction fuel as [|fuel IH]; cbn [poll_status].
  - apply keeps_spin.
  - apply keeps_bind; [apply R_read | intros status].
    destruct (truthy _); [exact IH | apply keeps_ret].
Qed.

Lemma keeps_getitem (l : list Z) (n : Z) : keeps (getitem l n).
Proof.
  unfold getitem.
  destruct (py_getitem l n); [apply keeps_ret | apply keeps_raise].
Qed.

(** What is left to show for a call: that its stores and its attribute
    assignments keep the relation. *)
Lemma keeps_call (m : method) :
  (forall i v, In i (footprint m) -> keeps (reg_write i v)) ->
  (sets_mode m -> forall b s, R s (with_store_raw_data b s)) ->
  (animates m ->
   forall s,
     (forall x, R s (with_idle_num x s))
     /\ (forall x, R s (with_previous_idle_num x s))
     /\ (forall x, R s (with_rec_blink_value x s))
     /\ (forall x, R s (with_rec_blink_state x s))) ->
  keeps (call m).
Proof.
  intros Hwr Hmode Hanim.
  assert (Hmod : forall f : HW B -> HW B,
             (forall s, R s (f s)) -> keeps (modify f))
    by (intros f Hf s; apply Hf).
  destruct m as [f|f|gain|b|b w f| | | | | | |n|n| | ];
    cbn [call footprint sets_mode animates] in *;
    unfold get_data, swap_buffers, set_gain, set_use_fake_mics,
      set_store_raw_data, get_button_state, get_off_button_state, get_gain,
      LED_idle, button_press_indicate, button_press_indicate_r,
      LED_recording, LED_quick_blink, LED_off, LED_on, iand_reg, ior_reg;
    unfold swap_buffers, get_button_state;
    try destruct w;
    repeat first
      [ progress cbv zeta
      | apply keeps_ret
      | apply keeps_raise
      | apply keeps_get
      | apply R_read
      | apply R_sleep
      | apply keeps_poll_status
      | apply keeps_getitem
      | apply keeps_repeat_n
      | apply keeps_bind; [|intros ?]
      | apply Hwr; cbn [In]; tauto
      | apply Hmod; intros ?; first [apply Hmode | apply Hanim]; exact I
      | match goal with
        | |- keeps (if ?c then _ else _) => destruct c
        | |- keeps (match ?x with _ => _ end) => destruct x
        end ].
Qed.

End Keeps.

Section Assignments.

Context {B : Bus}.

(** A projection of the session that register traffic does not change
    is changed by a call only through the attributes the call assigns. *)
Lemma call_keeps_attribute {T} (f : HW B -> T) (m : method) :
  (forall x s, f (with_hw x s) = f s) ->
  (forall x s, f (with_log x s) = f s) ->
  (sets_mode m -> forall b s, f (with_store_raw_data b s) = f s) ->
  (animates m ->
   forall s,
     (forall x, f (with_idle_num x s) = f s)
     /\ (forall x, f (with_previous_idle_num x s) = f s)
     /\ (forall x, f (with_rec_blink_value x s) = f s)
     /\ (forall x, f (with_rec_blink_state x s) = f s)) ->
  forall s, f (snd (call m s)) = f s.
Proof.
  intros Hhw Hlog Hmode Hanim.
  apply (keeps_call (fun s s' => f s' = f s)).
  - reflexivity.
  - intros s1 s2 s3 H12 H23. rewrite H23. exact H12.
  - intros i s. unfold reg_read. destruct (r s); [|reflexivity].
    destruct (bus_read B i (hw s)). cbn [snd]. rewrite Hlog. apply Hhw.
  - intros secs s. unfold sleep, modify, raise.
    destruct (sleep_refusal secs); [reflexivity|]. cbn [snd]. apply Hlog.
  - intros i v _ s. unfold reg_write. destruct (r s); [|reflexivity].
    cbn [snd]. rewrite Hlog. apply Hhw.
  - exact Hmode.
  - exact Hanim.
Qed.

Lemma call_log (m : method) (s : HW B) :
  exists t,
    log (snd (call m s)) = log s ++ t
    /\ Forall (stores_within (footprint m)) t.
Proof.
  apply (keeps_call
           (fun s s' => exists t, log s' = log s ++ t
                                  /\ Forall (stores_within (footprint m)) t)).
  - intros s0. exists []. rewrite app_nil_r. split; [reflexivity | constructor].
  - intros s1 s2 s3 (t1 & H1 & F1) (t2 & H2 & F2).
    exists (t1 ++ t2). rewrite H2, H1, app_assoc. split; [reflexivity|].
    apply Forall_app; split; assumption.
  - intros i s0. unfold reg_read. destruct (r s0).
    + destruct (bus_read B i (hw s0)) as [v h]. cbn [snd]. attrs.
      eexists; split; [reflexivity|]. repeat constructor.
    + exists []. cbn [snd]. rewrite app_nil_r.
      split; [reflexivity | constructor].
  - intros secs s0. unfold sleep, modify, raise.
    destruct (sleep_refusal secs); cbn [snd]; attrs.
    + exists []. rewrite app_nil_r. split; [reflexivity | constructor].
    + eexists; split; [reflexivity|]. repeat constructor.
  - intros i v Hi s0. unfold reg_write. destruct (r s0); cbn [snd]; attrs.
    + eexists; split; [reflexivity|]. repeat constructor. exact Hi.
    + exists []. rewrite app_nil_r. split; [reflexivity | constructor].
  - intros _ b s0. exists []. attrs. rewrite app_nil_r.
    split; [reflexivity | constructor].
  - intros _ s0. repeat split; intros x; exists []; attrs;
      rewrite app_nil_r; (split; [reflexivity | constructor]).
Qed.

End Assignments.

(** X1. No method assigns the attributes fixed at construction: after
    any call, with any arguments and however it ends, the register and
    sample arrays, the closed flag, the descriptors and mappings and the
    four board parameters are what they were. Only
    [set_store_raw_data] assigns the capture-mode mirror, and only
    [LED_idle] and [LED_recording] assign the animation counters. *)
Theorem call_assigns (B : Bus) (m : method) (s : HW B) :
  let s' := snd (call m s) in
  config s' = config s
  /\ (~ sets_mode m -> _store_raw_data s' = _store_raw_data s)
  /\ (~ animates m -> animation s' = animation s).
Proof.
  intros s'. unfold s'. split; [|split].
  - apply (call_keeps_attribute config);
      intros; repeat split; reflexivity.
  - intros Hm. apply (call_keeps_attribute _store_raw_data);
      intros; try contradiction; repeat split; reflexivity.
  - intros Hm. apply (call_keeps_attribute animation);
      intros; try contradiction; repeat split; reflexivity.
Qed.

Lemma call_assigns_witness :
  let s := bench_session 800 (fun _ => 3%nat) in
  let s' := snd (call (Call_get_data 4) s) in
  config s' = config s
  /\ _store_raw_data s' = _store_raw_data s
  /\ animation s' = animation s.
Proof.
  intros s s'.
  destruct (call_assigns board (Call_get_data 4) s) as (Hc & Hm & Ha).
  split; [exact Hc|]. split; [apply Hm | apply Ha]; intros H; exact H.
Defined.

(** X2. Whatever the session and however the call ends, a call stores
    only to the registers of its footprint: 2 for [swap_buffers] and
    [get_data], 4 for [set_gain], 5 for [set_use_fake_mics], 10 (and 2
    with [wait]) for [set_store_raw_data], 11 for the LED methods, none
    for the three readers. So no call stores to the test register or to
    the read-only registers 3, 8 and 9, and only a swap stores to
    register 2. *)
Theorem call_footprint (B : Bus) (m : method) (s : HW B) :
  (exists t,
      log (snd (call m s)) = log s ++ t
      /\ Forall (stores_within (footprint m)) t)
  /\ (forall i, In i (footprint m) ->
                i = 2 \/ i = 4 \/ i = 5 \/ i = 10 \/ i = 11)
  /\ (In 2 (footprint m) ->
      (exists fuel, m = Call_swap_buffers fuel \/ m = Call_get_data fuel)
      \/ (exists b fuel, m = Call_set_store_raw_data b true fuel)).
Proof.
  split; [apply call_log|]. split.
  - destruct m as [f|f|gain|b|b w f| | | | | | |n|n| | ];
      cbn [footprint]; try destruct w; cbn [In]; intros i Hi; intuition.
  - destruct m as [f|f|gain|b|b w f| | | | | | |n|n| | ];
      cbn [footprint]; try destruct w; cbn [In]; intros Hi;
      try (exfalso; intuition discriminate).
    + left; exists f; auto.
    + left; exists f; auto.
    + right; exists b, f; reflexivity.
Qed.

Lemma call_footprint_witness :
  let s := bench_session 800 (fun _ => 3%nat) in
  (exists fuel, Call_set_store_raw_data false true 4 = Call_swap_buffers fuel
                \/ Call_set_store_raw_data false true 4 = Call_get_data fuel)
  \/ (exists b fuel,
        Call_set_store_raw_data false true 4 =
          Call_set_store_raw_data b true fuel).
Proof.
  intros s.
  apply (proj2 (proj2 (call_footprint board
                         (Call_set_store_raw_data false true 4) s))).
  cbn. auto.
Defined.

(** ** Construction, further *)

(** X3. The transform of the liveness test is a permutation of the
    32-bit values: it maps them to 32-bit values and [unpermute] undoes
    it, on both sides. *)
Theorem permute_bijective (v : Z) :
  0 <= v < 2 ^ 32 ->
  0 <= permute v < 2 ^ 32
  /\ unpermute (permute v) = v
  /\ permute (unpermute v) = v.
Proof.
  intros Hv. unfold permute, unpermute. rewrite !land_u32.
  change (2 ^ 32) with 4294967296 in *.
  split; [apply Z.mod_pos_bound; lia|]. split.
  - Z.to_euclidean_division_equations. lia.
  - Z.to_euclidean_division_equations. lia.
Qed.

Lemma permute_bijective_witness :
  0 <= permute 0xFFFF_FFFF < 2 ^ 32
  /\ unpermute (permute 0xFFFF_FFFF) = 0xFFFF_FFFF
  /\ permute (unpermute 0xFFFF_FFFF) = 0xFFFF_FFFF.
Proof.
  apply (permute_bijective 0xFFFF_FFFF). vm_compute.
  split; discriminate || reflexivity.
Defined.

Section ConstructionMore.

Context {B : Bus}.

(** The drain loop is a poll of the status whose value is dropped. *)
Lemma drain_poll (fuel : nat) :
  forall s : HW B, drain fuel s = (_ <- poll_status fuel ;; ret tt) s.
Proof.
  induction fuel as [|fuel IH]; intros s; cbn [drain poll_status].
  - reflexivity.
  - unfold bind.
    destruct (reg_read 2 s) as [[status| |] s1]; try reflexivity.
    destruct (truthy (Z.land status 1)); [|reflexivity].
    rewrite IH. reflexivity.
Qed.

Lemma drain_returns (fuel : nat) (s s' : HW B) :
  drain fuel s = (Ret tt, s') ->
  exists seen status,
    log s' = log s ++ map (Rd 2) seen ++ [Rd 2 status]
    /\ Forall busy seen
    /\ Z.land status 1 = 0
    /\ io_only s s'.
Proof.
  rewrite drain_poll. unfold bind.
  destruct (poll_status fuel s) as [[status| |] s1] eqn:Hp; try discriminate.
  intros H. inversion H; subst; clear H.
  destruct (poll_status_returns _ _ _ _ Hp) as (seen & Hl & Hb & Hc & Hio & _).
  exists seen, status. auto.
Qed.

Lemma land_byte (x : Z) : 0 <= Z.land x 0xFF < 256.
Proof.
  change 0xFF with (Z.ones 8). rewrite Z.land_ones by lia.
  apply Z.mod_pos_bound. reflexivity.
Qed.

Lemma land_u16 (x : Z) : 0 <= Z.land x 0xFFFF < 65536.
Proof.
  change 0xFFFF with (Z.ones 16). rewrite Z.land_ones by lia.
  apply Z.mod_pos_bound. reflexivity.
Qed.

(** What a constructor that returns has done and what it leaves. *)
Lemma construct_returned (env : Env B) (fuel : nat) (s : HW B) :
  construct env fuel = (Ret tt, s) ->
  (os_open_buf env = None /\ os_open_reg env = None
   /\ mmap_buf env = None /\ mmap_reg env = None)
  /\ exists v p1 p2 mode seen status,
    log s = [Rd 0 v; Wr 0 (permute v); Rd 0 (permute v);
             Rd 8 p1; Rd 9 p2; Rd 10 mode]
            ++ map (Rd 2) seen ++ [Rd 2 status]
    /\ Forall busy seen
    /\ Z.land status 1 = 0
    /\ config s =
         (true, true, Some false, (true, true, true, true),
          (Z.land p1 0xFF, Z.land (Z.shiftr p1 8) 0xFF,
           Z.land (Z.shiftr p1 16) 0xFF, Z.land p2 0xFFFF))
    /\ _store_raw_data s = truthy mode
    /\ animation s = (0, -1, 0, true).
Proof.
  unfold construct, __init__.
  destruct (os_open_buf env) as [[]|];
    try (cbv beta iota delta [bind modify raise]; discriminate).
  destruct (os_open_reg env) as [e|];
    [cbv beta iota delta [bind modify raise os_call]; discriminate|].
  destruct (mmap_buf env) as [e|];
    [cbv beta iota delta [bind modify raise os_call ret]; discriminate|].
  destruct (mmap_reg env) as [e|];
    [cbv beta iota delta [bind modify raise os_call ret]; discriminate|].
  unfold os_call. repeat step.
  change (hw (blank env)) with (device env).
  change (log (blank env)) with (@nil event).
  fold (permute (fst (bus_read B 0 (device env)))).
  set (v := fst (bus_read B 0 (device env))).
  destruct (fst (bus_read B 0 (bus_write B 0 (permute v)
                                 (snd (bus_read B 0 (device env)))))
            =? permute v) eqn:Eb; cbn [negb];
    [|discriminate].
  apply Z.eqb_eq in Eb. rewrite Eb. repeat step.
  match goal with |- context [bind (drain fuel) ?k ?x] =>
    set (s1 := x); set (k1 := k) end.
  unfold bind.
  destruct (drain fuel s1) as [[[]| |] s2] eqn:Hd; try discriminate.
  destruct (drain_returns _ _ _ Hd) as (seen & status & Hl & Hb & Hc & Hio).
  unfold k1. repeat step. unfold modify.
  intros H. inversion H; subst s; clear H.
  split; [repeat split|].
  exists v.
  eexists _, _, _, seen, status.
  unfold config, animation. attrs. rewrite Hio. attrs.
  rewrite Hl. unfold s1. attrs.
  repeat split; try assumption; reflexivity.
Qed.

End ConstructionMore.

(** X4. A constructor that returns was granted all four of its
    [os.open] and [mmap.mmap] calls and made, in this order, the test
    of register 0 (reading back the permuted value it stored), the reads
    of registers 8, 9 and 10 and the polls of register 2, the last of
    which is the only one with the busy bit clear. It leaves an open
    session holding both descriptors and both mappings, the four board
    parameters cut out of registers 8 and 9 (each count in 0..255, the
    sample rate in 0..65535), the mirror set from register 10, and both
    animations at their start. *)
Theorem construct_postcondition
        (B : Bus) (env : Env B) (fuel : nat) (s : HW B) :
  construct env fuel = (Ret tt, s) ->
  (os_open_buf env = None /\ os_open_reg env = None
   /\ mmap_buf env = None /\ mmap_reg env = None)
  /\ (exists v p1 p2 mode seen status,
        log s = [Rd 0 v; Wr 0 (permute v); Rd 0 (permute v);
                 Rd 8 p1; Rd 9 p2; Rd 10 mode]
                ++ map (Rd 2) seen ++ [Rd 2 status]
        /\ Forall busy seen
        /\ Z.land status 1 = 0
        /\ config s =
             (true, true, Some false, (true, true, true, true),
              (Z.land p1 0xFF, Z.land (Z.shiftr p1 8) 0xFF,
               Z.land (Z.shiftr p1 16) 0xFF, Z.land p2 0xFFFF))
        /\ _store_raw_data s = truthy mode)
  /\ animation s = (0, -1, 0, true)
  /\ 0 <= num_mics s < 256
  /\ 0 <= num_chans s < 256
  /\ 0 <= num_taps s < 256
  /\ 0 <= mic_freq_hz s < 65536.
Proof.
  intros H.
  destruct (construct_returned env fuel s H)
    as (Henv & v & p1 & p2 & mode & seen & status
        & Hl & Hb & Hc & Hcfg & Hm & Ha).
  split; [exact Henv|]. split.
  - exists v, p1, p2, mode, seen, status. auto.
  - split; [exact Ha|]. unfold config in Hcfg.
    injection Hcfg as _ _ _ _ _ _ _ -> -> -> ->.
    split; [apply land_byte|]. split; [apply land_byte|].
    split; [apply land_byte | apply land_u16].
Qed.

Lemma construct_postcondition_witness :
  let s := bench_session 800 (fun _ => 3%nat) in
  animation s = (0, -1, 0, true)
  /\ 0 <= num_mics s < 256
  /\ 0 <= num_chans s < 256
  /\ 0 <= num_taps s < 256
  /\ 0 <= mic_freq_hz s < 65536.
Proof.
  intros s.
  apply (construct_postcondition board
           (env_ok board (bench 800 (fun _ => 3%nat))) 1 s).
  vm_compute. reflexivity.
Defined.

(** X5. On the board the constructor returns as soon as it has fuel
    for the busy reads a swap left in flight still needs: the board
    stores the test value, so the liveness test passes, and the drain
    loop lets the pending swap complete. The board is then idle, with
    the permuted test value in register 0. *)
Theorem construct_on_board (b : board_state) (fuel : nat) :
  (pending b < fuel)%nat ->
  exists s,
    construct (env_ok board b) fuel = (Ret tt, s)
    /\ hw s = settle (board_write 0 (permute (regs b 0)) b)
    /\ pending (hw s) = 0%nat
    /\ regs (hw s) 0 = permute (regs b 0).
Proof.
  intros Hfuel. unfold construct, __init__, env_ok.
  cbn [os_open_buf os_open_reg mmap_buf mmap_reg device os_call].
  repeat step.
  change (hw (blank (@Build_Env board None None None None b))) with b.
  change (log (blank (@Build_Env board None None None None b)))
    with (@nil event).
  change (bus_read board) with board_read.
  change (bus_write board) with board_write.
  rewrite !(board_read_other 0) by discriminate. cbn [fst snd].
  fold (permute (regs b 0)).
  assert (Hback : regs (board_write 0 (permute (regs b 0)) b) 0
                  = permute (regs b 0))
    by (apply board_regs_write_same; discriminate).
  rewrite Hback, Z.eqb_refl. cbn [negb].
  repeat step.
  change (bus_read board) with board_read.
  rewrite !(board_read_other 8), !(board_read_other 9),
    !(board_read_other 10) by discriminate.
  cbn [fst snd].
  set (b1 := board_write 0 (permute (regs b 0)) b) in *.
  match goal with |- context [bind (drain fuel) ?k ?x] =>
    set (s1 := x); set (k1 := k) end.
  assert (Hp1 : pending (hw s1) = pending b) by reflexivity.
  destruct (board_poll (pending b) fuel s1 eq_refl Hp1 Hfuel)
    as (s2 & Hpoll & Hhw & Hio).
  unfold bind. rewrite drain_poll. unfold bind. rewrite Hpoll.
  unfold ret at 1. unfold k1. repeat step. unfold modify.
  eexists; split; [reflexivity|]. attrs.
  rewrite Hhw. change (hw s1) with b1.
  split; [reflexivity|]. unfold settle.
  destruct (pending b1) eqn:Hp; cbn [complete_swap pending regs];
    auto.
Qed.

Lemma construct_on_board_witness :
  exists s,
    construct
      (env_ok board
         {| regs := bench_regs 800; pending := 2; ready_half := false;
            swaps := 0; latency := fun _ => 3%nat;
            samples := fun _ _ => 0 |}) 3 = (Ret tt, s)
    /\ pending (hw s) = 0%nat.
Proof.
  destruct (construct_on_board
              {| regs := bench_regs 800; pending := 2; ready_half := false;
                 swaps := 0; latency := fun _ => 3%nat;
                 samples := fun _ _ => 0 |} 3) as (s & Hs & _ & Hp & _).
  - cbn. lia.
  - exists s. split; assumption.
Defined.

(** X6. A bus that loses every write is caught by the liveness test
    for every 32-bit content of register 0 but two: the constructor
    raises the test-register [ValueError] unless register 0 holds
    0x7FFFE4B2 or 0xFFFFE4B2, the two fixed points of the transform. *)
Theorem dead_bus_caught (h : Z -> Z) (fuel : nat) :
  0 <= h 0 < 2 ^ 32 ->
  (fst (construct (env_ok dead_bus h) fuel) =
     Exc (ValueError "test register not responding"%string)
   <-> h 0 <> 0x7FFFE4B2 /\ h 0 <> 0xFFFFE4B2).
Proof.
  intros Hv.
  destruct (construct_acquired (env_ok dead_bus h) fuel
              eq_refl eq_refl eq_refl eq_refl) as (_ & Hne & Heq).
  cbn [env_ok device dead_bus bus_read bus_write fst snd] in Hne, Heq.
  assert (Hfix : h 0 = ((h 0 + 4660) * 3) mod 2 ^ 32
                 <-> h 0 = 0x7FFFE4B2 \/ h 0 = 0xFFFFE4B2).
  { change (2 ^ 32) with 4294967296 in *. split.
    - intros H. Z.to_euclidean_division_equations. lia.
    - intros [H | H]; rewrite H; reflexivity. }
  split.
  - intros Hexc. split; intros Hv0.
    + destruct (Heq (proj2 Hfix (or_introl Hv0))) as [Ho | Ho];
        rewrite Ho in Hexc; discriminate.
    + destruct (Heq (proj2 Hfix (or_intror Hv0))) as [Ho | Ho];
        rewrite Ho in Hexc; discriminate.
  - intros [H1 H2]. apply Hne. intros Hf. apply Hfix in Hf. tauto.
Qed.

Lemma dead_bus_caught_witness :
  fst (construct (env_ok dead_bus (fun _ => 0xDEADBEEF)) 1) =
    Exc (ValueError "test register not responding"%string)
  <-> 0xDEADBEEF <> 0x7FFFE4B2 /\ 0xDEADBEEF <> 0xFFFFE4B2.
Proof.
  apply (dead_bus_caught (fun _ => 0xDEADBEEF) 1).
  vm_compute. split; discriminate || reflexivity.
Defined.

(** ** Teardown, further *)

(** X7. When the first [os.open] is refused with [PermissionError], the
    constructor marks the object closed before it re-raises, and so the
    finaliser that runs on the discarded object does nothing: it
    returns without a release and without touching the device. *)
Theorem construct_denied (B : Bus) (env : Env B) (fuel : nat) :
  os_open_buf env = Some PermissionError ->
  let s := snd (construct env fuel) in
  fst (construct env fuel) = Exc (OSError PermissionError)
  /\ _closed s = Some true
  /\ (forall out, __del__ out s = (Ret tt, s))
  /\ log s = []
  /\ hw s = device env.
Proof.
  intros H. unfold construct, __init__. rewrite H.
  cbv beta iota delta [bind modify raise fst snd]. attrs.
  repeat split.
Qed.

Lemma construct_denied_witness :
  let s := snd (construct env_denied 1) in
  fst (construct env_denied 1) = Exc (OSError PermissionError)
  /\ _closed s = Some true
  /\ (forall out, __del__ out s = (Ret tt, s))
  /\ log s = []
  /\ hw s = device env_denied.
Proof.
  apply (construct_denied board env_denied 1). reflexivity.
Defined.

(** [close] works on the attributes only: however it ends, the device
    and the log are as before. *)
Lemma close_device {B : Bus} (out : Outside) (s : HW B) :
  hw (snd (close out s)) = hw s /\ log (snd (close out s)) = log s.
Proof.
  unfold close. rewrite bind_get.
  destruct (_closed s) as [[|]|]; cbn [getattr];
    [split; reflexivity| |split; reflexivity].
  repeat step. unfold mmap_close, os_close.
  destruct (_buf_mmap s); [|split; reflexivity].
  destruct (sample_buffers out); [split; reflexivity|]. repeat step.
  destruct (_reg_mmap s); [|split; reflexivity].
  destruct (register_buffers out); [split; reflexivity|]. repeat step.
  destruct (_buf_fd s); [|split; reflexivity].
  destruct (buf_fd_valid out); [|split; reflexivity]. repeat step.
  destruct (_reg_fd s); [|split; reflexivity].
  destruct (reg_fd_valid out); [|split; reflexivity]. repeat step.
  split; reflexivity.
Qed.

(** X8. The finaliser does what the closed flag tells it. With the flag
    never assigned it raises [AttributeError]; on a closed session it
    returns and changes nothing; on one that is not closed it is exactly
    [close]. So with nothing held outside it gives up both arrays, both
    mappings and both descriptors and sets the flag, after which a
    second finaliser does nothing and an explicit [close] raises; and
    while an array over the sample memory is held outside it raises
    [BufferError] and leaves the session unclosed. However it ends, the
    device and the log are untouched. *)
Theorem del_releases (B : Bus) (out : Outside) (s : HW B) :
  let s' := snd (__del__ out s) in
  hw s' = hw s /\ log s' = log s
  /\ (_closed s = None -> __del__ out s = (Exc AttributeError, s))
  /\ (_closed s = Some true -> __del__ out s = (Ret tt, s))
  /\ (_closed s = Some false -> __del__ out s = close out s)
  /\ (_closed s = Some false -> acquired s -> out = nothing_held ->
      fst (__del__ out s) = Ret tt
      /\ _closed s' = Some true
      /\ (r s', d s') = (false, false)
      /\ (_buf_fd s', _reg_fd s', _buf_mmap s', _reg_mmap s')
         = (false, false, false, false)
      /\ (forall out', __del__ out' s' = (Ret tt, s'))
      /\ (forall out', close out' s' = (Exc (ValueError EmptyString), s')))
  /\ (_closed s = Some false -> _buf_mmap s = true -> views out <> [] ->
      fst (__del__ out s) = Exc BufferError
      /\ _closed s' = Some false
      /\ (r s', d s') = (false, false)).
Proof.
  intros s'.
  assert (Hdev : hw s' = hw s /\ log s' = log s).
  { unfold s'. destruct (_closed s) as [[|]|] eqn:Hc.
    - rewrite (del_closed out s Hc). split; reflexivity.
    - rewrite (del_open out s Hc). apply close_device.
    - rewrite (del_unassigned out s Hc). split; reflexivity. }
  split; [exact (proj1 Hdev)|]. split; [exact (proj2 Hdev)|].
  split; [apply del_unassigned|]. split; [apply del_closed|].
  split; [apply del_open|]. split.
  - intros Hc Ha ->. unfold s'. rewrite (del_open _ s Hc).
    rewrite (close_open s Hc Ha). cbn [fst snd]. attrs.
    do 4 (split; [reflexivity|]). split.
    + intros out'. apply del_closed. reflexivity.
    + intros out'. apply close_closed. reflexivity.
  - intros Hc Hbm Hv. unfold s'. rewrite (del_open _ s Hc).
    rewrite (close_exported out s Hc Hbm Hv). cbn [fst snd]. attrs.
    split; [reflexivity|]. split; [exact Hc | reflexivity].
Qed.

Lemma del_releases_witness :
  let s := bench_session 800 (fun _ => 3%nat) in
  let s' := snd (__del__ nothing_held s) in
  fst (__del__ nothing_held s) = Ret tt
  /\ _closed s' = Some true
  /\ (r s', d s') = (false, false)
  /\ (_buf_fd s', _reg_fd s', _buf_mmap s', _reg_mmap s')
     = (false, false, false, false)
  /\ (forall out', __del__ out' s' = (Ret tt, s'))
  /\ (forall out', close out' s' = (Exc (ValueError EmptyString), s')).
Proof.
  intros s.
  refine (proj1 (proj2 (proj2 (proj2 (proj2 (proj2
            (del_releases board nothing_held s)))))) _ _ eq_refl).
  - vm_compute. reflexivity.
  - vm_compute. repeat split.
Defined.

(** The constructor that raised the test-register error had made its
    four acquisitions and assigned the closed flag. *)
Lemma construct_not_responding {B : Bus} (env : Env B) (fuel : nat) :
  fst (construct env fuel) =
    Exc (ValueError "test register not responding"%string) ->
  _closed (snd (construct env fuel)) = Some false
  /\ acquired (snd (construct env fuel))
  /\ r (snd (construct env fuel)) = true.
Proof.
  intros H.
  destruct (os_open_buf env) as [e|] eqn:H1.
  { rewrite (proj1 (construct_unavailable env fuel e (or_introl H1))) in H.
    discriminate H. }
  destruct (os_open_reg env) as [e|] eqn:H2.
  { rewrite (proj1 (construct_unavailable env fuel e
                      (or_intror (or_introl (conj H1 H2))))) in H.
    discriminate H. }
  destruct (mmap_buf env) as [e|] eqn:H3.
  { rewrite (proj1 (construct_unavailable env fuel e
                      (or_intror (or_intror (or_introl
                         (conj H1 (conj H2 H3))))))) in H.
    discriminate H. }
  destruct (mmap_reg env) as [e|] eqn:H4.
  { rewrite (proj1 (construct_unavailable env fuel e
                      (or_intror (or_intror (or_intror
                         (conj H1 (conj H2 (conj H3 H4)))))))) in H.
    discriminate H. }
  destruct (construct_acquired env fuel H1 H2 H3 H4) as (_ & _ & Heq).
  cbv zeta in Heq.
  match type of Heq with ?back = ?val -> _ =>
    destruct (Z.eq_dec back val) as [Hb | Hb] end.
  { destruct (Heq Hb) as [Ho | Ho]; rewrite Ho in H; discriminate H. }
  clear H Heq.
  unfold construct, __init__. rewrite H1, H2, H3, H4. unfold os_call.
  repeat step.
  change (hw (blank env)) with (device env).
  change (log (blank env)) with (@nil event).
  rewrite land_u32.
  match goal with |- context [negb (?x =? ?y)] =>
    destruct (x =? y) eqn:Eb end.
  { apply Z.eqb_eq in Eb. contradiction. }
  cbn [negb]. unfold raise. cbn [fst snd]. attrs.
  repeat split.
Qed.

(** X24. The finaliser on the object of a constructor that raised. When
    an acquisition failed, other than the first [os.open] with
    [PermissionError], the closed flag was never assigned and the
    finaliser raises [AttributeError]. When the liveness test failed,
    the object holds everything and is not closed: the finaliser is
    [close], which with nothing held outside releases it all. *)
Theorem del_after_failure
        (B : Bus) (env : Env B) (fuel : nat) (out : Outside) :
  let s := snd (construct env fuel) in
  (forall e,
      (os_open_buf env = Some e /\ e <> PermissionError)
      \/ (os_open_buf env = None /\ os_open_reg env = Some e)
      \/ (os_open_buf env = None /\ os_open_reg env = None /\
          mmap_buf env = Some e)
      \/ (os_open_buf env = None /\ os_open_reg env = None /\
          mmap_buf env = None /\ mmap_reg env = Some e) ->
      fst (construct env fuel) = Exc (OSError e)
      /\ _closed s = None
      /\ __del__ out s = (Exc AttributeError, s))
  /\ (fst (construct env fuel) =
        Exc (ValueError "test register not responding"%string) ->
      _closed s = Some false /\ acquired s
      /\ __del__ out s = close out s
      /\ fst (__del__ nothing_held s) = Ret tt
      /\ _closed (snd (__del__ nothing_held s)) = Some true).
Proof.
  intros s. split.
  - intros e He.
    assert (Hc : _closed s = None).
    { unfold s, construct, __init__, bind.
      destruct He as [[H Hp] | [[H1 H] | [(H1 & H2 & H) | (H1 & H2 & H3 & H)]]].
      - rewrite H. destruct e; [contradiction Hp; reflexivity | |];
          reflexivity.
      - rewrite H1, H. reflexivity.
      - rewrite H1, H2, H. reflexivity.
      - rewrite H1, H2, H3, H. reflexivity. }
    split; [|split; [exact Hc | apply del_unassigned; exact Hc]].
    apply construct_unavailable.
    destruct He as [[H _] | [H | [H | H]]]; auto.
  - intros H.
    destruct (construct_not_responding env fuel H) as (Hc & Ha & _).
    fold s in Hc, Ha.
    split; [exact Hc|]. split; [exact Ha|].
    split; [apply del_open; exact Hc|].
    rewrite (del_open nothing_held s Hc), (close_open s Hc Ha).
    split; reflexivity.
Qed.

Lemma del_after_failure_witness :
  let env := @Build_Env board None (Some FileNotFoundError) None None
               (bench 800 (fun _ => 3%nat)) in
  let s := snd (construct env 1) in
  fst (construct env 1) = Exc (OSError FileNotFoundError)
  /\ _closed s = None
  /\ __del__ nothing_held s = (Exc AttributeError, s).
Proof.
  intros env.
  apply (proj1 (del_after_failure board env 1 nothing_held)
           FileNotFoundError).
  right. left. split; reflexivity.
Defined.

(** On a bus that loses writes the constructor raises after it has
    acquired everything, and the finaliser of the discarded object
    releases it. *)
Example del_after_dead_bus :
  let s := snd (construct (env_ok dead_bus (fun _ => 0)) 1) in
  fst (construct (env_ok dead_bus (fun _ => 0)) 1) =
    Exc (ValueError "test register not responding"%string)
  /\ _closed s = Some false
  /\ fst (__del__ nothing_held s) = Ret tt
  /\ _closed (snd (__del__ nothing_held s)) = Some true.
Proof. intros s. repeat split; vm_compute; reflexivity. Qed.

(** ** The readers of register 11 *)

Lemma land_1_testbit (p : Z) : (Z.land p 1 =? 1) = Z.testbit p 0.
Proof.
  change 1 with (Z.ones 1) at 1. rewrite Z.land_ones by lia.
  change (2 ^ 1) with 2. rewrite <- Z.bit0_mod.
  destruct (Z.testbit p 0); reflexivity.
Qed.

Lemma land_pow2 (p n : Z) :
  0 <= n -> Z.land p (2 ^ n) = if Z.testbit p n then 2 ^ n else 0.
Proof.
  intros Hn. apply Z.bits_inj'. intros i Hi.
  rewrite Z.land_spec, Z.pow2_bits_eqb by exact Hn.
  destruct (Z.eqb_spec n i) as [<- | Hni].
  - destruct (Z.testbit p n); cbn [andb].
    + rewrite Z.pow2_bits_true by exact Hn. reflexivity.
    + rewrite Z.bits_0. reflexivity.
  - rewrite andb_false_r.
    destruct (Z.testbit p n).
    + rewrite Z.pow2_bits_false by assumption. reflexivity.
    + rewrite Z.bits_0. reflexivity.
Qed.

Lemma truthy_bit (p n : Z) :
  0 <= n -> truthy (Z.land p (2 ^ n)) = Z.testbit p n.
Proof.
  intros Hn. rewrite land_pow2 by exact Hn. unfold truthy.
  destruct (Z.testbit p n); [|reflexivity].
  assert (0 < 2 ^ n) by (apply Z.pow_pos_nonneg; lia).
  destruct (Z.eqb_spec (2 ^ n) 0); [lia | reflexivity].
Qed.

Lemma switch_value_range (p : Z) :
  Z.land (Z.shiftr p 1) 0xF = (p / 2) mod 16
  /\ 0 <= Z.land (Z.shiftr p 1) 0xF < 16.
Proof.
  change 0xF with (Z.ones 4). rewrite Z.land_ones, Z.shiftr_div_pow2 by lia.
  change (2 ^ 1) with 2. change (2 ^ 4) with 16.
  split; [reflexivity | apply Z.mod_pos_bound; reflexivity].
Qed.

Lemma readers_decode_open {B : Bus} (s : HW B) :
  r s = true ->
  let p := fst (bus_read B 11 (hw s)) in
  let s1 :=
    with_log (log s ++ [Rd 11 p]) (with_hw (snd (bus_read B 11 (hw s))) s) in
  get_button_state s = (Ret (Z.testbit p 0), s1)
  /\ get_off_button_state s = (Ret (Z.testbit p 13), s1)
  /\ get_gain s = (Ret (3 * ((p / 2) mod 16) + 1), s1).
Proof.
  intros Hr p s1.
  unfold get_button_state, get_off_button_state, get_gain.
  rewrite !bind_read by exact Hr. fold p. fold s1. cbv zeta.
  split; [|split].
  - rewrite land_1_testbit. destruct (Z.testbit p 0); reflexivity.
  - unfold ret. change (Z.shiftl 1 13) with (2 ^ 13).
    rewrite truthy_bit by lia. reflexivity.
  - unfold ret. rewrite (proj1 (switch_value_range p)).
    f_equal. f_equal. lia.
Qed.

(** X9. On an open session each of the three readers makes exactly one
    read of register 11, stores nothing and assigns nothing.
    [get_button_state] returns bit 0 of the value read,
    [get_off_button_state] bit 13, and [get_gain] three times the four
    bits 1..4 plus one: one of 1, 4, 7, ..., 46. *)
Theorem readers_decode (B : Bus) (s : HW B) :
  r s = true ->
  let p := fst (bus_read B 11 (hw s)) in
  let s1 :=
    with_log (log s ++ [Rd 11 p]) (with_hw (snd (bus_read B 11 (hw s))) s) in
  get_button_state s = (Ret (Z.testbit p 0), s1)
  /\ get_off_button_state s = (Ret (Z.testbit p 13), s1)
  /\ get_gain s = (Ret (3 * ((p / 2) mod 16) + 1), s1)
  /\ 1 <= 3 * ((p / 2) mod 16) + 1 <= 46.
Proof.
  intros Hr p s1.
  destruct (readers_decode_open s Hr) as (Eb & Eo & Eg).
  fold p in Eb, Eo, Eg. fold s1 in Eb, Eo, Eg.
  split; [exact Eb|]. split; [exact Eo|]. split; [exact Eg|].
  pose proof (Z.mod_pos_bound (p / 2) 16 eq_refl). lia.
Qed.

Lemma readers_decode_witness :
  let s := bench_session 800 (fun _ => 3%nat) in
  let p := fst (bus_read board 11 (hw s)) in
  let s1 :=
    with_log (log s ++ [Rd 11 p])
      (with_hw (B := board) (snd (bus_read board 11 (hw s))) s) in
  get_button_state s = (Ret (Z.testbit p 0), s1)
  /\ get_off_button_state s = (Ret (Z.testbit p 13), s1)
  /\ get_gain s = (Ret (3 * ((p / 2) mod 16) + 1), s1)
  /\ 1 <= 3 * ((p / 2) mod 16) + 1 <= 46.
Proof.
  intros s. apply (readers_decode board s). reflexivity.
Defined.

(** X10. The knob reading is always a valid software gain: on an open
    session, [set_gain] applied to what [get_gain] returns never raises;
    it stores three times the switch value, between 0 and 45, to
    register 4. *)
Theorem set_gain_of_get_gain (B : Bus) (s : HW B) :
  r s = true ->
  let p := fst (bus_read B 11 (hw s)) in
  let sw := (p / 2) mod 16 in
  fst ((g <- get_gain ;; set_gain g) s) = Ret tt
  /\ log (snd ((g <- get_gain ;; set_gain g) s)) =
       log s ++ [Rd 11 p; Wr 4 (3 * sw)]
  /\ 0 <= 3 * sw <= 45.
Proof.
  intros Hr p sw.
  assert (Hsw : 0 <= sw < 16) by (apply Z.mod_pos_bound; reflexivity).
  unfold get_gain. rewrite bind_assoc, bind_read by exact Hr.
  cbv zeta. rewrite bind_ret. fold p.
  rewrite (proj1 (switch_value_range p)). fold sw.
  unfold set_gain.
  destruct (sw * 3 + 1 <? 1) eqn:E1; [apply Z.ltb_lt in E1; lia|].
  destruct (sw * 3 + 1 >? 256) eqn:E2; [apply Z.gtb_lt in E2; lia|].
  cbn [orb]. rewrite reg_write_open by exact Hr. cbn [fst snd]. attrs.
  split; [reflexivity|]. split; [|lia].
  rewrite <- app_assoc. cbn [app].
  replace (sw * 3 + 1 - 1) with (3 * sw) by lia. reflexivity.
Qed.

Lemma set_gain_of_get_gain_witness :
  let s := bench_session 800 (fun _ => 3%nat) in
  let p := fst (bus_read board 11 (hw s)) in
  let sw := (p / 2) mod 16 in
  fst ((g <- get_gain ;; set_gain g) s) = Ret tt
  /\ log (snd ((g <- get_gain ;; set_gain g) s)) =
       log s ++ [Rd 11 p; Wr 4 (3 * sw)]
  /\ 0 <= 3 * sw <= 45.
Proof.
  intros s. apply (set_gain_of_get_gain board s). reflexivity.
Defined.

Lemma call_led_only {B : Bus} (m : method) (s : HW B) :
  is_LED_method m -> led_only s (snd (call m s)).
Proof.
  intros Hm. destruct m; try contradiction; cbn [call].
  - apply framed_LED_off.
  - apply framed_LED_on.
  - apply framed_LED_idle.
  - apply framed_button_press_indicate.
  - apply framed_button_press_indicate_r.
  - apply framed_LED_recording.
Qed.

Lemma switch_outside_leds (v w : Z) :
  outside_leds_equal v w -> (w / 2) mod 16 = (v / 2) mod 16.
Proof.
  intros H.
  rewrite <- (proj1 (switch_value_range w)), <- (proj1 (switch_value_range v)).
  apply Z.bits_inj'. intros i Hi.
  rewrite !Z.land_spec, !Z.shiftr_spec by exact Hi.
  destruct (Z.lt_ge_cases i 4) as [Hlt | Hge].
  - rewrite (H (i + 1)) by lia. reflexivity.
  - change 0xF with (Z.ones 4). rewrite Z.ones_spec_high by lia.
    rewrite !andb_false_r. reflexivity.
Qed.

(** X11. Driving the LEDs never changes what the readers return: with
    register 11 plain storage and the session open, after [LED_off],
    [LED_on], [LED_idle], [button_press_indicate],
    [button_press_indicate_r] or [LED_recording], whatever the arguments
    and however the call ended, [get_button_state],
    [get_off_button_state] and [get_gain] return what they would have
    returned before it. *)
Theorem readers_ignore_leds
        (B : Bus) (St : Storage B 11) (m : method) (s : HW B) :
  is_LED_method m -> r s = true ->
  let s' := snd (call m s) in
  fst (get_button_state s') = fst (get_button_state s)
  /\ fst (get_off_button_state s') = fst (get_off_button_state s)
  /\ fst (get_gain s') = fst (get_gain s).
Proof.
  intros Hm Hr s'.
  assert (Hr' : r s' = true).
  { unfold s'. rewrite (call_keeps_attribute r m); try exact Hr;
      intros; repeat split; reflexivity. }
  destruct (call_led_only m s Hm) as [_ Hreg _]. fold s' in Hreg.
  specialize (Hreg St).
  destruct (readers_decode_open s Hr) as (Eb & Eo & Eg).
  destruct (readers_decode_open s' Hr') as (Eb' & Eo' & Eg').
  rewrite Eb, Eo, Eg, Eb', Eo', Eg'. cbn [fst].
  rewrite !(read_peek B 11 St).
  rewrite (Hreg 0), (Hreg 13) by lia.
  rewrite (switch_outside_leds _ _ Hreg). repeat split.
Qed.

Lemma readers_ignore_leds_witness :
  let s := bench_session 800 (fun _ => 3%nat) in
  let s' := snd (call Call_LED_on s) in
  fst (get_button_state s') = fst (get_button_state s)
  /\ fst (get_off_button_state s') = fst (get_off_button_state s)
  /\ fst (get_gain s') = fst (get_gain s).
Proof.
  intros s.
  apply (readers_ignore_leds board (board_storage 11 eleven_not_status)
           Call_LED_on s); [exact I | reflexivity].
Defined.

(** ** What the LEDs show *)

Lemma led_field_lit (v : Z) : led_field (Z.lor v (Z.shiftl 0xFF 5)) = 0xFF.
Proof.
  unfold led_field. apply Z.bits_inj'. intros i Hi.
  rewrite Z.land_spec, Z.shiftr_spec, Z.lor_spec, Z.shiftl_spec by lia.
  replace (i + 5 - 5) with i by lia.
  destruct (Z.testbit v (i + 5)), (Z.testbit 255 i); reflexivity.
Qed.

Lemma led_field_dark (v : Z) :
  led_field (Z.land v (Z.lnot (Z.shiftl 0xFF 5))) = 0.
Proof.
  rewrite <- (Z.lor_0_r (Z.land v _)).
  change 0 with (Z.shiftl 0 5) at 1. apply led_field_set. lia.
Qed.

Section LedsShow.

Context {B : Bus}.

Lemma rewrap (l1 l2 : list event) (h1 h2 : dev B) (s : HW B) :
  with_log l2 (with_hw h2 (with_log l1 (with_hw h1 s)))
  = with_log l2 (with_hw h2 s).
Proof. destruct s; reflexivity. Qed.

Lemma LED_off_run (s : HW B) :
  r s = true ->
  let v := fst (bus_read B 11 (hw s)) in
  let w := Z.land v (Z.lnot (Z.shiftl 0xFF 5)) in
  LED_off s =
    (Ret tt,
     with_log (log s ++ [Rd 11 v; Wr 11 w])
       (with_hw (bus_write B 11 w (snd (bus_read B 11 (hw s)))) s)).
Proof.
  intros Hr v w. unfold LED_off, iand_reg. repeat step.
  rewrite rewrap, <- app_assoc. reflexivity.
Qed.

Lemma LED_on_run (s : HW B) :
  r s = true ->
  let v := fst (bus_read B 11 (hw s)) in
  let w := Z.lor v (Z.shiftl 0xFF 5) in
  LED_on s =
    (Ret tt,
     with_log (log s ++ [Rd 11 v; Wr 11 w])
       (with_hw (bus_write B 11 w (snd (bus_read B 11 (hw s)))) s)).
Proof.
  intros Hr v w. unfold LED_on, ior_reg. repeat step.
  rewrite rewrap, <- app_assoc. reflexivity.
Qed.

Lemma idle_values_onehot (i : Z) :
  0 <= i < 16 -> py_getitem idle_values i = Some (2 ^ (7 - i / 2)).
Proof.
  intros Hi.
  assert (H : i = 0 \/ i = 1 \/ i = 2 \/ i = 3 \/ i = 4 \/ i = 5 \/ i = 6
              \/ i = 7 \/ i = 8 \/ i = 9 \/ i = 10 \/ i = 11 \/ i = 12
              \/ i = 13 \/ i = 14 \/ i = 15) by lia.
  repeat (destruct H as [-> | H]; [reflexivity|]). subst i. reflexivity.
Qed.

Lemma LED_idle_field (St : Storage B 11) (s : HW B) :
  r s = true -> 0 <= idle_num s < 16 ->
  led_field (peek St (hw (snd (LED_idle s)))) = 2 ^ (7 - idle_num s / 2).
Proof.
  intros Hr Hi.
  pose proof (idle_values_onehot _ Hi) as Hv.
  unfold LED_idle, LED_off, iand_reg, ior_reg, getitem.
  repeat step. rewrite Hv. repeat step.
  match goal with |- context [(if _ then _ else _) ?x] => set (s1 := x) end.
  assert (Hhw : hw (snd ((if idle_num s >? previous_idle_num s
                          then
                            modify (with_previous_idle_num (idle_num s)) ;;
                            modify (with_idle_num (idle_num s + 1)) ;;
                            s0 <- get ;;
                            (if idle_num s0 =? 16
                             then modify (with_idle_num 14) else ret tt)
                          else
                            modify (with_previous_idle_num (idle_num s)) ;;
                            modify (with_idle_num (idle_num s - 1)) ;;
                            s0 <- get ;;
                            (if idle_num s0 =? -1
                             then modify (with_idle_num 1) else ret tt)) s1))
                = hw s1).
  { destruct (idle_num s >? previous_idle_num s); repeat step.
    - destruct (idle_num s + 1 =? 16); reflexivity.
    - destruct (idle_num s - 1 =? -1); reflexivity. }
  rewrite Hhw. unfold s1. attrs.
  rewrite peek_write, (read_peek B 11 St), peek_write.
  apply led_field_set.
  assert (0 <= 7 - idle_num s / 2 <= 7)
    by (Z.to_euclidean_division_equations; lia).
  split; [apply Z.pow_nonneg; lia|].
  change 256 with (2 ^ 8). apply Z.pow_lt_mono_r; lia.
Qed.

Lemma bind_ext {A C} (m : M B A) (k1 k2 : A -> M B C) (s : HW B) :
  (forall a s', k1 a s' = k2 a s') -> bind m k1 s = bind m k2 s.
Proof.
  intros H. unfold bind. destruct (m s) as [[a| |] s1]; try reflexivity.
  apply H.
Qed.

Lemma bind_run {A C} (m : M B A) (k : A -> M B C) (s s' : HW B) (a : A) :
  m s = (Ret a, s') -> bind m k s = k a s'.
Proof. intros H. unfold bind. rewrite H. reflexivity. Qed.

Lemma repeat_n_last (n : nat) (body : M B unit) :
  forall s, repeat_n (S n) body s = (repeat_n n body ;; body) s.
Proof.
  induction n as [|n IH]; intros s.
  - cbn [repeat_n]. unfold bind, ret. destruct (body s) as [[[]| |] s1];
      reflexivity.
  - change (repeat_n (S (S n)) body) with (body ;; repeat_n (S n) body).
    change (repeat_n (S n) body ;; body)
      with ((body ;; repeat_n n body) ;; body).
    rewrite bind_assoc. apply bind_ext. intros _ s1. apply IH.
Qed.

End LedsShow.

(** X12. With register 11 plain storage and the session open, [LED_off]
    returns and leaves the LED field 0x00, and [LED_on] returns and
    leaves it 0xFF, whatever the register held. *)
Theorem LED_on_off_field (B : Bus) (St : Storage B 11) (s : HW B) :
  r s = true ->
  fst (LED_off s) = Ret tt
  /\ led_field (peek St (hw (snd (LED_off s)))) = 0x00
  /\ fst (LED_on s) = Ret tt
  /\ led_field (peek St (hw (snd (LED_on s)))) = 0xFF.
Proof.
  intros Hr.
  rewrite (LED_off_run s Hr), (LED_on_run s Hr). cbn [fst snd]. attrs.
  rewrite !peek_write.
  split; [reflexivity|]. split; [apply led_field_dark|].
  split; [reflexivity | apply led_field_lit].
Qed.

Lemma LED_on_off_field_witness :
  let s := bench_session 800 (fun _ => 3%nat) in
  let St := board_storage 11 eleven_not_status in
  fst (LED_off s) = Ret tt
  /\ led_field (peek St (hw (snd (LED_off s)))) = 0x00
  /\ fst (LED_on s) = Ret tt
  /\ led_field (peek St (hw (snd (LED_on s)))) = 0xFF.
Proof.
  intros s St. apply (LED_on_off_field board St s). reflexivity.
Defined.

(** X13. With register 11 plain storage, the idle animation always
    shows exactly one lit LED: from the initial idle state, the call
    number [n + 1] leaves the LED field at [2 ^ (7 - bounce n / 2)],
    one bit of the eight, where [bounce n] is the position that call
    finds on the way from 0 up to 15 and back down. *)
Theorem LED_idle_shows (B : Bus) (St : Storage B 11) (s : HW B) (n : nat) :
  r s = true -> idle_num s = 0 -> previous_idle_num s = -1 ->
  fst (repeat_n (S n) LED_idle s) = Ret tt
  /\ led_field (peek St (hw (snd (repeat_n (S n) LED_idle s))))
     = 2 ^ (7 - bounce (Z.of_nat n) / 2)
  /\ 0 <= 7 - bounce (Z.of_nat n) / 2 <= 7.
Proof.
  intros Hr Hi Hp.
  assert (H0 : idle_at 0 s) by (repeat split; assumption).
  destruct (LED_idle_calls n 0 s (Z.le_refl 0) H0) as [Ho Hn].
  rewrite Z.add_0_l in Hn.
  rewrite repeat_n_last. unfold bind.
  destruct (repeat_n n LED_idle s) as [o sn]. cbn [fst snd] in Ho, Hn.
  subst o.
  destruct (LED_idle_step _ sn (Nat2Z.is_nonneg n) Hn) as [Ho1 _].
  destruct Hn as (Hrn & Hin & _).
  pose proof (bounce_range (Z.of_nat n)) as Hb.
  split; [exact Ho1|]. split.
  - rewrite <- Hin. apply LED_idle_field; [exact Hrn | rewrite Hin; exact Hb].
  - Z.to_euclidean_division_equations. lia.
Qed.

Lemma LED_idle_shows_witness :
  let s := bench_session 800 (fun _ => 3%nat) in
  let St := board_storage 11 eleven_not_status in
  fst (repeat_n 18 LED_idle s) = Ret tt
  /\ led_field (peek St (hw (snd (repeat_n 18 LED_idle s))))
     = 2 ^ (7 - bounce 17 / 2)
  /\ 0 <= 7 - bounce 17 / 2 <= 7.
Proof.
  intros s St.
  apply (LED_idle_shows board St s 17); reflexivity.
Defined.

(** ** The recording indicator *)

Lemma LED_recording_run {B : Bus} (s : HW B) :
  r s = true ->
  let p := fst (bus_read B 11 (hw s)) in
  let s1 :=
    with_log (log s ++ [Rd 11 p]) (with_hw (snd (bus_read B 11 (hw s))) s) in
  let s' := snd (LED_recording s) in
  let v := rec_blink_value s in
  fst (LED_recording s) = Ret tt
  /\ r s' = true
  /\ (Z.testbit p 0 = true -> s' = s1)
  /\ (Z.testbit p 0 = false ->
      rec_blink_value s' = (if v + 1 =? 100 then 0 else v + 1)
      /\ rec_blink_state s' =
           (if v mod 5 =? 0 then negb (rec_blink_state s)
            else rec_blink_state s)
      /\ (v mod 5 <> 0 -> hw s' = hw s1 /\ log s' = log s1)
      /\ (v mod 5 = 0 ->
          forall St : Storage B 11,
            led_field (peek St (hw s')) =
              if rec_blink_state s then 0xFF else 0x00))
  /\ (0 <= v < 100 -> 0 <= rec_blink_value s' < 100).
Proof.
  intros Hr p s1 s' v. unfold s'. clear s'.
  unfold LED_recording, get_button_state.
  rewrite bind_assoc, bind_read by exact Hr. fold p. fold s1. cbv zeta.
  rewrite land_1_testbit.
  destruct (Z.testbit p 0) eqn:Hbit; rewrite bind_ret.
  - unfold ret. cbn [fst snd].
    split; [reflexivity|]. split; [exact Hr|]. split; [reflexivity|].
    split; [discriminate|]. intros Hv. exact Hv.
  - rewrite bind_get.
    change (rec_blink_value s1) with v.
    change (rec_blink_state s1) with (rec_blink_state s).
    assert (Hr1 : r s1 = true) by exact Hr.
    destruct (Z.eqb_spec (v mod 5) 0) as [H5 | H5].
    + destruct (rec_blink_state s) eqn:Hst.
      * rewrite !bind_assoc.
        rewrite (bind_run _ _ _ _ _ (LED_on_run s1 Hr1)).
        repeat step. change (rec_blink_value s1) with v.
        destruct (Z.eqb_spec (v + 1) 100) as [Hw | Hw];
          unfold modify, ret; cbn [fst snd]; attrs;
          (split; [reflexivity|]); (split; [exact Hr|]);
          (split; [discriminate|]);
          (split; [intros _; split; [reflexivity|];
                   split; [reflexivity|];
                   split; [intros Hn; contradiction|];
                   intros _ St; rewrite peek_write; apply led_field_lit
                  | intros Hv; lia]).
      * rewrite !bind_assoc.
        rewrite (bind_run _ _ _ _ _ (LED_off_run s1 Hr1)).
        repeat step. change (rec_blink_value s1) with v.
        destruct (Z.eqb_spec (v + 1) 100) as [Hw | Hw];
          unfold modify, ret; cbn [fst snd]; attrs;
          (split; [reflexivity|]); (split; [exact Hr|]);
          (split; [discriminate|]);
          (split; [intros _; split; [reflexivity|];
                   split; [reflexivity|];
                   split; [intros Hn; contradiction|];
                   intros _ St; rewrite peek_write; apply led_field_dark
                  | intros Hv; lia]).
    + repeat step. change (rec_blink_value s1) with v.
      destruct (Z.eqb_spec (v + 1) 100) as [Hw | Hw];
        unfold modify, ret; cbn [fst snd]; attrs;
        (split; [reflexivity|]); (split; [exact Hr|]);
        (split; [discriminate|]);
        (split; [intros _; split; [reflexivity|];
                 split; [reflexivity|];
                 split; [intros _; split; reflexivity|];
                 intros Hn; contradiction
                | intros Hv; lia]).
Qed.

(** X14. One call of [LED_recording] on an open session reads register
    11 and returns. With the button bit set in what it read it does
    nothing more. Otherwise it advances the blink counter by one,
    wrapping from 99 to 0, and, when the counter it found was a multiple
    of 5, flips the phase flag after lighting all LEDs (phase was set)
    or switching them off (phase was clear); when the counter was not a
    multiple of 5 it leaves the device and the phase alone. A counter in
    0..99 stays in 0..99. *)
Theorem LED_recording_step (B : Bus) (s : HW B) :
  r s = true ->
  let p := fst (bus_read B 11 (hw s)) in
  let s1 :=
    with_log (log s ++ [Rd 11 p]) (with_hw (snd (bus_read B 11 (hw s))) s) in
  let s' := snd (LED_recording s) in
  let v := rec_blink_value s in
  fst (LED_recording s) = Ret tt
  /\ r s' = true
  /\ (Z.testbit p 0 = true -> s' = s1)
  /\ (Z.testbit p 0 = false ->
      rec_blink_value s' = (if v + 1 =? 100 then 0 else v + 1)
      /\ rec_blink_state s' =
           (if v mod 5 =? 0 then negb (rec_blink_state s)
            else rec_blink_state s)
      /\ (v mod 5 <> 0 -> hw s' = hw s1 /\ log s' = log s1)
      /\ (v mod 5 = 0 ->
          forall St : Storage B 11,
            led_field (peek St (hw s')) =
              if rec_blink_state s then 0xFF else 0x00))
  /\ (0 <= v < 100 -> 0 <= rec_blink_value s' < 100).
Proof. intros Hr. apply LED_recording_run. exact Hr. Qed.

Lemma LED_recording_step_witness :
  let s := bench_session 800 (fun _ => 3%nat) in
  let s' := snd (LED_recording s) in
  fst (LED_recording s) = Ret tt
  /\ rec_blink_value s' = 1
  /\ rec_blink_state s' = false
  /\ led_field (regs (hw s') 11) = 0xFF.
Proof.
  intros s s'.
  destruct (LED_recording_step board s eq_refl) as (Ho & _ & _ & Hup & _).
  destruct (Hup eq_refl) as (Hv & Hst & _ & Hled).
  split; [exact Ho|]. split; [exact Hv|]. split; [exact Hst|].
  exact (Hled eq_refl (board_storage 11 eleven_not_status)).
Defined.

Section Blink.

Context {B : Bus}.

Variable St : Storage B 11.

Lemma blink_counter_next (k : Z) :
  (if k mod 100 + 1 =? 100 then 0 else k mod 100 + 1) = (k + 1) mod 100.
Proof.
  destruct (Z.eqb_spec (k mod 100 + 1) 100);
    Z.to_euclidean_division_equations; lia.
Qed.

Lemma blink_phase_next (k : Z) :
  0 <= k ->
  Z.even ((k + 1 + 4) / 5) =
    if (k mod 100) mod 5 =? 0 then negb (Z.even ((k + 4) / 5))
    else Z.even ((k + 4) / 5).
Proof.
  intros Hk.
  destruct (Z.eqb_spec ((k mod 100) mod 5) 0) as [H5 | H5].
  - replace ((k + 1 + 4) / 5) with (Z.succ ((k + 4) / 5))
      by (Z.to_euclidean_division_equations; lia).
    rewrite Z.even_succ, <- Z.negb_even. reflexivity.
  - f_equal. Z.to_euclidean_division_equations. lia.
Qed.

Lemma LED_recording_blink_step (k : Z) (s : HW B) :
  0 <= k -> blink_at St k s ->
  fst (LED_recording s) = Ret tt /\ blink_at St (k + 1) (snd (LED_recording s)).
Proof.
  intros Hk (Hr & Hbit & Hv & Hst & Hled).
  pose proof (LED_recording_run s Hr) as H. cbv zeta in H.
  destruct H as (Ho & Hr' & _ & Hup & _).
  rewrite (read_peek B 11 St) in Hup.
  destruct (Hup Hbit) as (Hv' & Hst' & Hsame & Htoggle).
  destruct (framed_LED_recording s) as [_ Hreg _]. specialize (Hreg St).
  split; [exact Ho|]. unfold blink_at.
  split; [exact Hr'|].
  split; [rewrite (Hreg 0) by lia; exact Hbit|].
  split; [rewrite Hv', Hv; apply blink_counter_next|].
  rewrite Hv in Hst', Hsame, Htoggle.
  split.
  - rewrite Hst', Hst. symmetry. apply blink_phase_next. exact Hk.
  - intros _. destruct (Z.eqb_spec ((k mod 100) mod 5) 0) as [H5 | H5].
    + rewrite (Htoggle H5 St), Hst'.
      destruct (rec_blink_state s); reflexivity.
    + destruct (Hsame H5) as [Hhw _]. rewrite Hhw, Hst'. attrs.
      rewrite peek_read. apply Hled.
      destruct (Z.eq_dec k 0) as [-> | Hk0];
        [contradiction H5; reflexivity | lia].
Qed.

Lemma LED_recording_blink_calls (n : nat) :
  forall (k : Z) (s : HW B),
    0 <= k -> blink_at St k s ->
    fst (repeat_n n LED_recording s) = Ret tt
    /\ blink_at St (k + Z.of_nat n) (snd (repeat_n n LED_recording s)).
Proof.
  induction n as [|n IH]; intros k s Hk Hs.
  - simpl. rewrite Z.add_0_r. split; [reflexivity | exact Hs].
  - destruct (LED_recording_blink_step k s Hk Hs) as [Ho Hs1].
    cbn [repeat_n]. unfold bind.
    destruct (LED_recording s) as [o s1]. cbn [fst snd] in Ho, Hs1. subst o.
    replace (k + Z.of_nat (S n)) with (k + 1 + Z.of_nat n) by lia.
    apply IH; [lia | exact Hs1].
Qed.

End Blink.

(** X15. With register 11 plain storage and the record button up, the
    recording indicator blinks with a period of ten calls: from the
    initial blink state, [n] calls of [LED_recording] all return, leave
    the counter at [n mod 100] and, for [n >= 1], leave all LEDs lit when
    [(n + 4) / 5] is odd (calls 1..5, 11..15, ...) and all off when it is
    even (calls 6..10, 16..20, ...). The phase flag is always the
    opposite of what the LEDs show, and the button bit stays clear. *)
Theorem LED_recording_blinks
        (B : Bus) (St : Storage B 11) (s : HW B) (n : nat) :
  r s = true -> rec_blink_value s = 0 -> rec_blink_state s = true ->
  Z.testbit (peek St (hw s)) 0 = false ->
  let s' := snd (repeat_n n LED_recording s) in
  fst (repeat_n n LED_recording s) = Ret tt
  /\ rec_blink_value s' = Z.of_nat n mod 100
  /\ rec_blink_state s' = Z.even ((Z.of_nat n + 4) / 5)
  /\ Z.testbit (peek St (hw s')) 0 = false
  /\ ((0 < n)%nat ->
      led_field (peek St (hw s')) =
        if Z.odd ((Z.of_nat n + 4) / 5) then 0xFF else 0x00).
Proof.
  intros Hr Hv Hst Hbit s'.
  assert (H0 : blink_at St 0 s).
  { repeat split; try assumption. intros H; lia. }
  destruct (LED_recording_blink_calls St n 0 s (Z.le_refl 0) H0)
    as [Ho (_ & Hbit' & Hv' & Hst' & Hled')].
  fold s' in Hbit', Hv', Hst', Hled'. rewrite Z.add_0_l in *.
  split; [exact Ho|]. split; [exact Hv'|]. split; [exact Hst'|].
  split; [exact Hbit'|].
  intros Hn. rewrite Hled' by lia. rewrite Hst', <- Z.negb_even.
  destruct (Z.even _); reflexivity.
Qed.

Lemma LED_recording_blinks_witness :
  let s := bench_session 800 (fun _ => 3%nat) in
  let St := board_storage 11 eleven_not_status in
  let s' := snd (repeat_n 7 LED_recording s) in
  fst (repeat_n 7 LED_recording s) = Ret tt
  /\ rec_blink_value s' = 7 mod 100
  /\ rec_blink_state s' = Z.even ((7 + 4) / 5)
  /\ Z.testbit (peek St (hw s')) 0 = false
  /\ ((0 < 7)%nat ->
      led_field (peek St (hw s')) =
        if Z.odd ((7 + 4) / 5) then 0xFF else 0x00).
Proof.
  intros s St.
  apply (LED_recording_blinks board St s 7); reflexivity.
Defined.

(** ** The quick blink *)

Lemma sleeps_app (t1 t2 : list event) :
  sleeps (t1 ++ t2) = sleeps t1 ++ sleeps t2.
Proof.
  induction t1 as [|[i v|i v|q] t1 IH]; cbn [sleeps app];
    rewrite ?IH; reflexivity.
Qed.

Section QuickBlink.

Context {B : Bus}.

Lemma blinked_trans (n1 n2 : nat) (s1 s2 s3 : HW B) :
  blinked n1 s1 s2 -> blinked n2 s2 s3 -> blinked (n1 + n2) s1 s3.
Proof.
  intros (Hr1 & Hio1 & (t1 & Hl1 & Hs1 & Hw1) & Hp1)
         (Hr2 & Hio2 & (t2 & Hl2 & Hs2 & Hw2) & Hp2).
  split; [exact Hr2|]. split; [eapply io_only_trans; eauto|]. split.
  - exists (t1 ++ t2). rewrite Hl2, Hl1, app_assoc, sleeps_app, Hs1, Hs2.
    split; [reflexivity|]. split; [symmetry; apply repeat_app|].
    apply Forall_app; split; assumption.
  - intros St. destruct (Hp1 St) as [Ho1 Hd1]. destruct (Hp2 St) as [Ho2 Hd2].
    split; [eapply outside_leds_equal_trans; eauto | auto].
Qed.

(** [time.sleep] accepts a tenth of a second. *)
Lemma sleep_tenth :
  @sleep B 0.1%float =
    modify (fun s => with_log (log s ++ [Sleep 0.1%float]) s).
Proof. reflexivity. Qed.

Lemma blink_round (s : HW B) :
  r s = true ->
  let round :=
    LED_on ;; sleep 0.1%float ;; LED_off ;; sleep 0.1%float in
  fst (round s) = Ret tt
  /\ blinked 2 s (snd (round s))
  /\ forall St : Storage B 11,
       led_field (peek St (hw (snd (round s)))) = 0.
Proof.
  intros Hr round. unfold round.
  rewrite (bind_run _ _ _ _ _ (LED_on_run s Hr)).
  rewrite !sleep_tenth. rewrite bind_modify. attrs.
  match goal with |- context [bind LED_off _ ?x] => set (s1 := x) end.
  assert (Hr1 : r s1 = true) by exact Hr.
  rewrite (bind_run _ _ _ _ _ (LED_off_run s1 Hr1)).
  unfold modify. cbn [fst snd]. unfold s1. attrs.
  set (v := fst (bus_read B 11 (hw s))).
  set (h1 := bus_write B 11 (Z.lor v (Z.shiftl 255 5))
               (snd (bus_read B 11 (hw s)))).
  split; [reflexivity|]. split; [split; [exact Hr|]; split; [|split]|].
  - unfold io_only. attrs. destruct s; reflexivity.
  - eexists. repeat rewrite <- app_assoc. split; [reflexivity|].
    split; [reflexivity|]. repeat constructor.
  - intros St. attrs. rewrite peek_write.
    rewrite (read_peek B 11 St). unfold h1. rewrite peek_write.
    unfold v. rewrite (read_peek B 11 St).
    split.
    + eapply outside_leds_equal_trans;
        [apply (set_keeps_outside _ 0xFF); lia | apply clear_keeps_outside].
    + intros _. apply led_field_dark.
  - intros St. attrs. rewrite peek_write. apply led_field_dark.
Qed.

Lemma blink_rounds (n : nat) :
  forall s : HW B,
    r s = true ->
    let round :=
      LED_on ;; sleep 0.1%float ;; LED_off ;; sleep 0.1%float in
    fst (repeat_n n round s) = Ret tt
    /\ blinked (2 * n) s (snd (repeat_n n round s)).
Proof.
  induction n as [|n IH]; intros s Hr round.
  - cbn [repeat_n]. unfold ret. cbn [fst snd]. split; [reflexivity|].
    split; [exact Hr|]. split; [apply io_only_refl|]. split.
    + exists []. rewrite app_nil_r. repeat split. constructor.
    + intros St. split; [apply outside_leds_equal_refl | auto].
  - destruct (blink_round s Hr) as (Ho & Hb & _). fold round in Ho, Hb.
    cbn [repeat_n]. unfold bind.
    destruct (round s) as [o s1]. cbn [fst snd] in Ho, Hb. subst o.
    destruct (IH s1 (proj1 Hb)) as [Ho2 Hb2]. fold round in Ho2, Hb2.
    split; [exact Ho2|].
    replace (2 * S n)%nat with (2 + 2 * n)%nat by lia.
    eapply blinked_trans; eauto.
Qed.

End QuickBlink.

(** X16. On an open session [LED_quick_blink] returns after exactly ten
    sleeps of a tenth of a second. It assigns no attribute and stores
    only to register 11, keeping what it reads there outside bits 5..12;
    with register 11 plain storage it ends with the LED field dark. *)
Theorem LED_quick_blink_run (B : Bus) (s : HW B) :
  r s = true ->
  let s' := snd (LED_quick_blink s) in
  fst (LED_quick_blink s) = Ret tt
  /\ io_only s s'
  /\ (exists t, log s' = log s ++ t
                /\ sleeps t = repeat 0.1%float 10
                /\ Forall (stores_within [11]) t)
  /\ forall St : Storage B 11,
       outside_leds_equal (peek St (hw s)) (peek St (hw s'))
       /\ led_field (peek St (hw s')) = 0.
Proof.
  intros Hr s'. unfold s'. clear s'. unfold LED_quick_blink. cbv zeta.
  rewrite (bind_run _ _ _ _ _ (LED_off_run s Hr)).
  match goal with |- context [repeat_n 5 _ ?x] => set (s1 := x) end.
  assert (Hr1 : r s1 = true) by exact Hr.
  destruct (blink_rounds 5 s1 Hr1)
    as [Ho (Hr' & Hio & (t & Hl & Hs & Hw) & Hp)].
  cbv zeta in Ho, Hio, Hl, Hp.
  split; [exact Ho|]. split.
  - eapply io_only_trans; [|exact Hio].
    unfold io_only, s1. attrs. destruct s; reflexivity.
  - split.
    + exists ([Rd 11 (fst (bus_read B 11 (hw s)));
               Wr 11 (Z.land (fst (bus_read B 11 (hw s)))
                        (Z.lnot (Z.shiftl 255 5)))] ++ t).
      rewrite Hl. unfold s1 at 1. attrs. rewrite <- app_assoc.
      split; [reflexivity|]. split; [exact Hs|].
      repeat constructor. exact Hw.
    + intros St. destruct (Hp St) as [Hout Hdark].
      assert (Hpk : peek St (hw s1)
                    = Z.land (peek St (hw s)) (Z.lnot (Z.shiftl 255 5))).
      { unfold s1. attrs. rewrite peek_write, (read_peek B 11 St).
        reflexivity. }
      split.
      * eapply outside_leds_equal_trans; [|exact Hout].
        rewrite Hpk. apply clear_keeps_outside.
      * apply Hdark. rewrite Hpk. apply led_field_dark.
Qed.

Lemma LED_quick_blink_run_witness :
  let s := bench_session 800 (fun _ => 3%nat) in
  let s' := snd (LED_quick_blink s) in
  fst (LED_quick_blink s) = Ret tt
  /\ io_only s s'
  /\ (exists t, log s' = log s ++ t
                /\ sleeps t = repeat 0.1%float 10
                /\ Forall (stores_within [11]) t)
  /\ forall St : Storage board 11,
       outside_leds_equal (peek St (hw s)) (peek St (hw s'))
       /\ led_field (peek St (hw s')) = 0.
Proof.
  intros s. apply (LED_quick_blink_run board s). reflexivity.
Defined.

(** ** Swaps and views, further *)

Lemma land_1_cases (x : Z) : Z.land x 1 = 0 \/ Z.land x 1 = 1.
Proof.
  assert (H : Z.land x 1 = x mod 2 ^ 1) by (apply (Z.land_ones x 1); lia).
  change (2 ^ 1) with 2 in H. pose proof (Z.mod_pos_bound x 2 eq_refl). lia.
Qed.

Section Views.

Context {B : Bus}.

Lemma poll_status_no_exc (fuel : nat) :
  forall (s s' : HW B) (e : exn),
    r s = true -> poll_status fuel s <> (Exc e, s').
Proof.
  induction fuel as [|fuel IH]; intros s s' e Hr; cbn [poll_status].
  - discriminate.
  - rewrite bind_read by exact Hr.
    destruct (truthy _); [apply IH; exact Hr | discriminate].
Qed.

(** On an open session a swap returns or is still spinning. *)
Lemma swap_buffers_open (fuel : nat) (s : HW B) :
  r s = true ->
  (exists w o, fst (swap_buffers fuel s) = Ret (w, o) /\ (w = 0 \/ w = 1))
  \/ fst (swap_buffers fuel s) = Spin.
Proof.
  intros Hr. unfold swap_buffers. rewrite bind_write by exact Hr.
  match goal with |- context [bind (poll_status fuel) _ ?x] =>
    set (s1 := x) end.
  destruct (poll_status_frame fuel s1 Hr) as (Hio & _ & _).
  unfold bind.
  destruct (poll_status fuel s1) as [[status| |] s2] eqn:Hp; cbn [snd] in Hio.
  - assert (Hr2 : r s2 = true) by (rewrite (io_only_r _ _ Hio); exact Hr).
    rewrite (reg_read_open 3 s2 Hr2). unfold ret. cbn [fst].
    left. eexists _, _. split; [reflexivity | apply land_1_cases].
  - exfalso. exact (poll_status_no_exc fuel s1 s2 e Hr Hp).
  - right. reflexivity.
Qed.

End Views.

(** X17. On an open session [swap_buffers] never raises: with the fuel
    it is given it either returns, and the half it returns is 0 or 1, or
    it is still waiting for the busy bit to clear. Either way it has
    assigned no attribute of the session. *)
Theorem swap_buffers_never_raises (B : Bus) (fuel : nat) (s : HW B) :
  r s = true ->
  io_only s (snd (swap_buffers fuel s))
  /\ ((exists w o,
         fst (swap_buffers fuel s) = Ret (w, o) /\ (w = 0 \/ w = 1))
      \/ fst (swap_buffers fuel s) = Spin).
Proof.
  intros Hr. split.
  - apply (swap_buffers_frame fuel s Hr).
  - apply swap_buffers_open. exact Hr.
Qed.

Lemma swap_buffers_never_raises_witness :
  let s := bench_session 800 (fun _ => 3%nat) in
  io_only s (snd (swap_buffers 2 s))
  /\ ((exists w o,
         fst (swap_buffers 2 s) = Ret (w, o) /\ (w = 0 \/ w = 1))
      \/ fst (swap_buffers 2 s) = Spin).
Proof.
  intros s. apply (swap_buffers_never_raises board 2 s). reflexivity.
Defined.

Lemma get_data_returned
      {B : Bus} (fuel : nat) (s s' : HW B) (v : ndview) :
  get_data fuel s = (Ret v, s') ->
  (view_half v = 0 \/ view_half v = 1)
  /\ 0 <= view_len v <= half_len
  /\ snd (view_shape v) =
       (if _store_raw_data s then num_mics s else num_chans s)
  /\ 0 < snd (view_shape v)
  /\ 0 <= fst (view_shape v)
  /\ fst (view_shape v) * snd (view_shape v) = view_len v
  /\ (forall h,
        concat (view_data h v) =
          map (fun k => bus_sample B h (view_half v) (Z.of_nat k))
              (seq 0 (Z.to_nat (view_len v))))
  /\ io_only s s'.
Proof.
  intros H.
  destruct (swap_buffers fuel s) as [[[w b]| |] s1] eqn:Hs;
    try (unfold get_data, bind in H; rewrite Hs in H; discriminate H).
  rewrite (get_data_after_swap _ _ _ _ _ Hs) in H.
  destruct (swap_buffers_returns _ _ _ _ _ Hs)
    as (_ & status & _ & _ & _ & Hw & Hio & _).
  destruct (d s); [|discriminate H].
  set (n := py_slice_len (Z.shiftr b 1) half_len) in *.
  assert (Hn : 0 <= n <= half_len)
    by (apply py_slice_len_range; discriminate).
  destruct (reshape_rows n _) as [[rows cols]|] eqn:Hshape;
    [|discriminate H].
  inversion H; subst v s'; clear H. cbn [view_half view_len view_shape fst snd].
  destruct (reshape_rows_Some _ _ _ _ (proj1 Hn) Hshape)
    as (Hc & Hpos & Hrows & Hprod).
  split; [rewrite Hw; apply land_1_cases|].
  split; [exact Hn|]. split; [exact Hc|]. split; [exact Hpos|].
  split; [exact Hrows|]. split; [exact Hprod|]. split; [|exact Hio].
  intros h. rewrite (view_data_flat h);
    cbn [view_half view_len view_shape fst snd]; try reflexivity; lia.
Qed.


(** X18. Every view [get_data] returns is within the sample memory and
    consistent: its half is 0 or 1, its length is between 0 and the
    length of a half, its row width is the positive width the capture
    mode selects, and rows times width is exactly its length, so that
    the view shows the first [view_len] samples of its half and nothing
    else. The call has assigned no attribute. *)
Theorem get_data_view_safe
        (B : Bus) (fuel : nat) (s s' : HW B) (v : ndview) :
  get_data fuel s = (Ret v, s') ->
  (view_half v = 0 \/ view_half v = 1)
  /\ 0 <= view_len v <= half_len
  /\ snd (view_shape v) =
       (if _store_raw_data s then num_mics s else num_chans s)
  /\ 0 < snd (view_shape v)
  /\ 0 <= fst (view_shape v)
  /\ fst (view_shape v) * snd (view_shape v) = view_len v
  /\ (forall h,
        concat (view_data h v) =
          map (fun k => bus_sample B h (view_half v) (Z.of_nat k))
              (seq 0 (Z.to_nat (view_len v))))
  /\ io_only s s'.
Proof. apply get_data_returned. Qed.

Lemma get_data_view_safe_witness :
  let s := bench_session 800 (fun _ => 3%nat) in
  let v := {| view_half := 1; view_len := 400; view_shape := (100, 4) |} in
  (view_half v = 0 \/ view_half v = 1)
  /\ 0 <= view_len v <= half_len
  /\ snd (view_shape v) =
       (if _store_raw_data s then num_mics s else num_chans s)
  /\ 0 < snd (view_shape v)
  /\ 0 <= fst (view_shape v)
  /\ fst (view_shape v) * snd (view_shape v) = view_len v
  /\ (forall h,
        concat (view_data h v) =
          map (fun k => bus_sample board h (view_half v) (Z.of_nat k))
              (seq 0 (Z.to_nat (view_len v))))
  /\ io_only s (snd (get_data 4 s)).
Proof.
  intros s v.
  apply (get_data_view_safe board 4 s (snd (get_data 4 s)) v).
  vm_compute. reflexivity.
Defined.

(** X19. When its swap has returned offset [b] and the sample array is
    in place, [get_data] cuts the [b >> 1] samples at the end of the
    half and raises numpy's [ValueError] exactly when the width the
    capture mode selects is not positive or does not divide the number
    of samples left; otherwise it returns. So an offset beyond the half
    gives a view of the whole half, and a board that reports no
    microphones (or no channels) makes every [get_data] raise. *)
Theorem get_data_errors
        (B : Bus) (fuel : nat) (s s1 : HW B) (which b : Z) :
  swap_buffers fuel s = (Ret (which, b), s1) ->
  d s = true ->
  let width := if _store_raw_data s then num_mics s else num_chans s in
  let n := py_slice_len (Z.shiftr b 1) half_len in
  (fst (get_data fuel s) = Exc (ValueError "cannot reshape array"%string)
   <-> width <= 0 \/ n mod width <> 0)
  /\ (~ (width <= 0 \/ n mod width <> 0) ->
      get_data fuel s =
        (Ret {| view_half := which; view_len := n;
                view_shape := (n / width, width) |}, s1))
  /\ (half_len <= b / 2 -> n = half_len)
  /\ (0 <= b -> b / 2 <= half_len -> n = b / 2).
Proof.
  intros Hs Hd width n.
  rewrite (get_data_after_swap _ _ _ _ _ Hs), Hd. fold width. fold n.
  assert (Hhalf : Z.shiftr b 1 = b / 2)
    by (rewrite Z.shiftr_div_pow2 by lia; reflexivity).
  split; [|split; [|split]].
  - destruct (reshape_rows n width) as [shape|] eqn:E; cbn [fst].
    + split; [discriminate|]. intros Hbad.
      apply reshape_rows_None in Hbad. congruence.
    + split; [intros _; apply reshape_rows_None; exact E | reflexivity].
  - intros Hok. unfold reshape_rows.
    destruct (Z.leb_spec width 0); [exfalso; apply Hok; left; lia|].
    destruct (Z.eqb_spec (n mod width) 0);
      [reflexivity | exfalso; apply Hok; right; assumption].
  - intros Hb. unfold n, py_slice_len. rewrite Hhalf.
    assert (0 < half_len) by reflexivity.
    destruct (Z.ltb_spec (b / 2) 0); lia.
  - intros Hb Hfit. unfold n, py_slice_len. rewrite Hhalf.
    assert (0 <= b / 2) by (apply Z.div_pos; lia).
    destruct (Z.ltb_spec (b / 2) 0); lia.
Qed.

Lemma get_data_errors_witness :
  let s := bench_session 0x2000_0000 (fun _ => 3%nat) in
  fst (get_data 4 s) <> Exc (ValueError "cannot reshape array"%string)
  /\ get_data 4 s =
       (Ret {| view_half := 1; view_len := half_len;
               view_shape := (half_len / 4, 4) |},
        snd (swap_buffers 4 s)).
Proof.
  intros s.
  destruct (get_data_errors board 4 s (snd (swap_buffers 4 s)) 1 0x2000_0000)
    as (Herr & Hok & Hclamp & _).
  - vm_compute. reflexivity.
  - reflexivity.
  - assert (Hgood : ~ (4 <= 0 \/ half_len mod 4 <> 0)).
    { intros [H | H]; [lia | apply H; reflexivity]. }
    split.
    + intros Hexc. apply Herr in Hexc.
      rewrite (Hclamp ltac:(vm_compute; discriminate)) in Hexc.
      apply Hgood. exact Hexc.
    + pose proof (Hclamp ltac:(vm_compute; discriminate)) as Hn.
      cbv zeta in Hok. rewrite Hn in Hok. apply Hok. exact Hgood.
Defined.

(** ** Registers a call leaves alone *)

(** X20. A call leaves every plain-storage register outside its
    footprint exactly as it was, whatever the session and however the
    call ends: [set_gain] does not disturb the capture mode, no LED
    method disturbs the gain, and nothing but a swap touches the status
    register. *)
Theorem call_frame_registers
        (B : Bus) (m : method) (s : HW B) (j : Z) (St : Storage B j) :
  ~ In j (footprint m) ->
  peek St (hw (snd (call m s))) = peek St (hw s).
Proof.
  intros Hj.
  apply (keeps_call (fun s s' => peek St (hw s') = peek St (hw s))).
  - reflexivity.
  - intros s1 s2 s3 H12 H23. rewrite H23. exact H12.
  - intros i s0. unfold reg_read. destruct (r s0); [|reflexivity].
    pose proof (peek_read B j St i (hw s0)) as Hp.
    destruct (bus_read B i (hw s0)) as [v h]. exact Hp.
  - intros secs s0. unfold sleep. destruct (sleep_refusal secs); reflexivity.
  - intros i v Hi s0. unfold reg_write. destruct (r s0); [|reflexivity].
    cbn [snd]. attrs. apply peek_write_other. intros ->. contradiction.
  - intros _ b s0. reflexivity.
  - intros _ s0. repeat split; reflexivity.
Qed.

Lemma call_frame_registers_witness :
  let s := bench_session 800 (fun _ => 3%nat) in
  peek (board_storage 10 ten_not_status) (hw (snd (call (Call_set_gain 7) s)))
  = peek (board_storage 10 ten_not_status) (hw s).
Proof.
  intros s.
  apply (call_frame_registers board (Call_set_gain 7) s 10).
  cbn. intros [H | H]; [discriminate H | exact H].
Defined.

(** X21. The three setters compose: on an open session with registers
    4, 5 and 10 plain storage, [set_gain g] (with [g] in range), then
    [set_use_fake_mics f], then [set_store_raw_data b] without [wait] all
    return, and afterwards register 4 holds [g - 1], register 5 holds 1
    or 0 as [f] says, register 10 holds the mode bit and the mirror is
    [b]. The three stores are the only bus traffic. *)
Theorem setters_compose
        (B : Bus) (St4 : Storage B 4) (St5 : Storage B 5)
        (St10 : Storage B 10) (s : HW B) (g : Z) (f b : bool) (fuel : nat) :
  r s = true -> 1 <= g <= 256 ->
  let prog :=
    set_gain g ;; set_use_fake_mics f ;; set_store_raw_data b false fuel in
  let s' := snd (prog s) in
  fst (prog s) = Ret tt
  /\ log s' = log s ++ [Wr 4 (g - 1); Wr 5 (if f then 1 else 0);
                        Wr 10 (Z.b2z b)]
  /\ peek St4 (hw s') = g - 1
  /\ peek St5 (hw s') = (if f then 1 else 0)
  /\ peek St10 (hw s') = Z.b2z b
  /\ _store_raw_data s' = b.
Proof.
  intros Hr Hg prog s'. unfold s', prog. clear s' prog.
  unfold set_gain, set_use_fake_mics, set_store_raw_data.
  destruct (g <? 1) eqn:E1; [apply Z.ltb_lt in E1; lia|].
  destruct (g >? 256) eqn:E2; [apply Z.gtb_lt in E2; lia|].
  cbn [orb]. repeat step. unfold ret. cbn [fst snd]. attrs.
  split; [reflexivity|].
  split; [repeat rewrite <- app_assoc; reflexivity|].
  split; [rewrite !peek_write_other by discriminate; apply peek_write|].
  split; [rewrite peek_write_other by discriminate; apply peek_write|].
  split; [apply peek_write | reflexivity].
Qed.

Lemma setters_compose_witness :
  let s := bench_session 800 (fun _ => 3%nat) in
  let prog :=
    set_gain 7 ;; set_use_fake_mics true ;; set_store_raw_data false false 1 in
  let s' := snd (prog s) in
  fst (prog s) = Ret tt
  /\ log s' = log s ++ [Wr 4 (7 - 1); Wr 5 1; Wr 10 (Z.b2z false)]
  /\ peek (board_storage 4 four_not_status) (hw s') = 7 - 1
  /\ peek (board_storage 5 ltac:(discriminate)) (hw s') = 1
  /\ peek (board_storage 10 ten_not_status) (hw s') = Z.b2z false
  /\ _store_raw_data s' = false.
Proof.
  intros s.
  apply (setters_compose board _ _ _ s 7 true false 1); [reflexivity | lia].
Defined.

(** X22. A mode switch takes effect on the next [get_data]: after
    [set_store_raw_data b] without [wait], a [get_data] that returns a
    view returns one whose rows are as wide as the microphone count
    when [b] is true and as the channel count when it is false. *)
Theorem get_data_after_mode_switch
        (B : Bus) (s s' : HW B) (b : bool) (fuel : nat) (v : ndview) :
  (set_store_raw_data b false fuel ;; get_data fuel) s = (Ret v, s') ->
  snd (view_shape v) = (if b then num_mics s else num_chans s)
  /\ 0 < snd (view_shape v)
  /\ fst (view_shape v) * snd (view_shape v) = view_len v
  /\ _store_raw_data s' = b.
Proof.
  unfold set_store_raw_data. destruct (r s) eqn:Hr.
  - repeat step. intros H.
    destruct (get_data_returned _ _ _ _ H)
      as (_ & _ & Hw & Hpos & _ & Hprod & _ & Hio).
    attrs.
    split; [exact Hw|]. split; [exact Hpos|]. split; [exact Hprod|].
    rewrite Hio. reflexivity.
  - repeat step. rewrite bind_write_None by (attrs; exact Hr). discriminate.
Qed.

Lemma get_data_after_mode_switch_witness :
  let s := bench_session 800 (fun _ => 3%nat) in
  let res := (set_store_raw_data false false 4 ;; get_data 4) s in
  snd (view_shape {| view_half := 1; view_len := 400;
                     view_shape := (200, 2) |})
  = (if false then num_mics s else num_chans s)
  /\ 0 < 2
  /\ 200 * 2 = 400
  /\ _store_raw_data (snd res) = false.
Proof.
  intros s res.
  apply (get_data_after_mode_switch board s (snd res) false 4
           {| view_half := 1; view_len := 400; view_shape := (200, 2) |}).
  vm_compute. reflexivity.
Defined.

(** ** The idle animation, from any position *)

(** X23. Whatever the direction marker holds, an idle call on an open
    session whose counter is in 0..15 returns, moves the counter by
    exactly one step, keeps it in 0..15 and records the old position as
    the direction marker. With a counter of 16 or more, or below -16,
    the call raises [IndexError] after clearing the LED field and leaves
    both counters as they were. *)
Theorem LED_idle_in_range (B : Bus) (s : HW B) :
  r s = true ->
  let s' := snd (LED_idle s) in
  (0 <= idle_num s < 16 ->
   fst (LED_idle s) = Ret tt
   /\ 0 <= idle_num s' < 16
   /\ (idle_num s' = idle_num s + 1 \/ idle_num s' = idle_num s - 1)
   /\ previous_idle_num s' = idle_num s)
  /\ (idle_num s < -16 \/ 16 <= idle_num s ->
      fst (LED_idle s) = Exc IndexError
      /\ animation s' = animation s
      /\ exists v v',
           log s' = log s ++ [Rd 11 v;
                              Wr 11 (Z.land v (Z.lnot (Z.shiftl 0xFF 5)));
                              Rd 11 v']).
Proof.
  intros Hr s'. unfold s'. clear s'. split.
  - intros Hi.
    destruct (idle_values_getitem (idle_num s) Hi) as [v Hv].
    unfold LED_idle, LED_off, iand_reg, ior_reg, getitem.
    repeat step. rewrite Hv. repeat step.
    destruct (idle_num s >? previous_idle_num s); repeat step.
    + destruct (Z.eqb_spec (idle_num s + 1) 16);
        unfold modify, ret; cbn [fst snd]; attrs;
        (split; [reflexivity|]); (split; [lia|]);
        (split; [lia | reflexivity]).
    + destruct (Z.eqb_spec (idle_num s - 1) (-1));
        unfold modify, ret; cbn [fst snd]; attrs;
        (split; [reflexivity|]); (split; [lia|]);
        (split; [lia | reflexivity]).
  - intros Hi.
    assert (Hnone : py_getitem idle_values (idle_num s) = None).
    { apply (proj2 (proj2 (py_getitem_cases idle_values (idle_num s)))).
      change (Z.of_nat (List.length idle_values)) with 16. lia. }
    unfold LED_idle, LED_off, iand_reg, ior_reg, getitem.
    repeat step. rewrite Hnone. rewrite !bind_raise. cbn [fst snd].
    unfold animation. attrs.
    split; [reflexivity|]. split; [reflexivity|].
    eexists _, _. repeat rewrite <- app_assoc. reflexivity.
Qed.

Lemma LED_idle_in_range_witness :
  let s := with_idle_num 15 (bench_session 800 (fun _ => 3%nat)) in
  let s' := snd (LED_idle s) in
  fst (LED_idle s) = Ret tt
  /\ 0 <= idle_num s' < 16
  /\ (idle_num s' = idle_num s + 1 \/ idle_num s' = idle_num s - 1)
  /\ previous_idle_num s' = idle_num s.
Proof.
  intros s.
  apply (proj1 (LED_idle_in_range board s eq_refl)).
  cbn. lia.
Defined.
